(** * polybot: the execution-control core of [bot.py]

    A shallow embedding of the placement ledger, the rate limiter, the
    staking engine, the order dispatcher and the poll loop of [bot.py],
    followed by the properties of these functions.

    Conventions.
    - Python [float] is IEEE binary64; it is embedded as Rocq's primitive
      [float], so that the arithmetic of the model rounds as the program does.
    - Python [int] is [Z].
    - A JSON document is a [pyval]; a [dict] with string keys is a
      [gmap string _].
    - Text is taken over the ASCII range (the JSON the bot reads and writes). *)

From Stdlib Require Import ZArith Bool Ascii String.
From Stdlib Require Import PrimFloat SpecFloat FloatOps FloatAxioms.
From stdpp Require Import gmap strings list fin_maps sorting.

Set Warnings "-inexact-float,-register-all,-clear-no-such-hyp".

Local Open Scope Z_scope.

(** ** Python values *)

(** The values [json.load] produces. *)
Inductive pyval :=
| VNone
| VBool (b : bool)
| VInt (z : Z)
| VFloat (f : float)
| VStr (s : string)
| VList (l : list pyval)
| VDict (d : gmap string pyval).

(** [d.get(key)]: a missing key reads as [None]. *)
Definition dict_get (d : gmap string pyval) (key : string) : pyval :=
  default VNone (d !! key).

(** ** Numbers *)

Module PyNum.

(** [float(n)] for an [int] [n]: the nearest binary64 value (ties to even);
    [OverflowError] (here [None]) when [n] is too large. *)
Definition float_of_Z (n : Z) : option float :=
  let f := SF2Prim (binary_normalize prec emax n 0 false) in
  if is_infinity f then None else Some f.

(** [int(x)] for a [float] [x]: truncation towards zero; [ValueError] on a
    NaN and [OverflowError] on an infinity (here [None]). *)
Definition int_of_float (x : float) : option Z :=
  match Prim2SF x with
  | S754_zero _ => Some 0
  | S754_finite s m e =>
      let v := Z.shiftl (Zpos m) e in
      Some (if s then - v else v)
  | S754_infinity _ | S754_nan => None
  end.

(** Division of [n] by [d > 0] rounded to the nearest integer, ties to even. *)
Definition div_half_even (n d : Z) : Z :=
  let q := n / d in
  let r := n mod d in
  match 2 * r ?= d with
  | Lt => q
  | Gt => q + 1
  | Eq => if Z.even q then q else q + 1
  end.

(** [round(x, 2)]: the exact value of [x] is rounded to two decimals (ties to
    even) and the decimal is converted back to the nearest binary64 value. *)
Definition round2 (x : float) : float :=
  match Prim2SF x with
  | S754_finite s m e =>
      let n :=
        if 0 <=? e then Zpos m * 100 * 2 ^ e
        else div_half_even (Zpos m * 100) (2 ^ (- e)) in
      let '(mz, ez, lz) := SFdiv_core_binary prec emax n 0 100 0 in
      SF2Prim (binary_round_aux prec emax s mz ez lz)
  | _ => x
  end.

(** [min(a, b)] of the builtin: [b] when [b < a], else [a]. *)
Definition py_min (a b : float) : float :=
  if (b <? a)%float then b else a.

(** [max(a, b)] of the builtin: [b] when [b > a], else [a]. *)
Definition py_max (a b : float) : float :=
  if (a <? b)%float then b else a.

(** The [float] a JSON number stands for in float arithmetic: [float(v)] for
    an [int], a [bool] or a [float]; [None] for any other value. *)
Definition number (v : pyval) : option float :=
  match v with
  | VBool b => Some (if b then 1 else 0)%float
  | VInt z => float_of_Z z
  | VFloat f => Some f
  | _ => None
  end.

End PyNum.

(** ** Text *)

Module PyStr.

(** [ch.isspace()] over ASCII. *)
Definition is_space (c : ascii) : bool :=
  let n := N_of_ascii c in
  ((9 <=? n) && (n <=? 13) || (28 <=? n) && (n <=? 32))%N.

(** [ch] is one of [0-9]. *)
Definition is_digit (c : ascii) : bool :=
  let n := N_of_ascii c in ((48 <=? n) && (n <=? 57))%N.

(** [ch] is one of [A-Za-z0-9]. *)
Definition is_alnum (c : ascii) : bool :=
  let n := N_of_ascii c in
  ((48 <=? n) && (n <=? 57) || (65 <=? n) && (n <=? 90)
   || (97 <=? n) && (n <=? 122))%N.

Definition digit_value (c : ascii) : Z := Z.of_N (N_of_ascii c) - 48.

Fixpoint lstrip (s : string) : string :=
  match s with
  | String c s' => if is_space c then lstrip s' else s
  | EmptyString => EmptyString
  end.

Fixpoint rstrip (s : string) : string :=
  match s with
  | String c s' =>
      match rstrip s' with
      | EmptyString => if is_space c then EmptyString else String c EmptyString
      | r => String c r
      end
  | EmptyString => EmptyString
  end.

(** [s.strip()]. *)
Definition strip (s : string) : string := rstrip (lstrip s).

Fixpoint all_chars (p : ascii -> bool) (s : string) : bool :=
  match s with
  | String c s' => p c && all_chars p s'
  | EmptyString => true
  end.

(** [re.fullmatch(r"\d+", s)] succeeds. *)
Definition all_digits (s : string) : bool :=
  match s with
  | EmptyString => false
  | _ => all_chars is_digit s
  end.

(** The value of a run of decimal digits, most significant first. *)
Fixpoint decimal_from (acc : Z) (s : string) : Z :=
  match s with
  | String c s' => decimal_from (10 * acc + digit_value c) s'
  | EmptyString => acc
  end.

Definition decimal (s : string) : Z := decimal_from 0 s.

(** Digits with single underscores between them, as [int] accepts them:
    [after_digit] tells whether the previous character was a digit. *)
Fixpoint int_digits (after_digit : bool) (acc : Z) (s : string) : option Z :=
  match s with
  | EmptyString => if after_digit then Some acc else None
  | String c s' =>
      if is_digit c then int_digits true (10 * acc + digit_value c) s'
      else if (Ascii.eqb c "_" && after_digit)%bool then
        match s' with
        | String c' _ => if is_digit c' then int_digits false acc s' else None
        | EmptyString => None
        end
      else None
  end.

(** The whitespace [int] skips around the digits of ASCII text: the space,
    the tab, the line feed, the vertical tab, the form feed and the carriage
    return; not the separators 0x1c-0x1f, which [str.strip] removes. *)
Definition is_int_space (c : ascii) : bool :=
  let n := N_of_ascii c in
  ((9 <=? n) && (n <=? 13) || (n =? 32))%N.

Fixpoint lstrip_by (p : ascii -> bool) (s : string) : string :=
  match s with
  | String c s' => if p c then lstrip_by p s' else s
  | EmptyString => EmptyString
  end.

Fixpoint rstrip_by (p : ascii -> bool) (s : string) : string :=
  match s with
  | String c s' =>
      match rstrip_by p s' with
      | EmptyString => if p c then EmptyString else String c EmptyString
      | r => String c r
      end
  | EmptyString => EmptyString
  end.

(** [int(s)] for a [str]: surrounding whitespace, an optional sign, decimal
    digits; [ValueError] (here [None]) otherwise. *)
Definition int_of_string (s : string) : option Z :=
  match rstrip_by is_int_space (lstrip_by is_int_space s) with
  | String "-" d => Z.opp <$> int_digits false 0 d
  | String "+" d => int_digits false 0 d
  | d => int_digits false 0 d
  end.

(** [s.replace("Z", "+00:00")]: every [Z] of the text is replaced. *)
Fixpoint replace_Z (s : string) : string :=
  match s with
  | String c s' =>
      if Ascii.eqb c "Z" then ("+00:00" ++ replace_Z s')%string
      else String c (replace_Z s')
  | EmptyString => EmptyString
  end.

End PyStr.

(** [int(v)] as the ledger applies it to a stored [placedAt]: [None] stands for
    the exception ([TypeError], [ValueError] or [OverflowError]). *)
Definition py_int (v : pyval) : option Z :=
  match v with
  | VBool b => Some (if b then 1 else 0)
  | VInt z => Some z
  | VFloat f => PyNum.int_of_float f
  | VStr s => PyStr.int_of_string s
  | VNone | VList _ | VDict _ => None
  end.

(** ** The [datetime] library

    [parse_event_time_seconds] hands ISO-8601 text to the standard library.
    The library is an interface here: the ledger is verified for every
    implementation of it. *)
Class DateTimeLib := {
  datetime : Type;
  tzinfo : Type;
  (** [datetime.datetime.fromisoformat(text)]; [None] is [ValueError]. *)
  fromisoformat : string -> option datetime;
  (** [dt.tzinfo]; [None] for a naive value. *)
  dt_tzinfo : datetime -> option tzinfo;
  (** [dt.replace(tzinfo=tz)]. *)
  dt_replace_tzinfo : datetime -> tzinfo -> datetime;
  (** [datetime.timezone.utc]. *)
  timezone_utc : tzinfo;
  (** [dt.timestamp()]. *)
  dt_timestamp : datetime -> float
}.

(** ** Placement ledger *)

(** A ledger row is a [dict]; the ledger maps condition ids to rows. *)
Abbreviation row := (gmap string pyval) (only parsing).
Abbreviation ledger := (gmap string (gmap string pyval)) (only parsing).

Section Ledger.
Context `{DateTimeLib}.

(** [parse_event_time_seconds(raw_value)], bot.py lines 189-216.  The
    [except Exception] around the body turns every exception into [None].
    [str] of a list or of a dict opens with a bracket, which is neither a
    run of digits nor ISO-8601 text: these values yield [None]. *)
Definition parse_event_time_seconds (raw_value : pyval) : option Z :=
  match raw_value with
  | VNone => None
  | VBool _ | VInt _ | VFloat _ =>
      match PyNum.number raw_value with
      | None => None
      | Some value =>
          let value :=
            if (1000000000000 <? value)%float then (value / 1000)%float
            else value in
          if (0 <? value)%float then PyNum.int_of_float value else None
      end
  | VStr s =>
      let text := PyStr.strip s in
      if decide (text = EmptyString) then None
      else if PyStr.all_digits text then
        let value := PyStr.decimal text in
        let value := if 1000000000000 <? value then value / 1000 else value in
        if 0 <? value then Some value else None
      else
        let normalized := PyStr.replace_Z text in
        match fromisoformat normalized with
        | None => None
        | Some dt =>
            let dt :=
              match dt_tzinfo dt with
              | None => dt_replace_tzinfo dt timezone_utc
              | Some _ => dt
              end in
            PyNum.int_of_float (dt_timestamp dt)
        end
  | VList _ | VDict _ => None
  end.

(** The placement time of a row, bot.py lines 227-231 and 261-265:
    [int(placed_at_raw) if placed_at_raw is not None else now_ts], and
    [now_ts] when [int] raises. *)
Definition placed_at_of (r : row) (now_ts : Z) : Z :=
  match dict_get r "placedAt" with
  | VNone => now_ts
  | placed_at_raw => default now_ts (py_int placed_at_raw)
  end.

(** The row [{"placedAt": placed_at, "eventTime": event_time}]. *)
Definition make_row (placed_at : Z) (event_time : pyval) : row :=
  <["placedAt" := VInt placed_at]> (<["eventTime" := event_time]> ∅).

(** One turn of the loop over [meta_raw.items()], bot.py lines 224-236. *)
Definition normalize_step (now_ts : Z)
    (condition_id : string) (value : pyval) (meta : ledger) : ledger :=
  if decide (condition_id = EmptyString) then meta
  else
    let r := match value with VDict d => d | _ => ∅ end in
    <[condition_id := make_row (placed_at_of r now_ts) (dict_get r "eventTime")]> meta.

(** One turn of the loop over the legacy list, bot.py lines 241-243. *)
Definition legacy_step (now_ts : Z) (meta : ledger) (item : pyval) : ledger :=
  match item with
  | VStr s =>
      if decide (s = EmptyString) then meta
      else <[s := make_row now_ts VNone]> meta
  | _ => meta
  end.

(** [normalize_placed_meta(state, now_ts)], bot.py lines 219-244. *)
Definition normalize_placed_meta (state : gmap string pyval) (now_ts : Z) : ledger :=
  match dict_get state "placedMeta" with
  | VDict meta_raw => map_fold (normalize_step now_ts) ∅ meta_raw
  | _ =>
      match default (VList []) (state !! "placed") with
      | VList legacy => foldl (legacy_step now_ts) ∅ legacy
      | _ => ∅
      end
  end.

(** The test of one row in [prune_placed_meta], bot.py lines 255-267. *)
Definition keeps (now_ts ttl_seconds event_grace_seconds : Z) (r : row) : bool :=
  match parse_event_time_seconds (dict_get r "eventTime") with
  | Some event_ts => now_ts <=? event_ts + event_grace_seconds
  | None => now_ts - placed_at_of r now_ts <=? ttl_seconds
  end.

(** One turn of the loop over [meta.items()]. *)
Definition prune_step (now_ts ttl_seconds event_grace_seconds : Z)
    (condition_id : string) (r : row) (pruned : ledger) : ledger :=
  if keeps now_ts ttl_seconds event_grace_seconds r
  then <[condition_id := r]> pruned else pruned.

(** [prune_placed_meta(meta, now_ts, ttl_seconds, event_grace_seconds)],
    bot.py lines 247-268. *)
Definition prune_placed_meta (meta : ledger)
    (now_ts ttl_seconds event_grace_seconds : Z) : ledger :=
  map_fold (prune_step now_ts ttl_seconds event_grace_seconds) ∅ meta.

End Ledger.

(** The string items of a legacy list. *)
Definition legacy_ids (legacy : list pyval) : list string :=
  omap (fun item => match item with VStr s => Some s | _ => None end) legacy.

(** ** Configuration *)

(** The fields of [BotConfig] the control core reads.  [poll_seconds] is the
    [int] of the source as the [float] it denotes in [apply_jitter]. *)
Module Config.
Record BotConfig := {
  max_bets : Z;
  dry_run : bool;
  low_roi_threshold : float;
  stop_on_403 : bool;
  poll_seconds : float;
  poll_jitter_ratio : float;
  poll_backoff_base : float;
  poll_backoff_max : float;
  max_calls_per_hour : Z;
  run_window_start : string;
  run_window_end : string;
  placed_ttl_seconds : Z;
  placed_event_grace_seconds : Z;
  paper_bankroll : float;
  kelly_fraction : float;
  max_stake : float;
  min_stake : float;
  fixed_stake : float
}.
End Config.
Import Config (BotConfig).

(** ** Scheduling: jitter, run window, rate window, backoff *)

(** [apply_jitter(base_seconds, ratio)], bot.py lines 636-644.  [r] is the
    value [random.random()] returns inside [random.uniform(-delta, delta)],
    which computes [a + (b - a) * r]. *)
Definition apply_jitter (base_seconds ratio r : float) : float :=
  if (ratio <=? 0)%float then base_seconds
  else
    let delta := (base_seconds * ratio)%float in
    let uniform := (- delta + (delta - - delta) * r)%float in
    PyNum.py_max 1 (base_seconds + uniform)%float.

(** [value.split(":")]. *)
Fixpoint split_colon (s : string) : list string :=
  match s with
  | EmptyString => [EmptyString]
  | String c s' =>
      if Ascii.eqb c ":" then EmptyString :: split_colon s'
      else
        match split_colon s' with
        | p :: ps => String c p :: ps
        | [] => [String c EmptyString]
        end
  end.

(** [parse_time_window(value)], bot.py lines 608-621. *)
Definition parse_time_window (value : string) : option (Z * Z) :=
  if decide (value = EmptyString) then None
  else
    match split_colon value with
    | [h; m] =>
        match PyStr.int_of_string h, PyStr.int_of_string m with
        | Some hour, Some minute =>
            if (hour <? 0) || (23 <? hour) || (minute <? 0) || (59 <? minute)
            then None else Some (hour, minute)
        | _, _ => None
        end
    | _ => None
    end.

(** [is_within_window(now_h, now_m, start, end)], bot.py lines 623-634. *)
Definition is_within_window (now_h now_m : Z) (start end_ : Z * Z) : bool :=
  let start_minutes := start.1 * 60 + start.2 in
  let end_minutes := end_.1 * 60 + end_.2 in
  let now_minutes := now_h * 60 + now_m in
  if start_minutes <=? end_minutes
  then (start_minutes <=? now_minutes) && (now_minutes <=? end_minutes)
  else (start_minutes <=? now_minutes) || (now_minutes <=? end_minutes).

(** The run-window gate, bot.py lines 867-875: the loop stays idle when both
    ends of the window parsed, the local time is known, and it lies outside. *)
Definition outside_window (window : option (Z * Z) * option (Z * Z))
    (local_time : option (Z * Z)) : bool :=
  match window, local_time with
  | (Some window_start, Some window_end), Some (now_h, now_m) =>
      negb (is_within_window now_h now_m window_start window_end)
  | _, _ => false
  end.

(** The rolling window after eviction, bot.py line 889:
    [[t for t in call_timestamps if now - t < 3600]]. *)
Definition evict (now : float) (call_timestamps : list float) : list float :=
  List.filter (fun t => (now - t <? 3600)%float) call_timestamps.

(** The rate cap test, bot.py line 890. *)
Definition rate_capped (config : BotConfig) (call_timestamps : list float) : bool :=
  (0 <? Config.max_calls_per_hour config)
  && (Config.max_calls_per_hour config <=? Z.of_nat (length call_timestamps)).

(** The backoff after a failed cycle, bot.py lines 979-983.  [backoff * 2 if
    backoff else base] tests the truth of a float: false for a zero. *)
Definition next_backoff (config : BotConfig) (backoff : float) : float :=
  if (0 <? Config.poll_backoff_base config)%float then
    PyNum.py_min (Config.poll_backoff_max config)
      (if (backoff =? 0)%float then Config.poll_backoff_base config
       else (backoff * 2)%float)
  else backoff.

(** ** Staking *)

(** [GRADE_PROB_DEFAULTS.get(grade_label, 0.50)], bot.py lines 697-703, 747. *)
Definition grade_prob (grade_label : string) : float :=
  if decide (grade_label = "A+"%string) then 0.60%float
  else if decide (grade_label = "A"%string) then 0.57%float
  else if decide (grade_label = "B"%string) then 0.54%float
  else if decide (grade_label = "C"%string) then 0.52%float
  else 0.50%float.

(** [kelly_fraction(edge_prob, price)], bot.py lines 715-723. *)
Definition kelly_fraction (edge_prob price : float) : float :=
  if ((price <=? 0) || (1 <=? price))%float then 0%float
  else
    let b := ((1 / price) - 1)%float in
    let q := (1 - edge_prob)%float in
    let numerator := (b * edge_prob - q)%float in
    if ((numerator <=? 0) || (b <=? 0))%float then 0%float
    else (numerator / b)%float.

(** The stake before the overrides, bot.py line 749. *)
Definition raw_stake (bankroll kelly fraction : float) : float :=
  (bankroll * kelly * fraction)%float.

(** The overrides, bot.py lines 750-755: the fixed stake, the ceiling, and the
    floor that rejects ([None] is the "skip tiny stake" return). *)
Definition final_stake (config : BotConfig) (stake : float) : option float :=
  let stake :=
    if (0 <? Config.fixed_stake config)%float then Config.fixed_stake config
    else stake in
  let stake := PyNum.py_min stake (Config.max_stake config) in
  if (stake <? Config.min_stake config)%float then None else Some stake.

(** ** Regular expressions

    The fragment of [re] the two patterns of [extract_cloudflare_ray_id] use:
    literal text, a greedy starred character class, and one capturing group
    holding a greedy [+] of a character class.  Matching backtracks as [re]
    does: a greedy item first takes the longest run and then gives characters
    back one at a time. *)
Module Re.

Inductive item :=
| Lit (text : string)
| Star (class : ascii -> bool)
| GroupPlus (class : ascii -> bool).

Fixpoint run_length (class : ascii -> bool) (s : string) : nat :=
  match s with
  | String c s' => if class c then S (run_length class s') else O
  | EmptyString => O
  end.

Fixpoint drop (n : nat) (s : string) : string :=
  match n, s with
  | S n', String _ s' => drop n' s'
  | _, _ => s
  end.

Fixpoint take (n : nat) (s : string) : string :=
  match n, s with
  | S n', String c s' => String c (take n' s')
  | _, _ => EmptyString
  end.

(** [strip_prefix p s]: the rest of [s] after the prefix [p]. *)
Fixpoint strip_prefix (p s : string) : option string :=
  match p, s with
  | EmptyString, _ => Some s
  | String a p', String b s' => if Ascii.eqb a b then strip_prefix p' s' else None
  | String _ _, EmptyString => None
  end.

(** The first success of [f k], [f (k - 1)], ..., [f lo]. *)
Fixpoint first_down {A} (f : nat -> option A) (lo k : nat) : option A :=
  if (k <? lo)%nat then None
  else
    match f k with
    | Some r => Some r
    | None => match k with O => None | S k' => first_down f lo k' end
    end.

(** [match_here items s group]: match [items] at the start of [s]; the
    result is the text of group 1 ([None] inside: the group did not take
    part). *)
Fixpoint match_here (items : list item) (s : string) (group : option string)
    : option (option string) :=
  match items with
  | [] => Some group
  | Lit text :: rest =>
      match strip_prefix text s with
      | Some s' => match_here rest s' group
      | None => None
      end
  | Star class :: rest =>
      first_down (fun k => match_here rest (drop k s) group) 0 (run_length class s)
  | GroupPlus class :: rest =>
      first_down (fun k => match_here rest (drop k s) (Some (take k s)))
        1 (run_length class s)
  end.

(** [re.search(pattern, s)]: the leftmost start at which the pattern
    matches; the result is [match.group(1)]. *)
Fixpoint search (items : list item) (s : string) : option (option string) :=
  match match_here items s None with
  | Some g => Some g
  | None =>
      match s with
      | String _ s' => search items s'
      | EmptyString => None
      end
  end.

End Re.

(** The character after [Cloudflare Ray ID:] in both patterns of the source:
    in the raw literal [r"...:\\s*..."] the two backslashes are the regular
    expression for one literal backslash, and [s*] is a run of the letter s. *)
Definition backslash : string := String (ascii_of_nat 92) EmptyString.

(** [r"Cloudflare Ray ID:\\s*<strong[^>]*>([^<]+)</strong>"], bot.py line 589. *)
Definition ray_pattern_strong : list Re.item :=
  [ Re.Lit "Cloudflare Ray ID:"; Re.Lit backslash; Re.Star (Ascii.eqb "s");
    Re.Lit "<strong"; Re.Star (fun c => negb (Ascii.eqb c ">")); Re.Lit ">";
    Re.GroupPlus (fun c => negb (Ascii.eqb c "<")); Re.Lit "</strong>" ].

(** [r"Cloudflare Ray ID:\\s*([A-Za-z0-9]+)"], bot.py line 592. *)
Definition ray_pattern_bare : list Re.item :=
  [ Re.Lit "Cloudflare Ray ID:"; Re.Lit backslash; Re.Star (Ascii.eqb "s");
    Re.GroupPlus PyStr.is_alnum ].

(** [extract_cloudflare_ray_id(error_text)], bot.py lines 588-595. *)
Definition extract_cloudflare_ray_id (error_text : string) : option string :=
  match Re.search ray_pattern_strong error_text with
  | Some g => Some (PyStr.strip (default EmptyString g))
  | None =>
      match Re.search ray_pattern_bare error_text with
      | Some g => Some (PyStr.strip (default EmptyString g))
      | None => None
      end
  end.

(** No character of the text is a backslash. *)
Definition no_backslash (s : string) : bool :=
  PyStr.all_chars (fun c => negb (Ascii.eqb c (ascii_of_nat 92))) s.

(** The patterns the claim describes: optional whitespace ([\s*]) between the
    marker and the token.  They follow the words of the specification and are
    compared with the patterns of the source. *)
Definition spec_pattern_strong : list Re.item :=
  [ Re.Lit "Cloudflare Ray ID:"; Re.Star PyStr.is_space;
    Re.Lit "<strong"; Re.Star (fun c => negb (Ascii.eqb c ">")); Re.Lit ">";
    Re.GroupPlus (fun c => negb (Ascii.eqb c "<")); Re.Lit "</strong>" ].

Definition spec_pattern_bare : list Re.item :=
  [ Re.Lit "Cloudflare Ray ID:"; Re.Star PyStr.is_space;
    Re.GroupPlus PyStr.is_alnum ].

Definition spec_extract_ray_id (error_text : string) : option string :=
  match Re.search spec_pattern_strong error_text with
  | Some g => Some (PyStr.strip (default EmptyString g))
  | None =>
      match Re.search spec_pattern_bare error_text with
      | Some g => Some (PyStr.strip (default EmptyString g))
      | None => None
      end
  end.

(** ** Candidates, trades and events *)

(** [candidate["entry"]]: the fields the core reads.  [conditionId] is [None]
    when the key is absent or null; [sharpSidePrice] is the JSON number under
    that key, [None] when it is absent or null. *)
Record Entry := {
  conditionId : option string;
  marketTitle : pyval;
  eventTime : pyval;
  sharpSide : pyval;
  sharpSidePrice : option float
}.

(** [candidate["grade"]]: [grade_label] is [None] when the key [grade] is
    absent. *)
Record GradeInfo := {
  grade_label : option string;
  signalScore : pyval
}.

(** A candidate of the feed; a missing key is [None]. *)
Record Candidate := {
  entry : option Entry;
  grade : option GradeInfo
}.

Inductive mode := Paper | Live.

(** The record [place_bet] appends to the trade log. *)
Record Trade := {
  trade_timestamp : Z;
  trade_conditionId : option string;
  trade_marketTitle : pyval;
  trade_sharpSide : pyval;
  trade_price : float;
  trade_grade : string;
  trade_signalScore : pyval;
  trade_stake : float;
  trade_mode : mode;
  trade_tokenId : option pyval;
  trade_orderResponse : option pyval;
  trade_error : option string;
  trade_cloudflareRayId : option string
}.

(** What [execute_live_trade] does: it returns a token id and the venue's
    response, or raises an exception whose text is [str(exc)]. *)
Inductive live_result :=
| LiveOk (token_id response : pyval)
| LiveRaised (error_text : string).

(** The effects of the loop, in program order.  [EvPlaceBet] marks a call of
    [place_bet] and records the ledger held by [placed_meta] at the call. *)
Inductive event :=
| EvSleep (seconds : float)
| EvFetch
| EvPlaceBet (condition_id : string) (held : ledger)
| EvLiveOrder (condition_id : option string) (stake : float)
| EvTradeLog (t : Trade)
| EvPostPick (condition_id : option string) (ok : bool)
| EvSaveState (document : gmap string pyval)
| EvExit (code : Z).

(** Tests on events. *)
Definition is_save_state (ev : event) : bool :=
  match ev with EvSaveState _ => true | _ => false end.







(** ** Order dispatcher *)

Inductive reject_reason := MissingPrice | LowROI | TinyStake.

(** The path a call of [place_bet] takes.  [Halted] is [sys.exit(1)];
    [Raised] is an exception that leaves [place_bet]. *)
Inductive outcome :=
| Rejected (why : reject_reason)
| PaperPlaced (stake : float)
| LivePlaced (stake : float)
| LiveFailed (error_text : string) (ray_id : option string)
| Halted
| Raised.

(** The value [place_bet] returns to [run_loop] on each path that returns. *)
Definition did_place (o : outcome) : bool :=
  match o with
  | PaperPlaced _ | LivePlaced _ => true
  | _ => false
  end.

(** What the world answers during one call of [place_bet]. *)
Record PlaceEnv := {
  pe_time : Z;             (* int(time.time()) *)
  pe_live : live_result;   (* execute_live_trade(entry, stake, config) *)
  pe_post_ok : bool        (* post_json(...) returns (true) or raises *)
}.

Record BetResult := {
  bet_outcome : outcome;
  bet_events : list event;
  bet_state : gmap string pyval
}.

(** [state.get("bankroll", config.paper_bankroll)] as a number; [None] when
    the stored value is no number (arithmetic on it raises [TypeError]). *)
Definition bankroll_of (config : BotConfig) (state : gmap string pyval) : option float :=
  PyNum.number (default (VFloat (Config.paper_bankroll config)) (state !! "bankroll")).

(** [place_bet(candidate, config, state)], bot.py lines 726-840. *)
Definition place_bet (candidate : Candidate) (config : BotConfig)
    (state : gmap string pyval) (env : PlaceEnv) : BetResult :=
  match entry candidate, grade candidate with
  | Some e, Some g =>
      let label := default "D"%string (grade_label g) in
      match sharpSidePrice e with
      | None => Build_BetResult (Rejected MissingPrice) [] state
      | Some price =>
          if (Config.low_roi_threshold config <=? price)%float
          then Build_BetResult (Rejected LowROI) [] state
          else
            let prob := grade_prob label in
            let kelly := kelly_fraction prob price in
            match bankroll_of config state with
            | None => Build_BetResult Raised [] state
            | Some bankroll =>
                match final_stake config
                        (raw_stake bankroll kelly (Config.kelly_fraction config)) with
                | None => Build_BetResult (Rejected TinyStake) [] state
                | Some stake =>
                    let trade m tok resp err ray :=
                      Build_Trade (pe_time env) (conditionId e) (marketTitle e)
                        (sharpSide e) price label (signalScore g)
                        (PyNum.round2 stake) m tok resp err ray in
                    let placed o (pre : list event) (t : Trade) :=
                      Build_BetResult o
                        (pre ++ [EvTradeLog t; EvPostPick (conditionId e) (pe_post_ok env)])
                        (<["bankroll" := VFloat (PyNum.round2 (bankroll - stake)%float)]> state) in
                    if Config.dry_run config then
                      placed (PaperPlaced stake) [] (trade Paper None None None None)
                    else
                      let order := EvLiveOrder (conditionId e) stake in
                      match pe_live env with
                      | LiveOk tok resp =>
                          placed (LivePlaced stake) [order]
                            (trade Live (Some tok) (Some resp) None None)
                      | LiveRaised error_text =>
                          let ray_id := extract_cloudflare_ray_id error_text in
                          match ray_id with
                          | Some (String _ _ as ray) =>
                              let t := trade Paper None None (Some error_text) (Some ray) in
                              if Config.stop_on_403 config then
                                Build_BetResult Halted
                                  [order; EvTradeLog t; EvExit 1] state
                              else
                                Build_BetResult (LiveFailed error_text (Some ray))
                                  [order; EvTradeLog t] state
                          | _ =>
                              let t := trade Paper None None (Some error_text) None in
                              Build_BetResult (LiveFailed error_text None)
                                [order; EvTradeLog t] state
                          end
                      end
                end
            end
      end
  | _, _ => Build_BetResult Raised [] state
  end.

(** ** Poll loop *)

(** The variables [run_loop] carries from one iteration to the next. *)
Record LoopState := {
  state : gmap string pyval;
  placed_meta : ledger;
  call_timestamps : list float;
  backoff : float
}.

(** What the world answers while one candidate is handled. *)
Record CandEnv := {
  ce_place : PlaceEnv;
  ce_placed_time : Z       (* int(time.time()) of bot.py line 960 *)
}.

(** What the world answers during one iteration of [while True]. *)
Record CycleEnv := {
  env_local_time : option (Z * Z);        (* get_local_time_components *)
  env_now : float;                        (* time.time() of line 881 *)
  env_call_time : float;                  (* time.time() of line 910 *)
  env_fetch : option (list Candidate);    (* fetch_candidates; None: it raises *)
  env_save_ok : bool;                     (* save_state returns; false: it raises *)
  env_cand : nat -> CandEnv;              (* by position in the feed, from 1 *)
  env_rand_backoff : float;               (* random.random() of the backoff sleep *)
  env_rand_poll : float                   (* random.random() of the poll sleep *)
}.

(** The variables of the loop over the candidates. *)
Record PassState := {
  ps_state : gmap string pyval;
  ps_placed_meta : ledger;
  ps_placed : gset string;
  ps_new_bets : Z
}.

(** How the loop over the candidates ends: it runs to its end (or [break]s),
    the process exits, or an exception leaves it. *)
Inductive pass_end := PassDone | PassExit | PassRaised.

(** How one iteration of [while True] ends. *)
Inductive cycle_end := CycleNext | CycleExit.

(** The order [sorted] puts strings in: by character code, shorter first. *)
Definition str_le (a b : string) : Prop := Is_true (String.leb a b).

#[global] Instance str_le_dec : RelDecision str_le.
Proof. intros a b. unfold str_le. apply _. Defined.

(** ** Logging *)

(** The keys of the dict [candidate_context(candidate)] returns, bot.py
    lines 374-385; the key [event] is among them. *)
Definition candidate_context_keys : list string :=
  ["conditionId"; "event"; "eventTime"; "market"; "side"; "grade";
   "signalScore"; "edgeRating"; "microstructureScore"; "warnings"]%string.

(** A call [log_event(event, key=..., **context)], bot.py line 351, with the
    names of its keyword arguments.  The first parameter of [log_event] is
    named [event]: a keyword argument of that name, and a name given twice,
    make the call raise [TypeError] before the body runs ([None]).
    Otherwise the call prints one line and returns. *)
Definition log_event (event : string) (keywords : list string) : option unit :=
  if existsb (String.eqb "event") keywords || negb (bool_decide (NoDup keywords))
  then None else Some tt.

Section Loop.
Context `{DateTimeLib}.
Variable config : BotConfig.

(** The call of [place_bet] for a candidate with the condition id
    [condition_id] and what follows it, bot.py lines 956-966: the variables
    of the loop after it, its effects, and the way the loop ends with it
    ([None]: the loop goes on with the next candidate). *)
Definition dispatch (env : CandEnv) (candidate : Candidate)
    (condition_id : string) (ps : PassState)
    : PassState * list event * option pass_end :=
  let r := place_bet candidate config (ps_state ps) (ce_place env) in
  let evs := EvPlaceBet condition_id (ps_placed_meta ps) :: bet_events r in
  match bet_outcome r with
  | Halted =>
      (Build_PassState (bet_state r) (ps_placed_meta ps)
         (ps_placed ps) (ps_new_bets ps), evs, Some PassExit)
  | Raised =>
      (Build_PassState (bet_state r) (ps_placed_meta ps)
         (ps_placed ps) (ps_new_bets ps), evs, Some PassRaised)
  | o =>
      if did_place o then
        let new_row : row :=
          <["placedAt" := VInt (ce_placed_time env)]>
            (<["eventTime" := default VNone (eventTime <$> entry candidate)]> ∅) in
        let ps' :=
          Build_PassState (bet_state r)
            (<[condition_id := new_row]> (ps_placed_meta ps))
            ({[condition_id]} ∪ ps_placed ps)
            (ps_new_bets ps + 1) in
        (ps', evs,
         if Config.max_bets config <=? ps_new_bets ps' then Some PassDone else None)
      else
        (Build_PassState (bet_state r) (ps_placed_meta ps)
           (ps_placed ps) (ps_new_bets ps), evs, None)
  end.

(** The loop over [enumerate(candidates, start=1)], bot.py lines 928-966,
    with its calls of [log_event] at lines 931, 934, 943 and 951. *)
Fixpoint candidate_pass (env : nat -> CandEnv) (idx : nat)
    (candidates : list Candidate) (ps : PassState)
    : PassState * list event * pass_end :=
  match candidates with
  | [] => (ps, [], PassDone)
  | candidate :: rest =>
      match log_event "candidate" ("idx"%string :: candidate_context_keys) with
      | None => (ps, [], PassRaised)
      | Some _ =>
      match entry candidate ≫= conditionId with
      | None | Some EmptyString =>
          match log_event "candidate_skip_missing_condition_id"
                  ("idx"%string :: candidate_context_keys) with
          | None => (ps, [], PassRaised)
          | Some _ => candidate_pass env (S idx) rest ps
          end
      | Some condition_id =>
          if decide (condition_id ∈ ps_placed ps)
          then
            match log_event "candidate_skip_already_placed"
                    ("idx" :: "placedAt" :: "placedEventTime"
                     :: candidate_context_keys)%string with
            | None => (ps, [], PassRaised)
            | Some _ => candidate_pass env (S idx) rest ps
            end
          else
            match log_event "candidate_considering"
                    ("idx"%string :: candidate_context_keys) with
            | None => (ps, [], PassRaised)
            | Some _ =>
                let '(ps', evs, e) := dispatch (env idx) candidate condition_id ps in
                match e with
                | Some e => (ps', evs, e)
                | None =>
                    let '(ps'', evs', e') := candidate_pass env (S idx) rest ps' in
                    (ps'', evs ++ evs', e')
                end
            end
      end
      end
  end.

(** [sorted(placed)] as the JSON list stored under ["placed"]. *)
Definition sorted_placed (placed : gset string) : pyval :=
  VList (VStr <$> merge_sort str_le (elements placed)).

(** The document handed to [save_state], bot.py lines 974-976. *)
Definition saved_document (ps : PassState) : gmap string pyval :=
  <["placedMeta" := VDict (VDict <$> ps_placed_meta ps)]>
    (<["placed" := sorted_placed (ps_placed ps)]> (ps_state ps)).

(** The sleep of one poll interval, bot.py lines 876, 891 and 984. *)
Definition poll_sleep (env : CycleEnv) : event :=
  EvSleep (apply_jitter (Config.poll_seconds config)
             (Config.poll_jitter_ratio config) (env_rand_poll env)).

(** The [except Exception] handler followed by the closing sleep,
    bot.py lines 977-985. *)
Definition failed_cycle (env : CycleEnv) (st : gmap string pyval) (meta : ledger)
    (calls : list float) (bk : float) (evs : list event)
    : LoopState * list event * cycle_end :=
  (Build_LoopState st meta calls (next_backoff config bk),
   evs ++ [poll_sleep env], CycleNext).

(** The call of [log_event] for an empty feed, bot.py lines 913-924 (made
    when the debug part of the answer is a dict), and the one that follows
    the loop over the candidates, lines 967-973. *)
Definition log_candidate_debug (candidates : list Candidate) : option unit :=
  match candidates with
  | [] =>
      log_event "candidate_debug"
        ["totalEntries"; "upcomingEntries"; "excluded"; "dedupDropped";
         "dedupReasons"]%string
  | _ => Some tt
  end.

Definition log_poll_summary : option unit :=
  log_event "poll_summary"
    ["raw"; "skippedAlreadyPlaced"; "skippedMissingConditionId"; "newPlaced"]%string.

(** One iteration of [while True], bot.py lines 865-985.
    [window] holds [parse_time_window] of the two ends of the run window.
    [EvSleep] and [EvSaveState] record the calls of [time.sleep] and of
    [save_state]; the iteration is followed on the runs in which
    [time.sleep] returns. *)
Definition run_cycle (window : option (Z * Z) * option (Z * Z))
    (env : CycleEnv) (ls : LoopState) : LoopState * list event * cycle_end :=
  if outside_window window (env_local_time env)
  then (ls, [poll_sleep env], CycleNext)
  else
    let now := env_now env in
    match PyNum.int_of_float now with
    | None =>
        failed_cycle env (state ls) (placed_meta ls) (call_timestamps ls)
          (backoff ls) []
    | Some now_ts =>
        let meta :=
          prune_placed_meta (placed_meta ls) now_ts
            (Config.placed_ttl_seconds config)
            (Config.placed_event_grace_seconds config) in
        let placed := dom meta in
        let calls := evict now (call_timestamps ls) in
        if rate_capped config calls then
          (Build_LoopState (state ls) meta calls (backoff ls),
           [poll_sleep env], CycleNext)
        else
          let '(bk, sleep) :=
            if (0 <? backoff ls)%float then
              (0%float,
               [EvSleep (apply_jitter (backoff ls)
                           (Config.poll_jitter_ratio config) (env_rand_backoff env))])
            else (backoff ls, []) in
          let calls := calls ++ [env_call_time env] in
          match env_fetch env with
          | None =>
              failed_cycle env (state ls) meta calls bk (sleep ++ [EvFetch])
          | Some candidates =>
              match log_candidate_debug candidates with
              | None =>
                  failed_cycle env (state ls) meta calls bk (sleep ++ [EvFetch])
              | Some _ =>
              let '(ps, evs, e) :=
                candidate_pass (env_cand env) 1 candidates
                  (Build_PassState (state ls) meta placed 0) in
              match e with
              | PassExit =>
                  (Build_LoopState (ps_state ps) (ps_placed_meta ps) calls bk,
                   sleep ++ EvFetch :: evs, CycleExit)
              | PassRaised =>
                  failed_cycle env (ps_state ps) (ps_placed_meta ps) calls bk
                    (sleep ++ EvFetch :: evs)
              | PassDone =>
                  match log_poll_summary with
                  | None =>
                      failed_cycle env (ps_state ps) (ps_placed_meta ps) calls bk
                        (sleep ++ EvFetch :: evs)
                  | Some _ =>
                      let document := saved_document ps in
                      if env_save_ok env then
                        (Build_LoopState document (ps_placed_meta ps) calls bk,
                         sleep ++ EvFetch :: evs
                         ++ [EvSaveState document; poll_sleep env],
                         CycleNext)
                      else
                        failed_cycle env document (ps_placed_meta ps) calls bk
                          (sleep ++ EvFetch :: evs ++ [EvSaveState document])
                  end
              end
              end
          end
    end.

(** The iterations of [while True] against the answers [envs], one per
    iteration, until they run out or the process exits. *)
Fixpoint run_cycles (window : option (Z * Z) * option (Z * Z))
    (envs : list CycleEnv) (ls : LoopState) : LoopState * list event * cycle_end :=
  match envs with
  | [] => (ls, [], CycleNext)
  | env :: rest =>
      match run_cycle window env ls with
      | (ls', evs, CycleExit) => (ls', evs, CycleExit)
      | (ls', evs, CycleNext) =>
          let '(ls'', evs', e) := run_cycles window rest ls' in
          (ls'', evs ++ evs', e)
      end
  end.

(** The set-up of [run_loop] before the loop, bot.py lines 847-863:
    [loaded] is what [load_state] returned and [now_init] is
    [int(time.time())]. *)
Definition init_loop (loaded : gmap string pyval) (now_init : Z) : LoopState :=
  let meta :=
    prune_placed_meta (normalize_placed_meta loaded now_init) now_init
      (Config.placed_ttl_seconds config)
      (Config.placed_event_grace_seconds config) in
  let st :=
    match loaded !! "bankroll" with
    | Some _ => loaded
    | None => <["bankroll" := VFloat (Config.paper_bankroll config)]> loaded
    end in
  Build_LoopState st meta [] 0%float.

End Loop.

(** ** A small [datetime] library

    An implementation of the interface for running the examples below.  It
    reads the one layout [YYYY-MM-DDTHH:MM:SS], with an optional offset
    [+HH:MM] or [-HH:MM], and rejects every other text. *)
Module SmallDateTime.

(** Two decimal digits at the start of [s], and the rest. *)
Definition two_digits (s : string) : option (Z * string) :=
  match s with
  | String a (String b rest) =>
      if PyStr.is_digit a && PyStr.is_digit b
      then Some (10 * PyStr.digit_value a + PyStr.digit_value b, rest)
      else None
  | _ => None
  end.

(** The character [c] at the start of [s], and the rest. *)
Definition expect (c : ascii) (s : string) : option string :=
  match s with
  | String a rest => if Ascii.eqb a c then Some rest else None
  | EmptyString => None
  end.

(** Days from 1970-01-01 to the civil date [y]-[m]-[d]. *)
Definition days_from_civil (y m d : Z) : Z :=
  let y' := if m <=? 2 then y - 1 else y in
  let era := y' / 400 in
  let yoe := y' - era * 400 in
  let doy := (153 * (if 2 <? m then m - 3 else m + 9) + 2) / 5 + d - 1 in
  let doe := yoe * 365 + yoe / 4 - yoe / 100 + doy in
  era * 146097 + doe - 719468.

Definition days_in_month (y m : Z) : Z :=
  if m =? 2 then
    if ((y mod 4 =? 0) && negb (y mod 100 =? 0)) || (y mod 400 =? 0) then 29 else 28
  else if (m =? 4) || (m =? 6) || (m =? 9) || (m =? 11) then 30 else 31.

(** The offset [+HH:MM] or [-HH:MM] in seconds; [None] inside: no offset. *)
Definition parse_offset (s : string) : option (option Z) :=
  match s with
  | EmptyString => Some None
  | String sign rest =>
      '(hh, rest) ← two_digits rest;
      rest ← expect ":" rest;
      '(mm, rest) ← two_digits rest;
      if decide (rest = EmptyString) then
        if (hh <? 24) && (mm <? 60) then
          if Ascii.eqb sign "+" then Some (Some (hh * 3600 + mm * 60))
          else if Ascii.eqb sign "-" then Some (Some (- (hh * 3600 + mm * 60)))
          else None
        else None
      else None
  end.

(** The wall-clock seconds since 1970-01-01T00:00:00 and the offset. *)
Definition parse (s : string) : option (Z * option Z) :=
  '(c, s) ← two_digits s;
  '(yy, s) ← two_digits s;
  s ← expect "-" s;
  '(mo, s) ← two_digits s;
  s ← expect "-" s;
  '(dd, s) ← two_digits s;
  s ← expect "T" s;
  '(hh, s) ← two_digits s;
  s ← expect ":" s;
  '(mi, s) ← two_digits s;
  s ← expect ":" s;
  '(ss, s) ← two_digits s;
  off ← parse_offset s;
  let y := 100 * c + yy in
  if (1 <=? y) && (1 <=? mo) && (mo <=? 12) && (1 <=? dd)
     && (dd <=? days_in_month y mo) && (hh <? 24) && (mi <? 60) && (ss <? 60)
  then Some (days_from_civil y mo dd * 86400 + hh * 3600 + mi * 60 + ss, off)
  else None.

#[global] Instance lib : DateTimeLib := {|
  datetime := Z * option Z;
  tzinfo := Z;
  fromisoformat := parse;
  dt_tzinfo := snd;
  dt_replace_tzinfo := fun dt tz => (dt.1, Some tz);
  timezone_utc := 0;
  dt_timestamp := fun dt =>
    default nan (PyNum.float_of_Z (dt.1 - default 0 dt.2))
|}.

End SmallDateTime.

(** ** Durable state *)

(** Files and the operations [save_state] performs on them.  A run that is
    interrupted has performed a prefix of its operations. *)
Module FS.

Inductive op :=
| Makedirs (dir : string)              (* os.makedirs(dir, exist_ok=True) *)
| OpenWrite (path : string)            (* open(path, "w"): create or truncate *)
| Write (path : string) (data : string)
| Close (path : string)
| Replace (src dst : string).          (* os.replace(src, dst) *)

Definition apply (fs : gmap string string) (o : op) : gmap string string :=
  match o with
  | Makedirs _ => fs
  | OpenWrite path => <[path := EmptyString]> fs
  | Write path data => <[path := (default EmptyString (fs !! path) ++ data)%string]> fs
  | Close _ => fs
  | Replace src dst =>
      match fs !! src with
      | Some text => <[dst := text]> (delete src fs)
      | None => fs
      end
  end.

(** [os.makedirs("")] raises [FileNotFoundError]. *)
Definition raises (o : op) : bool :=
  match o with
  | Makedirs dir => bool_decide (dir = EmptyString)
  | _ => false
  end.

(** The operations in order; one that raises ends the run, and the
    operations after it are not performed. *)
Fixpoint run (fs : gmap string string) (ops : list op) : gmap string string :=
  match ops with
  | [] => fs
  | o :: rest => if raises o then fs else run (apply fs o) rest
  end.

(** The files after an interruption that lets [k] operations through. *)
Definition interrupted (fs : gmap string string) (ops : list op) (k : nat)
    : gmap string string :=
  run fs (take k ops).

Fixpoint concat (chunks : list string) : string :=
  match chunks with
  | [] => EmptyString
  | c :: cs => (c ++ concat cs)%string
  end.

(** The operation does not touch the file [path]. *)
Definition leaves (path : string) (o : op) : Prop :=
  match o with
  | Makedirs _ | Close _ => True
  | OpenWrite p | Write p _ => p ≠ path
  | Replace _ _ => False
  end.

(** The operation works on the file [path] itself and renames nothing. *)
Definition in_place (path : string) (o : op) : Prop :=
  match o with
  | Makedirs _ => True
  | OpenWrite p | Write p _ | Close p => p = path
  | Replace _ _ => False
  end.

End FS.

(** ** Text, further *)

Module PyText.

(** [ch.lower()] over ASCII. *)
Definition lower_char (c : ascii) : ascii :=
  let n := N_of_ascii c in
  if ((65 <=? n) && (n <=? 90))%N then ascii_of_N (n + 32) else c.

(** [s.lower()]. *)
Fixpoint lower (s : string) : string :=
  match s with
  | String c s' => String (lower_char c) (lower s')
  | EmptyString => EmptyString
  end.

(** [s.split()]: the runs of characters between runs of whitespace. *)
Fixpoint split (s : string) : list string :=
  match s with
  | EmptyString => []
  | String c s' =>
      if PyStr.is_space c then split s'
      else
        match s' with
        | EmptyString => [String c EmptyString]
        | String c' _ =>
            if PyStr.is_space c' then String c EmptyString :: split s'
            else
              match split s' with
              | w :: ws => String c w :: ws
              | [] => [String c EmptyString]
              end
        end
  end.

(** [sep.join(parts)]. *)
Fixpoint join (sep : string) (parts : list string) : string :=
  match parts with
  | [] => EmptyString
  | w :: ws =>
      match ws with
      | [] => w
      | _ => (w ++ sep ++ join sep ws)%string
      end
  end.

(** [s.startswith(p)]. *)
Fixpoint startswith (p s : string) : bool :=
  match p, s with
  | EmptyString, _ => true
  | String a p', String b s' => Ascii.eqb a b && startswith p' s'
  | String _ _, EmptyString => false
  end.

(** [p in s] for two strings. *)
Fixpoint contains (p s : string) : bool :=
  startswith p s
  || match s with
     | String _ s' => contains p s'
     | EmptyString => false
     end.

(** [s.lstrip(ch)], [s.rstrip(ch)] and [s.strip(ch)] for one character. *)
Fixpoint lstrip_char (ch : ascii) (s : string) : string :=
  match s with
  | String c s' => if Ascii.eqb c ch then lstrip_char ch s' else s
  | EmptyString => EmptyString
  end.

Fixpoint rstrip_char (ch : ascii) (s : string) : string :=
  match s with
  | String c s' =>
      match rstrip_char ch s' with
      | EmptyString => if Ascii.eqb c ch then EmptyString else String c EmptyString
      | r => String c r
      end
  | EmptyString => EmptyString
  end.

Definition strip_char (ch : ascii) (s : string) : string :=
  rstrip_char ch (lstrip_char ch s).

(** [s.split(ch, 1)] when [ch] occurs in [s]: the text before the first
    [ch] and the text after it; [None] when [ch] does not occur. *)
Fixpoint split_once (ch : ascii) (s : string) : option (string * string) :=
  match s with
  | EmptyString => None
  | String c s' =>
      if Ascii.eqb c ch then Some (EmptyString, s')
      else
        match split_once ch s' with
        | Some (before, after) => Some (String c before, after)
        | None => None
        end
  end.

(** The character [ch] occurs in [s]. *)
Fixpoint has_char (ch : ascii) (s : string) : bool :=
  match s with
  | String c s' => Ascii.eqb c ch || has_char ch s'
  | EmptyString => false
  end.

End PyText.

(** ** Saving the state *)

(** [p[:p.rfind("/") + 1]]: the text of [p] up to its last slash, the slash
    included; empty when [p] has no slash. *)
Fixpoint head_to_slash (p : string) : string :=
  match p with
  | EmptyString => EmptyString
  | String c p' =>
      match head_to_slash p' with
      | EmptyString => if Ascii.eqb c "/" then String c EmptyString else EmptyString
      | h => String c h
      end
  end.

(** [os.path.dirname(p)] of [posixpath]: the head, without its trailing
    slashes unless it consists of slashes. *)
Definition dirname (p : string) : string :=
  let head := head_to_slash p in
  if PyStr.all_chars (Ascii.eqb "/") head then head
  else PyText.rstrip_char "/" head.

(** [save_state(path, state)], bot.py lines 183-186: [os.makedirs] of the
    directory part of [path], [open(path, "w")], and the pieces of text
    [chunks] that [json.dump] writes to the handle, in order. *)
Definition save_state (path : string) (chunks : list string) : list FS.op :=
  [FS.Makedirs (dirname path); FS.OpenWrite path]
  ++ (FS.Write path <$> chunks) ++ [FS.Close path].

(** The write pattern the specification describes: the document goes to a
    temporary file, which then replaces the persisted one. *)
Definition spec_atomic_save (path tmp : string) (chunks : list string) : list FS.op :=
  [FS.Makedirs (dirname path); FS.OpenWrite tmp] ++ (FS.Write tmp <$> chunks)
  ++ [FS.Close tmp; FS.Replace tmp path].

(** [bool(v)]: the truth of a value. *)
Definition truthy (v : pyval) : bool :=
  match v with
  | VNone => false
  | VBool b => b
  | VInt z => negb (z =? 0)
  | VFloat f => negb (f =? 0)%float
  | VStr s => match s with EmptyString => false | _ => true end
  | VList l => match l with [] => false | _ => true end
  | VDict d => negb (bool_decide (size d = 0%nat))
  end.

(** [a or b]. *)
Definition py_or (a b : pyval) : pyval := if truthy a then a else b.

(** [v == text] for a string literal [text]. *)
Definition is_text (v : pyval) (text : string) : bool :=
  match v with
  | VStr s => bool_decide (s = text)
  | _ => false
  end.

(** ** Environment file *)

(** The double quote and the NUL character. *)
Definition double_quote : ascii := ascii_of_N 34.
Definition nul : ascii := ascii_of_N 0.

(** One turn of the loop of [load_dotenv], bot.py lines 73-78: the key and
    the value a line assigns; [None] for a line the loop skips.  The test
    [if key] of line 79 is part of it. *)
Definition parse_env_line (raw_line : string) : option (string * string) :=
  let line := PyStr.strip raw_line in
  if decide (line = EmptyString) then None
  else if PyText.startswith "#" line then None
  else
    match PyText.split_once "=" line with
    | None => None
    | Some (key, value) =>
        let key := PyStr.strip key in
        let value :=
          PyText.strip_char "'" (PyText.strip_char double_quote (PyStr.strip value)) in
        if decide (key = EmptyString) then None else Some (key, value)
    end.

(** One turn of the loop with its assignment, bot.py lines 79-80: a key the
    environment holds already is left alone.  [os.environ[key] = value]
    raises [ValueError] for a key or a value with an embedded NUL ([None]
    here); nothing in [load_dotenv] catches it. *)
Definition load_dotenv_step (environ : option (gmap string string)) (raw_line : string)
    : option (gmap string string) :=
  match environ with
  | None => None
  | Some environ =>
      match parse_env_line raw_line with
      | None => Some environ
      | Some (key, value) =>
          if decide (is_Some (environ !! key)) then Some environ
          else if PyText.has_char nul key || PyText.has_char nul value then None
          else Some (<[key := value]> environ)
      end
  end.

(** [load_dotenv(path)], bot.py lines 69-82, on the lines of the file at
    [path]; [None] for the lines: there is no such file. *)
Definition load_dotenv (environ : gmap string string) (file : option (list string))
    : option (gmap string string) :=
  match file with
  | None => Some environ
  | Some lines => foldl load_dotenv_step (Some environ) lines
  end.

(** ** Token resolution *)

(** [normalize_outcome(value)], bot.py lines 346-347. *)
Definition normalize_outcome (value : string) : string :=
  PyText.join " " (PyText.split (PyText.lower (PyStr.strip value))).

(** An item of a token map: [{"outcome": ..., "token_id": ...}]. *)
Record Token := {
  tok_outcome : string;
  tok_token_id : string
}.

(** [_token_cache], bot.py line 349. *)
Abbreviation token_cache := (gmap string (list Token)).

(** A request [request_json_public] sends. *)
Inductive request :=
| ReqClob (condition_id : string)
| ReqGamma (condition_id : string).

(** What the two services answer to [request_json_public] for a condition
    id: the decoded JSON, or [None] when the call raises. *)
Record TokenNet := {
  net_clob : string -> option pyval;
  net_gamma : string -> option pyval
}.

(** The keys of [entry] that [resolve_token_id] reads.  The condition id is
    text or missing, as in [Entry]. *)
Record SidedEntry := {
  se_conditionId : option string;
  se_sharpSide : pyval;
  se_sideA : pyval;
  se_sideB : pyval
}.

Section Tokens.

(** [str(v)] of a JSON value. *)
Variable py_str : pyval -> string.

(** The body of the loop of [fetch_clob_token_map], bot.py lines 400-404.
    The outer [None] is the [AttributeError] of [token.get] on a value that
    is no dict; the inner [None] is a token that is left out. *)
Definition clob_token (token : pyval) : option (option Token) :=
  match token with
  | VDict t =>
      let outcome := dict_get t "outcome" in
      let token_id :=
        py_or (dict_get t "token_id") (py_or (dict_get t "tokenId") (dict_get t "id")) in
      Some (if truthy outcome && truthy token_id
            then Some (Build_Token (py_str outcome) (py_str token_id))
            else None)
  | _ => None
  end.

(** The body of the loop of [fetch_token_map], bot.py lines 438-453. *)
Definition gamma_token (token : pyval) : option (option Token) :=
  match token with
  | VDict t =>
      let outcome :=
        py_or (dict_get t "outcome")
          (py_or (dict_get t "name")
             (py_or (dict_get t "label") (dict_get t "outcome_name"))) in
      let token_id :=
        py_or (dict_get t "token_id")
          (py_or (dict_get t "tokenId")
             (py_or (dict_get t "clobTokenId") (dict_get t "id"))) in
      Some (if truthy outcome && truthy token_id
            then Some (Build_Token (py_str outcome) (py_str token_id))
            else None)
  | _ => None
  end.

(** [for token in tokens: ...] building [mapped].  [tokens] is a list, or a
    value [for] cannot iterate or whose items have no [get]: the loop raises
    ([None]). *)
Definition map_tokens (body : pyval -> option (option Token)) (tokens : pyval)
    : option (list Token) :=
  match tokens with
  | VList items => omap id <$> mapM body items
  | _ => None
  end.

(** [fetch_clob_token_map(condition_id)], bot.py lines 386-407: the result
    ([None]: it raises), the cache and the requests sent. *)
Definition fetch_clob_token_map (net : TokenNet) (cache : token_cache)
    (condition_id : string) : option (list Token) * token_cache * list request :=
  if decide (condition_id = EmptyString) then (Some [], cache, [])
  else
    match cache !! condition_id with
    | Some mapped => (Some mapped, cache, [])
    | None =>
        let data := default (VDict ∅) (net_clob net condition_id) in
        let tokens :=
          match data with
          | VDict d => py_or (dict_get d "tokens") (VList [])
          | _ => VList []
          end in
        match map_tokens clob_token tokens with
        | None => (None, cache, [ReqClob condition_id])
        | Some mapped =>
            (Some mapped,
             match mapped with
             | [] => cache
             | _ => <[condition_id := mapped]> cache
             end,
             [ReqClob condition_id])
        end
    end.

(** [fetch_token_map(condition_id)], bot.py lines 409-455. *)
Definition fetch_token_map (net : TokenNet) (cache : token_cache)
    (condition_id : string) : option (list Token) * token_cache * list request :=
  if decide (condition_id = EmptyString) then (Some [], cache, [])
  else
    match cache !! condition_id with
    | Some mapped => (Some mapped, cache, [])
    | None =>
        let data := default (VList []) (net_gamma net condition_id) in
        let markets :=
          match data with
          | VList l => l
          | VDict d =>
              match d !! "data" with
              | Some (VList l) => l
              | _ => []
              end
          | _ => []
          end in
        match markets with
        | [] => (Some [], <[condition_id := []]> cache, [ReqGamma condition_id])
        | first :: _ =>
            match py_or first (VDict ∅) with
            | VDict market =>
                let tokens := py_or (dict_get market "tokens") (VList []) in
                match map_tokens gamma_token tokens with
                | None => (None, cache, [ReqGamma condition_id])
                | Some mapped =>
                    (Some mapped, <[condition_id := mapped]> cache,
                     [ReqGamma condition_id])
                end
            | _ => (None, cache, [ReqGamma condition_id])
            end
        end
    end.

(** [(entry.get(side) or {}).get("label") or ""], bot.py lines 467-468;
    [None] is the [AttributeError] of [get] on a value that is no dict. *)
Definition side_label (side : pyval) : option pyval :=
  match py_or side (VDict ∅) with
  | VDict d => Some (py_or (dict_get d "label") (VStr EmptyString))
  | _ => None
  end.

(** The choice among the tokens, bot.py lines 470-480; [None] is the
    [AttributeError] of [strip] on a label that is no text. *)
Definition pick_token (tokens : list Token) (sharp_side target_label : pyval)
    : option string :=
  let by_position :=
    match tokens with
    | [first; second] =>
        if is_text sharp_side "A" then tok_token_id first
        else if is_text sharp_side "B" then tok_token_id second
        else EmptyString
    | _ => EmptyString
    end in
  if truthy target_label then
    match target_label with
    | VStr label =>
        let target := normalize_outcome label in
        match List.find (fun token =>
                bool_decide (normalize_outcome (tok_outcome token) = target)) tokens with
        | Some token => Some (tok_token_id token)
        | None =>
            match List.find (fun token =>
                    PyText.contains target (normalize_outcome (tok_outcome token)))
                    tokens with
            | Some token => Some (tok_token_id token)
            | None => Some by_position
            end
        end
    | _ => None
    end
  else Some by_position.

(** The end of [resolve_token_id], bot.py lines 463-480, once the tokens
    are known: no tokens, no id; else the choice by the label of the sharp
    side.  [None]: it raises. *)
Definition choose_token (entry : SidedEntry) (tokens : list Token) : option string :=
  match tokens with
  | [] => Some EmptyString
  | _ =>
      match side_label (se_sideA entry) with
      | None => None
      | Some side_a =>
          match side_label (se_sideB entry) with
          | None => None
          | Some side_b =>
              let target_label :=
                if is_text (se_sharpSide entry) "A" then side_a
                else if is_text (se_sharpSide entry) "B" then side_b
                else VStr EmptyString in
              pick_token tokens (se_sharpSide entry) target_label
          end
      end
  end.

(** [resolve_token_id(entry)], bot.py lines 457-480: the result ([None]: it
    raises), the cache and the requests sent. *)
Definition resolve_token_id (net : TokenNet) (cache : token_cache) (entry : SidedEntry)
    : option string * token_cache * list request :=
  match se_conditionId entry with
  | None | Some EmptyString => (Some EmptyString, cache, [])
  | Some condition_id =>
      let '(clob, cache1, requests1) := fetch_clob_token_map net cache condition_id in
      match clob with
      | None => (None, cache1, requests1)
      | Some tokens1 =>
          let '(found, cache2, requests2) :=
            match tokens1 with
            | [] => fetch_token_map net cache1 condition_id
            | _ => (Some tokens1, cache1, [])
            end in
          match found with
          | None => (None, cache2, requests1 ++ requests2)
          | Some tokens => (choose_token entry tokens, cache2, requests1 ++ requests2)
          end
      end
  end.

End Tokens.

(** ** Further tests on events and ledgers *)

Definition is_live_order (ev : event) : bool :=
  match ev with EvLiveOrder _ _ => true | _ => false end.

Definition is_exit (ev : event) : bool :=
  match ev with EvExit _ => true | _ => false end.

(** The effects of handling a candidate: the call of [place_bet] and what
    [place_bet] does. *)
Definition is_dispatch_effect (ev : event) : bool :=
  match ev with
  | EvPlaceBet _ _ | EvLiveOrder _ _ | EvTradeLog _ | EvPostPick _ _ | EvExit _ => true
  | EvSleep _ | EvFetch | EvSaveState _ => false
  end.

(** The sleep lasts one second at least. *)
Definition sleeps_a_second (ev : event) : Prop :=
  match ev with
  | EvSleep seconds => (1 <=? seconds)%float = true
  | _ => True
  end.

(** A ledger as the loop builds it: no empty condition id, and every row is
    [{"placedAt": <int>, "eventTime": <value>}] and holds no other key. *)
Definition ledger_ok (meta : ledger) : Prop :=
  meta !! EmptyString = None
  ∧ ∀ cid (r : row),
      meta !! cid = Some r →
      ∃ (placed_at : Z) (event_time : pyval),
        r = <["placedAt" := VInt placed_at]> (<["eventTime" := event_time]> ∅).

(** ** Example data *)

(** The configuration [load_config] builds when the environment sets none of
    the variables, bot.py lines 110-169. *)
Definition default_config : BotConfig := {|
  Config.max_bets := 5;
  Config.dry_run := true;
  Config.low_roi_threshold := 0.72;
  Config.stop_on_403 := true;
  Config.poll_seconds := 20;
  Config.poll_jitter_ratio := 0.2;
  Config.poll_backoff_base := 2;
  Config.poll_backoff_max := 120;
  Config.max_calls_per_hour := 120;
  Config.run_window_start := EmptyString;
  Config.run_window_end := EmptyString;
  Config.placed_ttl_seconds := 21600;
  Config.placed_event_grace_seconds := 1800;
  Config.paper_bankroll := 1000;
  Config.kelly_fraction := 0.25;
  Config.max_stake := 50;
  Config.min_stake := 1;
  Config.fixed_stake := 0
|}.

(** [default_config] with [BOT_DRY_RUN=false] and [BOT_STOP_ON_403] as given. *)
Definition live_config (stop : bool) : BotConfig := {|
  Config.max_bets := 5;
  Config.dry_run := false;
  Config.low_roi_threshold := 0.72;
  Config.stop_on_403 := stop;
  Config.poll_seconds := 20;
  Config.poll_jitter_ratio := 0.2;
  Config.poll_backoff_base := 2;
  Config.poll_backoff_max := 120;
  Config.max_calls_per_hour := 120;
  Config.run_window_start := EmptyString;
  Config.run_window_end := EmptyString;
  Config.placed_ttl_seconds := 21600;
  Config.placed_event_grace_seconds := 1800;
  Config.paper_bankroll := 1000;
  Config.kelly_fraction := 0.25;
  Config.max_stake := 50;
  Config.min_stake := 1;
  Config.fixed_stake := 0
|}.

(** [default_config] with [BOT_MAX_CALLS_PER_HOUR] as given. *)
Definition capped_config (cap : Z) : BotConfig := {|
  Config.max_bets := 5;
  Config.dry_run := true;
  Config.low_roi_threshold := 0.72;
  Config.stop_on_403 := true;
  Config.poll_seconds := 20;
  Config.poll_jitter_ratio := 0.2;
  Config.poll_backoff_base := 2;
  Config.poll_backoff_max := 120;
  Config.max_calls_per_hour := cap;
  Config.run_window_start := EmptyString;
  Config.run_window_end := EmptyString;
  Config.placed_ttl_seconds := 21600;
  Config.placed_event_grace_seconds := 1800;
  Config.paper_bankroll := 1000;
  Config.kelly_fraction := 0.25;
  Config.max_stake := 50;
  Config.min_stake := 1;
  Config.fixed_stake := 0
|}.

(** A candidate of the feed with its condition id, price and grade. *)
Definition example_candidate (cid : string) (price : float) (label : string)
    : Candidate := {|
  entry := Some {|
    conditionId := Some cid;
    marketTitle := VStr "Will it rain?";
    eventTime := VStr "2024-01-01T00:00:00Z";
    sharpSide := VStr "A";
    sharpSidePrice := Some price
  |};
  grade := Some {| grade_label := Some label; signalScore := VInt 80 |}
|}.

(** The answers of the world to one call of [place_bet]. *)
Definition example_place_env (live : live_result) : PlaceEnv := {|
  pe_time := 1700000000;
  pe_live := live;
  pe_post_ok := true
|}.

(** The answers of the world during one iteration: the clock reads [now] and
    then [call_time], the feed answers [fetch], and every live order ends as
    [live]. *)
Definition example_env (now call_time : float)
    (fetch : option (list Candidate)) (live : live_result) : CycleEnv := {|
  env_local_time := Some (12, 0);
  env_now := now;
  env_call_time := call_time;
  env_fetch := fetch;
  env_save_ok := true;
  env_cand := fun _ => {| ce_place := example_place_env live; ce_placed_time := 1700000001 |};
  env_rand_backoff := 0.5;
  env_rand_poll := 0.5
|}.

(** The state of the loop after start-up from an empty state file. *)
Definition fresh_loop : LoopState := {|
  state := {["placed" := VList []; "bankroll" := VFloat 1000]};
  placed_meta := ∅;
  call_timestamps := [];
  backoff := 0
|}.

(** The state of the loop with a backoff of four seconds pending. *)
Definition backing_off_loop : LoopState := {|
  state := {["placed" := VList []; "bankroll" := VFloat 1000]};
  placed_meta := ∅;
  call_timestamps := [];
  backoff := 4
|}.

(** The state of the loop with an entry placed long ago and two calls made in
    the last seconds before 1700000000. *)
Definition stale_loop : LoopState := {|
  state := {["placed" := VList [VStr "0xold"]; "bankroll" := VFloat 1000]};
  placed_meta := {["0xold" := make_row 1600000000 VNone]};
  call_timestamps := [1699999990; 1699999995]%float;
  backoff := 0
|}.

(** A candidate of the feed that lacks the key [grade]. *)
Definition ungraded_candidate (cid : string) : Candidate := {|
  entry := Some {|
    conditionId := Some cid;
    marketTitle := VStr "Will it snow?";
    eventTime := VNone;
    sharpSide := VStr "B";
    sharpSidePrice := Some 0.40%float
  |};
  grade := None
|}.

(** An iteration at 1700000000 whose feed offers one grade A candidate at a
    price of one half. *)
Definition paper_cycle : CycleEnv :=
  example_env 1700000000 1700000000
    (Some [example_candidate "0xabc" 0.50 "A"]) (LiveRaised "unused").

(** An iteration at 1700000000 whose call of the feed raises. *)
Definition failing_cycle : CycleEnv :=
  example_env 1700000000 1700000000 None (LiveRaised "unused").

(** [str] on text, which is all the examples below hand to it. *)
Definition text_of (v : pyval) : string :=
  match v with
  | VStr s => s
  | _ => EmptyString
  end.

(** A world in which the first service knows the two tokens of the market
    [0xabc] and the second service is down. *)
Definition example_net : TokenNet := {|
  net_clob := fun condition_id =>
    if decide (condition_id = "0xabc"%string) then
      Some (VDict {["tokens" :=
        VList [VDict {["outcome" := VStr "Yes"; "token_id" := VStr "111"]};
               VDict {["outcome" := VStr "No"; "token_id" := VStr "222"]}]]})
    else None;
  net_gamma := fun _ => None
|}.

(** A world in which both services are down. *)
Definition silent_net : TokenNet := {|
  net_clob := fun _ => None;
  net_gamma := fun _ => None
|}.

(** An entry of the market [0xabc] whose sharp side is side B, labelled No. *)
Definition example_sided_entry : SidedEntry := {|
  se_conditionId := Some "0xabc"%string;
  se_sharpSide := VStr "B";
  se_sideA := VDict {["label" := VStr "yes"]};
  se_sideB := VDict {["label" := VStr " NO "]}
|}.

(** The ledger of the pruning examples: a row with an event time in
    milliseconds that lies ahead and a placement long ago, a row without an
    event time placed long ago, and a row placed a second ago whose event,
    given as text with a [Z], is over. *)
Definition example_rows : ledger :=
  {["0xev" := <["placedAt" := VInt 1600000000]>
                (<["eventTime" := VInt 1700001000000]> ∅);
    "0xold" := <["placedAt" := VInt 1699000000]> (<["eventTime" := VNone]> ∅);
    "0xiso" := <["placedAt" := VInt 1699999999]>
                 (<["eventTime" := VStr "2023-11-14T20:00:00Z"]> ∅)]}.

(** The state of the loop that holds a placement made a thousand seconds
    before 1700000000. *)
Definition placed_loop : LoopState := {|
  state := {["placed" := VList [VStr "0xold"]; "bankroll" := VFloat 965]};
  placed_meta :=
    {["0xold" := <["placedAt" := VInt 1699999000]> (<["eventTime" := VNone]> ∅)]};
  call_timestamps := [];
  backoff := 0
|}.

(** An iteration at 1700000000 whose feed is empty. *)
Definition idle_cycle : CycleEnv :=
  example_env 1700000000 1700000000 (Some []) (LiveRaised "unused").

(** An iteration at 1700000000 whose feed is empty and whose call of
    [save_state] raises. *)
Definition unsaved_cycle : CycleEnv := {|
  env_local_time := Some (12, 0);
  env_now := 1700000000;
  env_call_time := 1700000000;
  env_fetch := Some [];
  env_save_ok := false;
  env_cand := fun _ => {| ce_place := example_place_env (LiveRaised "unused");
                          ce_placed_time := 1700000001 |};
  env_rand_backoff := 0.5;
  env_rand_poll := 0.5
|}.

(** * Properties *)

(** ** Placement ledger *)

Section LedgerFacts.
Context `{DateTimeLib}.

(** An entry is in the pruned ledger exactly when it was in the ledger and
    its row passes the test of the loop body. *)
Lemma prune_lookup (meta : ledger) now ttl grace cid (r : row) :
  prune_placed_meta meta now ttl grace !! cid = Some r ↔
  meta !! cid = Some r ∧ keeps now ttl grace r = true.
Proof.
  unfold prune_placed_meta. revert cid r.
  apply (map_fold_weak_ind (λ (pruned m : ledger), ∀ cid (r : row),
    pruned !! cid = Some r ↔ m !! cid = Some r ∧ keeps now ttl grace r = true)).
  - intros cid r. rewrite !lookup_empty. split; [done|]. by intros [? _].
  - intros i x m acc Hi IH cid r. unfold prune_step.
    destruct (decide (i = cid)) as [->|Hne].
    + destruct (keeps now ttl grace x) eqn:Hk.
      * rewrite !lookup_insert_eq. split.
        -- intros [= <-]. done.
        -- by intros [? _].
      * rewrite IH, Hi, lookup_insert_eq. split.
        -- by intros [? _].
        -- intros [[= <-] Hk']. congruence.
    + destruct (keeps now ttl grace x);
        rewrite ?lookup_insert_ne by done; apply IH.
Qed.

Lemma prune_lookup_None (meta : ledger) now ttl grace cid :
  meta !! cid = None → prune_placed_meta meta now ttl grace !! cid = None.
Proof.
  intros Hm. destruct (prune_placed_meta meta now ttl grace !! cid) eqn:E; [|done].
  apply prune_lookup in E as [E _]. congruence.
Qed.

(** Pruning never adds an entry. *)
Lemma prune_subseteq (meta : ledger) now ttl grace :
  prune_placed_meta meta now ttl grace ⊆ meta.
Proof.
  apply map_subseteq_spec. intros cid r Hr. by apply prune_lookup in Hr as [? _].
Qed.

(** A missing [placedAt], and one [int] rejects, read as [now_ts]. *)
Lemma placed_at_of_default (r : row) now :
  py_int (dict_get r "placedAt") = None → placed_at_of r now = now.
Proof.
  unfold placed_at_of. intros Hp. destruct (dict_get r "placedAt"); try done;
    simpl in *; by rewrite Hp.
Qed.

Lemma placed_at_of_missing (r : row) now :
  r !! "placedAt" = None → placed_at_of r now = now.
Proof.
  intros Hm. apply placed_at_of_default. unfold dict_get. by rewrite Hm.
Qed.

Lemma placed_at_of_int (r : row) now z :
  py_int (dict_get r "placedAt") = Some z → placed_at_of r now = z.
Proof.
  unfold placed_at_of. intros Hp. destruct (dict_get r "placedAt");
    simpl in *; try congruence; by rewrite Hp.
Qed.

(** The loop over a [placedMeta] dict keeps every key but the empty one and
    rebuilds each row from [placedAt] and [eventTime] alone. *)
Lemma normalize_dict_lookup (meta_raw : gmap string pyval) now cid :
  map_fold (normalize_step now) ∅ meta_raw !! cid =
  if decide (cid = EmptyString) then None
  else
    (λ value,
       let r := match value with VDict d => d | _ => ∅ end in
       make_row (placed_at_of r now) (dict_get r "eventTime")) <$> meta_raw !! cid.
Proof.
  apply (map_fold_weak_ind (λ (meta : ledger) (m : gmap string pyval),
    meta !! cid =
    if decide (cid = EmptyString) then None
    else
      (λ value,
         let r := match value with VDict d => d | _ => ∅ end in
         make_row (placed_at_of r now) (dict_get r "eventTime")) <$> m !! cid)).
  - rewrite !lookup_empty. by case_decide.
  - intros i x m acc Hi IH. unfold normalize_step.
    destruct (decide (i = cid)) as [->|Hne].
    + case_decide; [done|]. by rewrite !lookup_insert_eq.
    + rewrite (lookup_insert_ne m) by done.
      destruct (decide (i = EmptyString)); [done|].
      by rewrite lookup_insert_ne.
Qed.

Lemma elem_of_legacy_ids legacy s : s ∈ legacy_ids legacy ↔ VStr s ∈ legacy.
Proof.
  unfold legacy_ids. rewrite list_elem_of_omap. split.
  - intros (item & Hin & Hs). destruct item; simplify_eq. done.
  - intros Hin. exists (VStr s). done.
Qed.

Lemma legacy_fold_lookup now legacy (acc : ledger) cid :
  foldl (legacy_step now) acc legacy !! cid =
  if decide (cid ≠ EmptyString ∧ cid ∈ legacy_ids legacy)
  then Some (make_row now VNone) else acc !! cid.
Proof.
  revert acc. induction legacy as [|item legacy IH]; intros acc; simpl.
  - case_decide as Hd; [|done]. destruct Hd as [_ Hd]. by apply elem_of_nil in Hd.
  - rewrite IH. unfold legacy_ids at 2. simpl. fold (legacy_ids legacy).
    destruct item as [| | | |s| |]; simpl;
      try (repeat case_decide; naive_solver).
    destruct (decide (s = EmptyString)) as [->|Hs].
    + repeat case_decide; try done; set_solver.
    + destruct (decide (s = cid)) as [->|Hne].
      * rewrite lookup_insert_eq. repeat case_decide; try done; set_solver.
      * rewrite lookup_insert_ne by done.
        repeat case_decide; try done; set_solver.
Qed.

(** A trailing [Z] reads as the offset [+00:00]. *)
Lemma replace_Z_trailing (s : string) :
  PyStr.replace_Z (s ++ "Z") = (PyStr.replace_Z s ++ "+00:00")%string.
Proof.
  induction s as [|c s IH]; [done|].
  change (PyStr.replace_Z (String c (s ++ "Z")%string)
          = (PyStr.replace_Z (String c s) ++ "+00:00")%string).
  cbn [PyStr.replace_Z]. rewrite IH. by destruct (Ascii.eqb c "Z").
Qed.

(** ISO-8601 text without a zone is read in UTC. *)
Lemma parse_naive_text_as_utc (s : string) dt :
  PyStr.strip s ≠ EmptyString →
  PyStr.all_digits (PyStr.strip s) = false →
  fromisoformat (PyStr.replace_Z (PyStr.strip s)) = Some dt →
  dt_tzinfo dt = None →
  parse_event_time_seconds (VStr s)
  = PyNum.int_of_float (dt_timestamp (dt_replace_tzinfo dt timezone_utc)).
Proof.
  intros Hne Hdigits Hiso Htz. unfold parse_event_time_seconds.
  case_decide; [done|]. by rewrite Hdigits, Hiso, Htz.
Qed.

End LedgerFacts.

Section LedgerClaims.
Context `{DateTimeLib}.

Lemma placed_at_of_py_int (r : row) now :
  placed_at_of r now = default now (py_int (dict_get r "placedAt")).
Proof. unfold placed_at_of. by destruct (dict_get r "placedAt"). Qed.

(** C1 (as amended).  For every ledger, [now], ttl and grace,
    [prune_placed_meta] keeps an entry exactly when: its [eventTime] parses
    to a timestamp and [now <= eventTime + grace], or its [eventTime] does
    not parse and [now - placedAt <= ttl].  In the first case the ttl has no
    influence.  The [placedAt] is the one stored in the row, as [int] reads
    it; one that is missing or that [int] rejects reads as [now], and then
    the entry is kept whenever the ttl is not negative.  An [eventTime]
    parses as follows: a number above 0 is epoch seconds, and epoch
    milliseconds (divided by 1000) when it exceeds 10^12; a run of digits
    likewise; any other text goes to [fromisoformat] with every [Z] written
    [+00:00], and a date without zone is read in UTC; everything else, and a
    number that is not above 0, does not parse. *)
Theorem prune_placed_meta_precedence
    (meta : ledger) (now ttl grace : Z) (cid : string) (r : row) :
  (prune_placed_meta meta now ttl grace !! cid = Some r ↔
     meta !! cid = Some r ∧
     match parse_event_time_seconds (dict_get r "eventTime") with
     | Some event_ts => now <= event_ts + grace
     | None => now - placed_at_of r now <= ttl
     end)
  ∧ (∀ ttl', is_Some (parse_event_time_seconds (dict_get r "eventTime")) →
       meta !! cid = Some r →
       prune_placed_meta meta now ttl' grace !! cid
       = prune_placed_meta meta now ttl grace !! cid)
  ∧ (py_int (dict_get r "placedAt") = None → placed_at_of r now = now)
  ∧ (meta !! cid = Some r →
     parse_event_time_seconds (dict_get r "eventTime") = None →
     py_int (dict_get r "placedAt") = None →
     0 <= ttl →
     prune_placed_meta meta now ttl grace !! cid = Some r)
  ∧ (∀ stored placed_at,
       meta !! cid = Some r →
       parse_event_time_seconds (dict_get r "eventTime") = None →
       r !! "placedAt" = Some stored →
       py_int stored = Some placed_at →
       (prune_placed_meta meta now ttl grace !! cid = Some r ↔ now - placed_at <= ttl))
  ∧ (∀ v f,
       PyNum.number v = Some f →
       parse_event_time_seconds v
       = let value := if (1000000000000 <? f)%float then (f / 1000)%float else f in
         if (0 <? value)%float then PyNum.int_of_float value else None)
  ∧ (∀ s,
       PyStr.all_digits (PyStr.strip s) = true →
       parse_event_time_seconds (VStr s)
       = let value := PyStr.decimal (PyStr.strip s) in
         if 1000000000000 <? value then Some (value / 1000)
         else if 0 <? value then Some value else None)
  ∧ (∀ s,
       PyStr.strip s ≠ EmptyString →
       PyStr.all_digits (PyStr.strip s) = false →
       parse_event_time_seconds (VStr s)
       = match fromisoformat (PyStr.replace_Z (PyStr.strip s)) with
         | None => None
         | Some dt =>
             PyNum.int_of_float
               (dt_timestamp
                  (match dt_tzinfo dt with
                   | None => dt_replace_tzinfo dt timezone_utc
                   | Some _ => dt
                   end))
         end)
  ∧ (∀ s, PyStr.replace_Z (s ++ "Z") = (PyStr.replace_Z s ++ "+00:00")%string)
  ∧ (∀ v, PyNum.number v = None → (∀ s, v ≠ VStr s) →
          parse_event_time_seconds v = None)
  ∧ (∀ s, PyStr.strip s = EmptyString → parse_event_time_seconds (VStr s) = None).
Proof.
  assert (Hspec : ∀ t, prune_placed_meta meta now t grace !! cid = Some r ↔
     meta !! cid = Some r ∧
     match parse_event_time_seconds (dict_get r "eventTime") with
     | Some event_ts => now <= event_ts + grace
     | None => now - placed_at_of r now <= t
     end).
  { intros t. rewrite prune_lookup. unfold keeps.
    destruct (parse_event_time_seconds (dict_get r "eventTime")) as [ev|];
      rewrite Z.leb_le; done. }
  split; [apply Hspec|]. split_and!.
  - intros ttl' [ev Hev] Hm.
    destruct (decide (now <= ev + grace)) as [Hle|Hgt].
    + transitivity (Some r); [|symmetry]; apply Hspec; by rewrite Hev.
    + destruct (prune_placed_meta meta now ttl' grace !! cid) as [r1|] eqn:E1,
        (prune_placed_meta meta now ttl grace !! cid) as [r2|] eqn:E2; try done.
      * apply prune_lookup in E1 as [E1 _], E2 as [E2 _]. congruence.
      * apply prune_lookup in E1 as [E1 K]. assert (r1 = r) as -> by congruence.
        unfold keeps in K. rewrite Hev in K. apply Z.leb_le in K. lia.
      * apply prune_lookup in E2 as [E2 K]. assert (r2 = r) as -> by congruence.
        unfold keeps in K. rewrite Hev in K. apply Z.leb_le in K. lia.
  - apply placed_at_of_default.
  - intros Hm Hev Hp Httl. apply Hspec. split; [done|].
    rewrite Hev, (placed_at_of_default _ _ Hp). lia.
  - intros stored placed_at Hm Hev Hstored Hint. rewrite Hspec, Hev.
    rewrite (placed_at_of_int r now placed_at).
    + split; [by intros [_ ?]|done].
    + unfold dict_get. by rewrite Hstored.
  - intros v f Hf. unfold parse_event_time_seconds.
    destruct v as [|b|z|f'|s|l|d]; try done; by rewrite Hf.
  - intros s Hd. unfold parse_event_time_seconds.
    case_decide as He; [by rewrite He in Hd|]. rewrite Hd. simpl.
    destruct (1000000000000 <? PyStr.decimal (PyStr.strip s)) eqn:Hms; [|done].
    apply Z.ltb_lt in Hms.
    assert (0 < PyStr.decimal (PyStr.strip s) / 1000) as Hpos.
    { apply Z.div_str_pos. lia. }
    apply Z.ltb_lt in Hpos. by rewrite Hpos.
  - intros s Hne Hd. unfold parse_event_time_seconds.
    case_decide; [done|]. rewrite Hd.
    destruct (fromisoformat _) as [dt|]; [|done]. by destruct (dt_tzinfo dt).
  - apply replace_Z_trailing.
  - intros v Hn Hs. destruct v as [|b|z|f'|s|l|d]; try done.
    + simpl. simpl in Hn. by rewrite Hn.
    + by exfalso; eapply Hs.
  - intros s Hs. unfold parse_event_time_seconds. by case_decide.
Qed.

(** C10.  When [placedMeta] is a dict, the ledger is rebuilt from it alone:
    the result does not depend on any other key of the state, the legacy
    list included, even for the empty dict; each of its non-empty keys gets
    the row [{"placedAt": p, "eventTime": e}], where [e] is the [eventTime]
    of the value and [p] its [placedAt] as [int] reads it, and a value that
    is no dict, a missing [placedAt] and one that [int] rejects give
    [placedAt = now].  The legacy list is read only when [placedMeta] is no
    dict, and then exactly its non-empty string items become rows, each
    [{"placedAt": now, "eventTime": None}]. *)
Theorem normalize_placed_meta_sources (state : gmap string pyval) (now : Z) :
  (∀ meta_raw state',
     state !! "placedMeta" = Some (VDict meta_raw) →
     state' !! "placedMeta" = Some (VDict meta_raw) →
     normalize_placed_meta state' now = normalize_placed_meta state now
     ∧ normalize_placed_meta state now !! EmptyString = None
     ∧ (∀ cid, meta_raw !! cid = None → normalize_placed_meta state now !! cid = None)
     ∧ (∀ cid d,
          cid ≠ EmptyString → meta_raw !! cid = Some (VDict d) →
          normalize_placed_meta state now !! cid
          = Some (<["placedAt" := VInt (default now (py_int (dict_get d "placedAt")))]>
                    (<["eventTime" := dict_get d "eventTime"]> ∅)))
     ∧ (∀ cid value,
          cid ≠ EmptyString → meta_raw !! cid = Some value →
          (∀ d, value ≠ VDict d) →
          normalize_placed_meta state now !! cid
          = Some (<["placedAt" := VInt now]> (<["eventTime" := VNone]> ∅))))
  ∧ (state !! "placedMeta" = Some (VDict ∅) → normalize_placed_meta state now = ∅)
  ∧ (∀ legacy,
       (∀ d, dict_get state "placedMeta" ≠ VDict d) →
       state !! "placed" = Some (VList legacy) →
       ∀ cid (r : row),
         normalize_placed_meta state now !! cid = Some r ↔
         cid ≠ EmptyString ∧ VStr cid ∈ legacy
         ∧ r = <["placedAt" := VInt now]> (<["eventTime" := VNone]> ∅))
  ∧ ((∀ d, dict_get state "placedMeta" ≠ VDict d) →
     (∀ legacy, state !! "placed" ≠ Some (VList legacy)) →
     normalize_placed_meta state now = ∅).
Proof.
  split_and!.
  - intros meta_raw state' Hs Hs'. unfold normalize_placed_meta, dict_get.
    rewrite Hs, Hs'. simpl. split; [done|]. split_and!.
    + rewrite normalize_dict_lookup. by case_decide.
    + intros cid Hc. rewrite normalize_dict_lookup, Hc. by case_decide.
    + intros cid d Hne Hc. rewrite normalize_dict_lookup, Hc.
      case_decide; [done|]. simpl. by rewrite placed_at_of_py_int.
    + intros cid value Hne Hc Hv. rewrite normalize_dict_lookup, Hc.
      case_decide; [done|]. simpl.
      destruct value; try done. by exfalso; eapply Hv.
  - intros Hs. unfold normalize_placed_meta, dict_get. rewrite Hs. simpl.
    apply map_fold_empty.
  - intros legacy Hnd Hl cid r. unfold normalize_placed_meta.
    destruct (dict_get state "placedMeta") eqn:E;
      try (by exfalso; eapply Hnd); rewrite Hl; simpl;
      rewrite legacy_fold_lookup, <- elem_of_legacy_ids, lookup_empty;
      unfold make_row; case_decide; naive_solver.
  - intros Hnd Hl. unfold normalize_placed_meta.
    destruct (dict_get state "placedMeta") eqn:E; try (by exfalso; eapply Hnd).
    all: destruct (state !! "placed") as [[]|] eqn:Hp; simpl; try done.
    all: by exfalso; eapply Hl.
Qed.

End LedgerClaims.

(** The examples of the ledger run against the small [datetime] library. *)

Example parse_epoch_seconds :
  parse_event_time_seconds (VInt 1700000000) = Some 1700000000
  ∧ parse_event_time_seconds (VFloat 1700000000.9) = Some 1700000000
  ∧ parse_event_time_seconds (VStr " 1700000000 ") = Some 1700000000.
Proof. repeat split; vm_compute; reflexivity. Qed.

Example parse_epoch_milliseconds :
  parse_event_time_seconds (VInt 1700000000123) = Some 1700000000
  ∧ parse_event_time_seconds (VStr "1700000000123") = Some 1700000000
  ∧ parse_event_time_seconds (VInt 1000000000000) = Some 1000000000000.
Proof. repeat split; vm_compute; reflexivity. Qed.

Example parse_iso_text :
  parse_event_time_seconds (VStr "2024-01-01T00:00:00Z") = Some 1704067200
  ∧ parse_event_time_seconds (VStr "2024-01-01T00:00:00") = Some 1704067200
  ∧ parse_event_time_seconds (VStr "2024-01-01T02:00:00+02:00") = Some 1704067200.
Proof. repeat split; vm_compute; reflexivity. Qed.

Example parse_rejects :
  parse_event_time_seconds VNone = None
  ∧ parse_event_time_seconds (VInt 0) = None
  ∧ parse_event_time_seconds (VInt (-5)) = None
  ∧ parse_event_time_seconds (VStr EmptyString) = None
  ∧ parse_event_time_seconds (VStr "soon") = None.
Proof. repeat split; vm_compute; reflexivity. Qed.

(** [int] on text: the separators 0x1c-0x1f are no whitespace for it. *)
Example int_of_text :
  py_int (VStr " 1699 ") = Some 1699
  ∧ py_int (VStr (String (ascii_of_N 28) "5")) = None
  ∧ PyStr.strip (String (ascii_of_N 28) "5") = "5"%string
  ∧ py_int (VStr "1_000") = Some 1000
  ∧ py_int (VStr "-7") = Some (-7)
  ∧ py_int (VStr "soon") = None.
Proof. repeat split; vm_compute; reflexivity. Qed.

(** C1, the claim as stated fails: with a negative ttl, an entry without an
    event time whose [placedAt] no [int] reads is dropped by the very pass
    that reads its placement time as [now]; and so is the row the start-up
    makes of it, whose [placedAt] is the time of the start-up. *)
Lemma prune_drops_defaulted_entry_under_negative_ttl :
  py_int (dict_get {["placedAt" := VStr "soon"; "eventTime" := VNone]} "placedAt") = None
  ∧ parse_event_time_seconds
      (dict_get {["placedAt" := VStr "soon"; "eventTime" := VNone]} "eventTime") = None
  ∧ prune_placed_meta
      {["0xabc" := {["placedAt" := VStr "soon"; "eventTime" := VNone]}]}
      1700000000 (-1) 1800 !! "0xabc" = None
  ∧ normalize_placed_meta
      {["placedMeta" :=
          VDict {["0xabc" := VDict {["placedAt" := VStr "soon"; "eventTime" := VNone]}]}]}
      1700000000 !! "0xabc"
    = Some (<["placedAt" := VInt 1700000000]> (<["eventTime" := VNone]> ∅))
  ∧ prune_placed_meta
      (normalize_placed_meta
         {["placedMeta" :=
             VDict {["0xabc" := VDict {["placedAt" := VStr "soon"; "eventTime" := VNone]}]}]}
         1700000000)
      1700000000 (-1) 1800 !! "0xabc" = None.
Proof. repeat split; vm_compute; reflexivity. Qed.

(** C1, the amended claim at that ledger, at 1700000000 with the default ttl
    and grace: the first row is kept by its event time although its
    placement is older than the ttl, the second is dropped by the ttl
    counted from its stored [placedAt], and the third is dropped by its
    event time although it was placed a second ago. *)
Lemma prune_placed_meta_precedence_witness :
  prune_placed_meta example_rows 1700000000 21600 1800 !! "0xev"
  = Some (<["placedAt" := VInt 1600000000]> (<["eventTime" := VInt 1700001000000]> ∅))
  ∧ ¬ (prune_placed_meta example_rows 1700000000 21600 1800 !! "0xold"
       = Some (<["placedAt" := VInt 1699000000]> (<["eventTime" := VNone]> ∅)))
  ∧ ¬ (prune_placed_meta example_rows 1700000000 21600 1800 !! "0xiso"
       = Some (<["placedAt" := VInt 1699999999]>
                 (<["eventTime" := VStr "2023-11-14T20:00:00Z"]> ∅))).
Proof.
  split; [|split].
  - destruct (prune_placed_meta_precedence example_rows 1700000000 21600 1800 "0xev"
                (<["placedAt" := VInt 1600000000]>
                   (<["eventTime" := VInt 1700001000000]> ∅)))
      as (Hmain & _).
    apply Hmain. split; [vm_compute; reflexivity|]. vm_compute. discriminate.
  - destruct (prune_placed_meta_precedence example_rows 1700000000 21600 1800 "0xold"
                (<["placedAt" := VInt 1699000000]> (<["eventTime" := VNone]> ∅)))
      as (_ & _ & _ & _ & Hstored & _).
    intros Hkept.
    apply (Hstored (VInt 1699000000) 1699000000) in Hkept;
      [lia|vm_compute; reflexivity..].
  - destruct (prune_placed_meta_precedence example_rows 1700000000 21600 1800 "0xiso"
                (<["placedAt" := VInt 1699999999]>
                   (<["eventTime" := VStr "2023-11-14T20:00:00Z"]> ∅)))
      as (Hmain & _).
    intros Hkept. apply Hmain in Hkept as [_ Hkept].
    vm_compute in Hkept. by apply Hkept.
Defined.

(** C10 at concrete states: the empty [placedMeta] dict hides a legacy list;
    a state without [placedMeta] reads the list; and inside a [placedMeta]
    dict a stored [placedAt] is kept, text included, while a row that is no
    dict gets the time of the call. *)
Lemma normalize_placed_meta_sources_witness :
  normalize_placed_meta
    {["placedMeta" := VDict ∅; "placed" := VList [VStr "0xabc"]]} 1700000000 = ∅
  ∧ normalize_placed_meta {["placed" := VList [VStr "0xabc"; VStr EmptyString; VInt 7]]}
      1700000000 !! "0xabc"
    = Some (<["placedAt" := VInt 1700000000]> (<["eventTime" := VNone]> ∅))
  ∧ normalize_placed_meta
      {["placedMeta" :=
          VDict {["0xabc" := VDict {["placedAt" := VStr " 1699 ";
                                     "eventTime" := VStr "tbd"]};
                  "0xdef" := VInt 7]}]}
      1700000000 !! "0xabc"
    = Some (<["placedAt" := VInt 1699]> (<["eventTime" := VStr "tbd"]> ∅))
  ∧ normalize_placed_meta
      {["placedMeta" :=
          VDict {["0xabc" := VDict {["placedAt" := VStr " 1699 ";
                                     "eventTime" := VStr "tbd"]};
                  "0xdef" := VInt 7]}]}
      1700000000 !! "0xdef"
    = Some (<["placedAt" := VInt 1700000000]> (<["eventTime" := VNone]> ∅)).
Proof.
  split; [|split; [|split]].
  - destruct (normalize_placed_meta_sources
                {["placedMeta" := VDict ∅; "placed" := VList [VStr "0xabc"]]}
                1700000000) as (_ & Hempty & _).
    apply Hempty. vm_compute; reflexivity.
  - destruct (normalize_placed_meta_sources
                {["placed" := VList [VStr "0xabc"; VStr EmptyString; VInt 7]]} 1700000000)
      as (_ & _ & Hlegacy & _).
    apply (Hlegacy [VStr "0xabc"; VStr EmptyString; VInt 7]).
    + intros d. vm_compute. discriminate.
    + vm_compute; reflexivity.
    + split; [discriminate|]. split; [|reflexivity]. apply list_elem_of_here.
  - set (meta_raw := ({["0xabc" := VDict {["placedAt" := VStr " 1699 ";
                                            "eventTime" := VStr "tbd"]};
                         "0xdef" := VInt 7]} : gmap string pyval)).
    destruct (normalize_placed_meta_sources {["placedMeta" := VDict meta_raw]}
                1700000000) as (Hdict & _).
    destruct (Hdict meta_raw {["placedMeta" := VDict meta_raw]}
                ltac:(vm_compute; reflexivity) ltac:(vm_compute; reflexivity))
      as (_ & _ & _ & Hrow & _).
    etrans; [apply (Hrow "0xabc"%string
                      {["placedAt" := VStr " 1699 "; "eventTime" := VStr "tbd"]});
             [discriminate|vm_compute; reflexivity]|].
    vm_compute. reflexivity.
  - set (meta_raw := ({["0xabc" := VDict {["placedAt" := VStr " 1699 ";
                                            "eventTime" := VStr "tbd"]};
                         "0xdef" := VInt 7]} : gmap string pyval)).
    destruct (normalize_placed_meta_sources {["placedMeta" := VDict meta_raw]}
                1700000000) as (Hdict & _).
    destruct (Hdict meta_raw {["placedMeta" := VDict meta_raw]}
                ltac:(vm_compute; reflexivity) ltac:(vm_compute; reflexivity))
      as (_ & _ & _ & _ & Hother).
    apply (Hother "0xdef"%string (VInt 7));
      [discriminate|vm_compute; reflexivity|discriminate].
Defined.

(** ** Scheduling *)

Example run_window_wraps_midnight :
  parse_time_window "22:00" = Some (22, 0)
  ∧ parse_time_window "06:00" = Some (6, 0)
  ∧ is_within_window 23 30 (22, 0) (6, 0) = true
  ∧ is_within_window 1 0 (22, 0) (6, 0) = true
  ∧ is_within_window 12 0 (22, 0) (6, 0) = false.
Proof. repeat split; vm_compute; reflexivity. Qed.

Example run_window_rejects_malformed :
  parse_time_window "24:00" = None
  ∧ parse_time_window "12:60" = None
  ∧ parse_time_window "noon" = None
  ∧ parse_time_window "1:2:3" = None
  ∧ parse_time_window EmptyString = None.
Proof. repeat split; vm_compute; reflexivity. Qed.

Example backoff_doubles_up_to_the_cap :
  next_backoff default_config 0 = 2%float
  ∧ next_backoff default_config 2 = 4%float
  ∧ next_backoff default_config 64 = 120%float
  ∧ next_backoff default_config 120 = 120%float.
Proof. repeat split; vm_compute; reflexivity. Qed.

Example jitter_spreads_around_the_base :
  apply_jitter 20 0.2 0 = 16%float
  ∧ apply_jitter 20 0.2 0.5 = 20%float
  ∧ apply_jitter 20 0 0.9 = 20%float
  ∧ apply_jitter 0.5 0.2 0.5 = 1%float.
Proof. repeat split; vm_compute; reflexivity. Qed.

(** ** Staking *)

(** On [float], [x < y] entails [x <= y]. *)
Lemma float_ltb_leb (x y : float) : (x <? y)%float = true → (x <=? y)%float = true.
Proof.
  rewrite FloatAxioms.ltb_spec, FloatAxioms.leb_spec. unfold SFltb, SFleb.
  destruct (SFcompare (Prim2SF x) (Prim2SF y)) as [[]|]; done.
Qed.

Lemma kelly_fraction_invalid_price (edge_prob price : float) :
  (price <=? 0)%float = true ∨ (1 <=? price)%float = true →
  kelly_fraction edge_prob price = 0%float.
Proof.
  intros Hp. unfold kelly_fraction.
  destruct Hp as [-> | ->]; [done|]. by rewrite orb_true_r.
Qed.

(** C8 (as amended).  [kelly_fraction] returns exactly 0 when [price <= 0] or
    [price >= 1], so for the prices 0 and 1 and for every price above 1;
    otherwise, with [b = 1/price - 1], [q = 1 - edge_prob] and
    [numerator = b*edge_prob - q], it returns 0 when [numerator <= 0] or
    [b <= 0], and [numerator / b] otherwise.  In binary64 arithmetic
    [kelly_fraction(0.57, 0.50)] is [0.1399999999999999]
    (0x1.1eb851eb851e8p-3): it is within 1e-15 of 0.14 and rounds to 0.14 at
    two decimals, but it is not the float 0.14. *)
Theorem kelly_fraction_cases (edge_prob price : float) :
  ((price <=? 0)%float = true ∨ (1 <=? price)%float = true →
     kelly_fraction edge_prob price = 0%float)
  ∧ ((1 <? price)%float = true → kelly_fraction edge_prob price = 0%float)
  ∧ kelly_fraction edge_prob 0 = 0%float
  ∧ kelly_fraction edge_prob 1 = 0%float
  ∧ ((price <=? 0)%float = false → (1 <=? price)%float = false →
       let b := (1 / price - 1)%float in
       let q := (1 - edge_prob)%float in
       let numerator := (b * edge_prob - q)%float in
       kelly_fraction edge_prob price =
       if ((numerator <=? 0) || (b <=? 0))%float then 0%float
       else (numerator / b)%float)
  ∧ kelly_fraction 0.57 0.50 = 0x1.1eb851eb851e8p-3%float
  ∧ (abs (kelly_fraction 0.57 0.50 - 0.14) <? 1e-15)%float = true
  ∧ PyNum.round2 (kelly_fraction 0.57 0.50) = 0.14%float.
Proof.
  split; [apply kelly_fraction_invalid_price|].
  split.
  { intros Hgt. apply kelly_fraction_invalid_price. right. by apply float_ltb_leb. }
  split; [reflexivity|]. split; [reflexivity|].
  split.
  { intros Hlo Hhi. unfold kelly_fraction. rewrite Hlo, Hhi. reflexivity. }
  repeat split; vm_compute; reflexivity.
Qed.

(** C8, the claim as stated fails: [kelly_fraction(0.57, 0.50)] does not
    compare equal to 0.14. *)
Lemma kelly_fraction_grade_A_at_half_differs_from_0_14 :
  (kelly_fraction 0.57 0.50 =? 0.14)%float = false
  ∧ (kelly_fraction 0.57 0.50 <? 0.14)%float = true.
Proof. split; vm_compute; reflexivity. Qed.

(** C8 at concrete prices. *)
Lemma kelly_fraction_cases_witness :
  kelly_fraction 0.57 1.5 = 0%float
  ∧ kelly_fraction 0.57 (-0.2) = 0%float
  ∧ kelly_fraction 0.57 0.25 = ((3 * 0.57 - (1 - 0.57)) / 3)%float.
Proof.
  destruct (kelly_fraction_cases 0.57 1.5) as (_ & Habove & _).
  destruct (kelly_fraction_cases 0.57 (-0.2)) as (Hinvalid & _).
  destruct (kelly_fraction_cases 0.57 0.25) as (_ & _ & _ & _ & Hvalid & _).
  split; [apply Habove; reflexivity|].
  split; [apply Hinvalid; left; reflexivity|].
  rewrite Hvalid by reflexivity. vm_compute; reflexivity.
Defined.

(** With a fixed stake configured the Kelly stake plays no part. *)
Lemma final_stake_fixed (config : BotConfig) (raw raw' : float) :
  (0 <? Config.fixed_stake config)%float = true →
  final_stake config raw = final_stake config raw'.
Proof. intros Hf. unfold final_stake. by rewrite Hf. Qed.

(** The ceiling is the only clamp: the stake that leaves the pipeline is the
    chosen stake or [max_stake]. *)
Lemma final_stake_clamp (config : BotConfig) (raw stake : float) :
  final_stake config raw = Some stake →
  let chosen :=
    if (0 <? Config.fixed_stake config)%float then Config.fixed_stake config
    else raw in
  (stake = chosen ∨ stake = Config.max_stake config)
  ∧ (Config.max_stake config <? stake)%float = false
  ∧ (stake <? Config.min_stake config)%float = false.
Proof.
  unfold final_stake, PyNum.py_min. intros Hs. simpl.
  destruct (0 <? Config.fixed_stake config)%float;
    destruct (Config.max_stake config <? _)%float eqn:Hmax;
    destruct (_ <? Config.min_stake config)%float eqn:Hmin;
    simplify_eq; (split; [auto|split; [|done]]); try done.
  all: rewrite FloatAxioms.ltb_spec; unfold SFltb;
    destruct (Prim2SF (Config.max_stake config)) as [| | |[] ? ?] eqn:E;
    simpl; try done.
  all: try (destruct s; done).
  all: try rewrite Z.compare_refl, Pos.compare_cont_refl; done.
Qed.

(** C7.  For a candidate with a price, [place_bet] sizes the stake in this
    order: (1) a price at or above [low_roi_threshold] is rejected, whatever
    the grade and the bankroll are; (2) otherwise the raw stake is
    [bankroll * kelly_fraction(prob, price) * config.kelly_fraction], where
    the bankroll is the number under [state["bankroll"]], and
    [config.paper_bankroll] when the state has no such key; (3) a
    fixed stake above 0 replaces it; (4) the result is capped at [max_stake];
    (5) a result below [min_stake] is rejected.  The stake that passes is the
    one the paper bet is placed with and the live order is sent with.
    Bankroll 1000, Kelly fraction 0.14, configured fraction 0.25, ceiling 50
    and floor 1 give 35.0; a fixed stake of 10 under a ceiling of 5 and a
    floor of at most 5 gives 5. *)
Theorem place_bet_sizing_order
    (candidate : Candidate) (config : BotConfig) (state : gmap string pyval)
    (env : PlaceEnv) (e : Entry) (g : GradeInfo) (price : float) :
  entry candidate = Some e →
  grade candidate = Some g →
  sharpSidePrice e = Some price →
  let r := place_bet candidate config state env in
  ((Config.low_roi_threshold config <=? price)%float = true →
     r = Build_BetResult (Rejected LowROI) [] state)
  ∧ ((Config.low_roi_threshold config <=? price)%float = false →
     ∀ bankroll,
       match state !! "bankroll" with
       | Some stored => PyNum.number stored
       | None => Some (Config.paper_bankroll config)
       end = Some bankroll →
       let raw :=
         (bankroll * kelly_fraction (grade_prob (default "D"%string (grade_label g))) price
          * Config.kelly_fraction config)%float in
       let chosen :=
         if (0 <? Config.fixed_stake config)%float then Config.fixed_stake config
         else raw in
       let capped :=
         if (Config.max_stake config <? chosen)%float then Config.max_stake config
         else chosen in
       if (capped <? Config.min_stake config)%float
       then r = Build_BetResult (Rejected TinyStake) [] state
       else if Config.dry_run config
            then bet_outcome r = PaperPlaced capped
            else head (bet_events r) = Some (EvLiveOrder (conditionId e) capped))
  ∧ (∀ cfg, Config.fixed_stake cfg = 0%float → Config.max_stake cfg = 50%float →
       Config.min_stake cfg = 1%float →
       raw_stake 1000 0.14 0.25 = 35%float
       ∧ final_stake cfg (raw_stake 1000 0.14 0.25) = Some 35%float)
  ∧ (∀ cfg raw, Config.fixed_stake cfg = 10%float → Config.max_stake cfg = 5%float →
       (5 <? Config.min_stake cfg)%float = false →
       final_stake cfg raw = Some 5%float).
Proof.
  intros He Hg Hprice r. subst r. unfold place_bet. rewrite He, Hg, Hprice.
  split; [by intros ->|]. split; [|split].
  - intros -> bankroll Hb.
    assert (Hof : bankroll_of config state = Some bankroll).
    { unfold bankroll_of. by destruct (state !! "bankroll"). }
    rewrite Hof. unfold final_stake, raw_stake, PyNum.py_min.
    simpl. destruct (_ <? Config.min_stake config)%float; [done|].
    destruct (Config.dry_run config); [done|].
    destruct (pe_live env) as [tok resp|err]; [done|].
    destruct (extract_cloudflare_ray_id err) as [[|c ray]|]; try done.
    destruct (Config.stop_on_403 config); done.
  - intros cfg Hf Hmax Hmin. split; [vm_compute; reflexivity|].
    unfold final_stake, PyNum.py_min. rewrite Hf, Hmax, Hmin. vm_compute. reflexivity.
  - intros cfg raw Hf Hmax Hmin. unfold final_stake, PyNum.py_min.
    rewrite Hf, Hmax. simpl.
    replace (0 <? 10)%float with true by reflexivity.
    replace (5 <? 10)%float with true by reflexivity.
    by rewrite Hmin.
Qed.

(** C7 at concrete candidates, with the default configuration, whose paper
    bankroll is 1000: with 400 in the state, a grade A candidate at price
    0.50 is bet on paper with [400 * kelly_fraction(0.57, 0.50) * 0.25]; with
    2000 in the state the raw stake exceeds the ceiling and the bet is placed
    with 50; a state without a bankroll is sized from the paper bankroll; and
    a candidate at price 0.80 is rejected for low ROI. *)
Lemma place_bet_sizing_order_witness :
  bet_outcome
    (place_bet (example_candidate "0xabc" 0.50 "A") default_config
       {["bankroll" := VFloat 400]} (example_place_env (LiveRaised "unused")))
  = PaperPlaced (400 * kelly_fraction 0.57 0.50 * 0.25)%float
  ∧ bet_outcome
      (place_bet (example_candidate "0xabc" 0.50 "A") default_config
         {["bankroll" := VInt 2000]} (example_place_env (LiveRaised "unused")))
    = PaperPlaced 50
  ∧ bet_outcome
      (place_bet (example_candidate "0xabc" 0.50 "A") default_config
         ∅ (example_place_env (LiveRaised "unused")))
    = PaperPlaced (1000 * kelly_fraction 0.57 0.50 * 0.25)%float
  ∧ place_bet (example_candidate "0xabc" 0.80 "A") default_config
      {["bankroll" := VFloat 400]} (example_place_env (LiveRaised "unused"))
    = Build_BetResult (Rejected LowROI) [] {["bankroll" := VFloat 400]}.
Proof.
  split; [|split; [|split]].
  - destruct (place_bet_sizing_order (example_candidate "0xabc" 0.50 "A")
                default_config {["bankroll" := VFloat 400]}
                (example_place_env (LiveRaised "unused")) _ _ 0.50%float
                eq_refl eq_refl eq_refl) as (_ & Hsize & _).
    specialize (Hsize eq_refl 400%float ltac:(vm_compute; reflexivity)).
    exact Hsize.
  - destruct (place_bet_sizing_order (example_candidate "0xabc" 0.50 "A")
                default_config {["bankroll" := VInt 2000]}
                (example_place_env (LiveRaised "unused")) _ _ 0.50%float
                eq_refl eq_refl eq_refl) as (_ & Hsize & _).
    specialize (Hsize eq_refl 2000%float ltac:(vm_compute; reflexivity)).
    exact Hsize.
  - destruct (place_bet_sizing_order (example_candidate "0xabc" 0.50 "A")
                default_config ∅
                (example_place_env (LiveRaised "unused")) _ _ 0.50%float
                eq_refl eq_refl eq_refl) as (_ & Hsize & _).
    specialize (Hsize eq_refl 1000%float ltac:(vm_compute; reflexivity)).
    exact Hsize.
  - destruct (place_bet_sizing_order (example_candidate "0xabc" 0.80 "A")
                default_config {["bankroll" := VFloat 400]}
                (example_place_env (LiveRaised "unused")) _ _ 0.80%float
                eq_refl eq_refl eq_refl) as (Hlow & _).
    apply Hlow. reflexivity.
Defined.

(** ** Order dispatcher *)

Lemma strip_prefix_all_chars (p : ascii → bool) (pre s s' : string) :
  PyStr.all_chars p s = true → Re.strip_prefix pre s = Some s' →
  PyStr.all_chars p s' = true.
Proof.
  revert s. induction pre as [|a pre IH]; intros s Hs Hpre.
  - destruct s; simpl in Hpre; by simplify_eq.
  - destruct s as [|b s]; simpl in Hpre; [done|].
    destruct (Ascii.eqb a b); [|done].
    simpl in Hs. apply andb_prop in Hs as [_ Hs]. by apply (IH s).
Qed.

(** Both patterns of the source ask for a backslash after the marker. *)
Lemma match_here_needs_backslash (rest : list Re.item) (s : string) g :
  no_backslash s = true →
  Re.match_here (Re.Lit "Cloudflare Ray ID:" :: Re.Lit backslash :: rest) s g = None.
Proof.
  intros Hs. cbn [Re.match_here].
  destruct (Re.strip_prefix "Cloudflare Ray ID:" s) as [s'|] eqn:Hpre; [|done].
  pose proof (strip_prefix_all_chars _ _ _ _ Hs Hpre) as Hs'.
  destruct s' as [|c s']; [done|].
  unfold backslash. cbn [Re.strip_prefix].
  simpl in Hs'. apply andb_prop in Hs' as [Hc _].
  rewrite Ascii.eqb_sym. by destruct (Ascii.eqb c (ascii_of_nat 92)).
Qed.

Lemma search_needs_backslash (rest : list Re.item) (s : string) :
  no_backslash s = true →
  Re.search (Re.Lit "Cloudflare Ray ID:" :: Re.Lit backslash :: rest) s = None.
Proof.
  induction s as [|c s IH]; intros Hs.
  - reflexivity.
  - cbn [Re.search]. rewrite match_here_needs_backslash by done.
    apply IH. simpl in Hs. by apply andb_prop in Hs as [_ Hs].
Qed.

(** C5, the code at the failing inputs.  [extract_cloudflare_ray_id] returns
    [None] for every error text without a backslash, so for the block page
    that carries the marker, whitespace and a [<strong>] token, and for the
    marker followed by a bare token; the patterns with [\s*] that the claim
    describes find the token in both. *)
Theorem extract_cloudflare_ray_id_requires_backslash :
  (∀ error_text, no_backslash error_text = true →
     extract_cloudflare_ray_id error_text = None)
  ∧ extract_cloudflare_ray_id
      "403 Forbidden Cloudflare Ray ID: <strong class=x>8a1b2c3d4e5f6a7b</strong>"
    = None
  ∧ spec_extract_ray_id
      "403 Forbidden Cloudflare Ray ID: <strong class=x>8a1b2c3d4e5f6a7b</strong>"
    = Some "8a1b2c3d4e5f6a7b"%string
  ∧ extract_cloudflare_ray_id "Cloudflare Ray ID: 8a1b2c3d4e5f6a7b" = None
  ∧ spec_extract_ray_id "Cloudflare Ray ID: 8a1b2c3d4e5f6a7b"
    = Some "8a1b2c3d4e5f6a7b"%string
  ∧ extract_cloudflare_ray_id
      ("Cloudflare Ray ID:" ++ backslash ++ "ss8a1b2c")%string
    = Some "8a1b2c"%string.
Proof.
  split.
  - intros error_text Hs. unfold extract_cloudflare_ray_id.
    unfold ray_pattern_strong, ray_pattern_bare.
    by rewrite !search_needs_backslash.
  - repeat split; vm_compute; reflexivity.
Qed.




(** ** Poll loop *)


(** The call of [log_event] that opens the handling of a candidate raises:
    the dict of [candidate_context] has the key [event], the name of the
    first parameter of [log_event]. *)
Lemma log_event_candidate :
  log_event "candidate" ("idx"%string :: candidate_context_keys) = None.
Proof. vm_compute. reflexivity. Qed.

(** The calls of [log_event] before and after the loop over the candidates
    return. *)
Lemma log_candidate_debug_returns (candidates : list Candidate) :
  log_candidate_debug candidates = Some tt.
Proof. destruct candidates; [vm_compute; reflexivity|done]. Qed.

Lemma log_poll_summary_returns : log_poll_summary = Some tt.
Proof. vm_compute. reflexivity. Qed.

(** So the loop over the candidates ends at once: with nothing done when the
    feed is empty, and with the exception of [log_event] at the first
    candidate otherwise. *)
Lemma candidate_pass_cases (config : BotConfig) (env : nat → CandEnv) (idx : nat)
    (candidates : list Candidate) (ps : PassState) :
  candidate_pass config env idx candidates ps
  = match candidates with
    | [] => (ps, [], PassDone)
    | _ :: _ => (ps, [], PassRaised)
    end.
Proof.
  destruct candidates as [|candidate rest]; [done|].
  cbn [candidate_pass]. by rewrite log_event_candidate.
Qed.

(** A property of the loop state that every iteration keeps holds after any
    number of iterations; a property of the effects of every iteration holds
    of the effects of all of them; so does a property of the way every
    iteration ends that holds of going on. *)
Lemma run_cycles_preserves `{DateTimeLib} (config : BotConfig)
    (window : option (Z * Z) * option (Z * Z))
    (I : LoopState → Prop) (Q : event → Prop) (E : cycle_end → Prop) :
  E CycleNext →
  (∀ env ls, I ls →
     I (run_cycle config window env ls).1.1
     ∧ Forall Q (run_cycle config window env ls).1.2
     ∧ E (run_cycle config window env ls).2) →
  ∀ envs ls, I ls →
    I (run_cycles config window envs ls).1.1
    ∧ Forall Q (run_cycles config window envs ls).1.2
    ∧ E (run_cycles config window envs ls).2.
Proof.
  intros Hnext Hstep. induction envs as [|env rest IH]; intros ls Hls; [by split|].
  simpl. destruct (Hstep env ls Hls) as (Hi & Hq & He).
  destruct (run_cycle config window env ls) as [[ls' evs] []]; simpl in *.
  - destruct (IH ls' Hi) as (Hi' & Hq' & He').
    destruct (run_cycles config window rest ls') as [[ls'' evs'] e']; simpl in *.
    split; [done|]. split; [|done]. by apply Forall_app.
  - done.
Qed.

(** One iteration of [while True], branch by branch. *)
Lemma run_cycle_eq `{DateTimeLib} (config : BotConfig)
    (window : option (Z * Z) * option (Z * Z)) (env : CycleEnv) (ls : LoopState) :
  run_cycle config window env ls
  = if outside_window window (env_local_time env)
    then (ls, [poll_sleep config env], CycleNext)
    else
      match PyNum.int_of_float (env_now env) with
      | None =>
          (Build_LoopState (state ls) (placed_meta ls) (call_timestamps ls)
             (next_backoff config (backoff ls)),
           [poll_sleep config env], CycleNext)
      | Some now_ts =>
          let meta :=
            prune_placed_meta (placed_meta ls) now_ts
              (Config.placed_ttl_seconds config)
              (Config.placed_event_grace_seconds config) in
          let calls := evict (env_now env) (call_timestamps ls) in
          if rate_capped config calls
          then (Build_LoopState (state ls) meta calls (backoff ls),
                [poll_sleep config env], CycleNext)
          else
            let bk := if (0 <? backoff ls)%float then 0%float else backoff ls in
            let sleep :=
              if (0 <? backoff ls)%float
              then [EvSleep (apply_jitter (backoff ls)
                               (Config.poll_jitter_ratio config)
                               (env_rand_backoff env))]
              else [] in
            match env_fetch env with
            | Some [] =>
                let document :=
                  saved_document (Build_PassState (state ls) meta (dom meta) 0) in
                (Build_LoopState document meta (calls ++ [env_call_time env])
                   (if env_save_ok env then bk else next_backoff config bk),
                 sleep ++ [EvFetch; EvSaveState document; poll_sleep config env],
                 CycleNext)
            | _ =>
                (Build_LoopState (state ls) meta (calls ++ [env_call_time env])
                   (next_backoff config bk),
                 sleep ++ [EvFetch; poll_sleep config env], CycleNext)
            end
      end.
Proof.
  unfold run_cycle, failed_cycle.
  destruct (outside_window window (env_local_time env)); [done|].
  destruct (PyNum.int_of_float (env_now env)) as [now_ts|]; [|done].
  cbv zeta.
  destruct (rate_capped config _); [done|].
  destruct (0 <? backoff ls)%float;
    (destruct (env_fetch env) as [[|candidate rest]|]; [| |done]);
    rewrite log_candidate_debug_returns, candidate_pass_cases;
    rewrite ?log_poll_summary_returns; cbn [ps_state ps_placed_meta app];
    try done; by destruct (env_save_ok env).
Qed.

(** The case analysis that follows the branches of [run_cycle]. *)
Ltac cycle_cases config window env ls nts :=
  rewrite ?(run_cycle_eq config window env ls); cbv zeta;
  destruct (outside_window window (env_local_time env)) eqn:Houtside;
  [|destruct (PyNum.int_of_float (env_now env)) as [nts|] eqn:Hnow;
    [destruct (rate_capped config (evict (env_now env) (call_timestamps ls))) eqn:Hcap;
     [|destruct (0 <? backoff ls)%float eqn:Hbackoff;
       (destruct (env_fetch env) as [[|candidate rest]|] eqn:Hfetch;
        [destruct (env_save_ok env) eqn:Hsave| |])]|]];
  cbn [fst snd state placed_meta call_timestamps backoff app].

Section LoopFacts.
Context `{DateTimeLib}.
Variable config : BotConfig.
Variable window : option (Z * Z) * option (Z * Z).

(** The pruned ledger an iteration works on. *)
Local Abbreviation pruned ls now_ts :=
  (prune_placed_meta (placed_meta ls) now_ts
     (Config.placed_ttl_seconds config)
     (Config.placed_event_grace_seconds config)).

(** The state the loop over the candidates starts from. *)
Local Abbreviation pass_start ls now_ts :=
  (Build_PassState (state ls) (pruned ls now_ts) (dom (pruned ls now_ts)) 0).

(** An iteration sleeps, fetches and saves, and does nothing else. *)
Lemma run_cycle_effects (env : CycleEnv) (ls : LoopState) :
  Forall (λ ev, is_dispatch_effect ev = false) (run_cycle config window env ls).1.2.
Proof. cycle_cases config window env ls now_ts; by repeat constructor. Qed.

(** The ledger an iteration leaves in memory is the one it started from, or
    that ledger pruned. *)
Lemma run_cycle_ledger (env : CycleEnv) (ls : LoopState) :
  placed_meta (run_cycle config window env ls).1.1 = placed_meta ls
  ∨ ∃ now_ts, PyNum.int_of_float (env_now env) = Some now_ts
              ∧ placed_meta (run_cycle config window env ls).1.1 = pruned ls now_ts.
Proof. cycle_cases config window env ls now_ts; eauto. Qed.

(** The bankroll an iteration leaves in memory is the one it started from. *)
Lemma run_cycle_bankroll (env : CycleEnv) (ls : LoopState) :
  state (run_cycle config window env ls).1.1 !! "bankroll" = state ls !! "bankroll".
Proof.
  cycle_cases config window env ls now_ts; try done.
  all: unfold saved_document; by rewrite !lookup_insert_ne.
Qed.


Lemma elem_of_save_false (evs : list event) (document : gmap string pyval) :
  Forall (λ ev, is_save_state ev = false) evs → ¬ (EvSaveState document ∈ evs).
Proof. rewrite Forall_forall. intros Hall Hel. by specialize (Hall _ Hel). Qed.

(** An iteration that calls [save_state] had an empty feed, and hands over
    the state with the pruned ledger. *)
Lemma run_cycle_saved (env : CycleEnv) (ls : LoopState) document :
  EvSaveState document ∈ (run_cycle config window env ls).1.2 →
  ∃ now_ts,
    PyNum.int_of_float (env_now env) = Some now_ts
    ∧ env_fetch env = Some []
    ∧ document = saved_document (pass_start ls now_ts)
    ∧ state (run_cycle config window env ls).1.1 = document
    ∧ placed_meta (run_cycle config window env ls).1.1 = pruned ls now_ts
    ∧ (run_cycle config window env ls).2 = CycleNext
    ∧ (run_cycle config window env ls).1.2
      = (if (0 <? backoff ls)%float
       then [EvSleep (apply_jitter (backoff ls) (Config.poll_jitter_ratio config)
                        (env_rand_backoff env))]
       else []) ++ [EvFetch; EvSaveState document; poll_sleep config env].
Proof.
  cycle_cases config window env ls now_ts; intros Hel.
  all: try (exfalso; revert Hel; apply elem_of_save_false; by repeat constructor).
  all: exists now_ts.
  all: repeat match type of Hel with
       | _ ∈ _ :: _ => apply elem_of_cons in Hel as [Hel|Hel]; [try done|]
       | _ ∈ [] => by apply elem_of_nil in Hel
       end.
  all: by simplify_eq.
Qed.


Lemma elem_of_evict (now t : float) (calls : list float) :
  t ∈ evict now calls ↔ t ∈ calls ∧ (now - t <? 3600)%float = true.
Proof. unfold evict. by rewrite !list_elem_of_In, filter_In. Qed.

Lemma rate_capped_spec (calls : list float) :
  rate_capped config calls = true ↔
  0 < Config.max_calls_per_hour config ≤ Z.of_nat (length calls).
Proof. unfold rate_capped. rewrite andb_true_iff, Z.ltb_lt, Z.leb_le. done. Qed.

(** C9 (as amended).  In an iteration that passes the run-window gate, the
    rolling window keeps exactly the timestamps [t] with [now - t < 3600];
    the call is refused exactly when the cap is positive and the remaining
    count has reached it.  A refused iteration sleeps one jittered poll
    interval and does nothing else: no fetch, no call of [place_bet], no
    save, the state document and the backoff untouched, the ledger pruned and
    the window evicted.  An admitted iteration fetches, and appends to the
    window the reading of the clock taken at the call (after the backoff
    sleep, when one is due), not [now].  With a cap of 2, two calls inside
    the last 3600 seconds refuse a third, and once the older one has aged to
    3600 seconds a third is admitted. *)
Theorem rate_admission (env : CycleEnv) (ls : LoopState) (now_ts : Z) :
  outside_window window (env_local_time env) = false →
  PyNum.int_of_float (env_now env) = Some now_ts →
  (∀ t, t ∈ evict (env_now env) (call_timestamps ls) ↔
        t ∈ call_timestamps ls ∧ (env_now env - t <? 3600)%float = true)
  ∧ (rate_capped config (evict (env_now env) (call_timestamps ls)) = true ↔
     0 < Config.max_calls_per_hour config
       ≤ Z.of_nat (length (evict (env_now env) (call_timestamps ls))))
  ∧ (rate_capped config (evict (env_now env) (call_timestamps ls)) = true →
     run_cycle config window env ls
     = (Build_LoopState (state ls) (pruned ls now_ts)
          (evict (env_now env) (call_timestamps ls)) (backoff ls),
        [poll_sleep config env], CycleNext))
  ∧ (rate_capped config (evict (env_now env) (call_timestamps ls)) = false →
     EvFetch ∈ (run_cycle config window env ls).1.2
     ∧ call_timestamps (run_cycle config window env ls).1.1
       = evict (env_now env) (call_timestamps ls) ++ [env_call_time env])
  ∧ (Config.max_calls_per_hour config = 2 →
     ∀ now t1 t2 : float,
       ((now - t1 <? 3600)%float = true → (now - t2 <? 3600)%float = true →
        rate_capped config (evict now [t1; t2]) = true)
       ∧ ((now - t1 <? 3600)%float = false →
          rate_capped config (evict now [t1; t2]) = false)).
Proof.
  intros Hout Hnow. split; [intros t; apply elem_of_evict|].
  split; [apply rate_capped_spec|]. split; [|split].
  - intros Hcap. rewrite run_cycle_eq, Hout, Hnow. cbv zeta. by rewrite Hcap.
  - intros Hcap. rewrite run_cycle_eq, Hout, Hnow. cbv zeta. rewrite Hcap.
    destruct (0 <? backoff ls)%float;
      destruct (env_fetch env) as [[|candidate rest]|];
      cbn [fst snd call_timestamps app]; (split; [|done]).
    all: repeat first [apply list_elem_of_here | apply list_elem_of_further].
  - intros Hcap now t1 t2. unfold rate_capped, evict. rewrite Hcap. split.
    + intros H1 H2. simpl. by rewrite H1, H2.
    + intros H1. simpl. rewrite H1. by destruct (now - t2 <? 3600)%float.
Qed.

End LoopFacts.

(** C9, the examples of the claim: with a cap of 2, two calls inside the last
    3600 seconds refuse a third, and once the older one is 3600 seconds old a
    third is admitted. *)
Example rate_cap_of_two :
  rate_capped (capped_config 2) (evict 1700003000 [1700000000; 1700001000]%float) = true
  ∧ evict 1700003600 [1700000000; 1700001000]%float = [1700001000%float]
  ∧ rate_capped (capped_config 2) (evict 1700003600 [1700000000; 1700001000]%float) = false
  ∧ rate_capped (capped_config 0) (evict 1700003000 [1700000000; 1700001000]%float) = false
  ∧ rate_capped (capped_config (-1)) (evict 1700003000 [1700000000; 1700001000]%float) = false.
Proof. repeat split; vm_compute; reflexivity. Qed.

(** ** Outcomes of a dispatch *)




(** ** Durable state *)

Lemma string_app_nil_r (s : string) : (s ++ EmptyString)%string = s.
Proof.
  induction s as [|c s IH]; [done|].
  change (String c (s ++ EmptyString)%string = String c s). by rewrite IH.
Qed.

Lemma string_app_assoc (a b c : string) : ((a ++ b) ++ c)%string = (a ++ (b ++ c))%string.
Proof.
  induction a as [|x a IH]; [done|].
  change (String x ((a ++ b) ++ c)%string = String x (a ++ (b ++ c))%string).
  by rewrite IH.
Qed.

(** An interrupted run of the writes and the close leaves a prefix (by
    pieces) of the new text behind what the file held. *)
Lemma run_writes_prefix (path : string) (pieces : list string)
    (fs : gmap string string) (base : string) (j : nat) :
  fs !! path = Some base →
  ∃ n, FS.run fs (take j ((FS.Write path <$> pieces) ++ [FS.Close path])) !! path
       = Some (base ++ FS.concat (take n pieces))%string.
Proof.
  revert fs base j.
  induction pieces as [|c cs IH]; intros fs base j Hbase.
  - exists 0%nat. simpl. rewrite string_app_nil_r.
    destruct j as [|j]; simpl; [done|]. by rewrite take_nil.
  - destruct j as [|j].
    + exists 0%nat. simpl. by rewrite string_app_nil_r.
    + destruct (IH (<[path := (base ++ c)%string]> fs) (base ++ c)%string j) as [n Hn].
      { by rewrite lookup_insert_eq. }
      exists (S n). simpl. rewrite Hbase. etrans; [exact Hn|].
      simpl. by rewrite string_app_assoc.
Qed.

(** A complete run of the writes and the close appends the whole text. *)
Lemma run_writes_all (path : string) (pieces : list string)
    (fs : gmap string string) (base : string) :
  fs !! path = Some base →
  FS.run fs ((FS.Write path <$> pieces) ++ [FS.Close path]) !! path
  = Some (base ++ FS.concat pieces)%string.
Proof.
  revert fs base.
  induction pieces as [|c cs IH]; intros fs base Hbase.
  - simpl. by rewrite string_app_nil_r.
  - simpl. rewrite Hbase.
    etrans; [apply (IH _ (base ++ c)%string); by rewrite lookup_insert_eq|].
    simpl. by rewrite string_app_assoc.
Qed.

(** Operations that leave a file alone leave it alone together, whether or
    not one of them raises. *)
Lemma run_leaves (path : string) (fs : gmap string string) (ops : list FS.op) :
  Forall (FS.leaves path) ops → FS.run fs ops !! path = fs !! path.
Proof.
  revert fs. induction ops as [|o ops IH]; intros fs Hall; [done|].
  apply Forall_cons in Hall as [Ho Hall]. simpl.
  destruct (FS.raises o); [done|]. rewrite IH by done.
  destruct o; simpl in *; try done; by rewrite lookup_insert_ne.
Qed.

(** A run that starts with [os.makedirs] of the empty path changes nothing. *)
Lemma run_makedirs_empty (fs : gmap string string) (ops : list FS.op) (k : nat) :
  FS.run fs (take k (FS.Makedirs EmptyString :: ops)) = fs.
Proof. by destruct k. Qed.

(** With no operation that raises, a run performs all its operations. *)
Lemma run_app (fs : gmap string string) (ops ops' : list FS.op) :
  Forall (λ o, FS.raises o = false) ops →
  FS.run fs (ops ++ ops') = FS.run (FS.run fs ops) ops'.
Proof.
  revert fs. induction ops as [|o ops IH]; intros fs Hall; [done|].
  apply Forall_cons in Hall as [Ho Hall]. simpl. rewrite Ho. by apply IH.
Qed.

Lemma apply_replace (fs : gmap string string) (src dst text : string) :
  fs !! src = Some text → FS.apply fs (FS.Replace src dst) !! dst = Some text.
Proof. intros Hsrc. simpl. rewrite Hsrc. by rewrite lookup_insert_eq. Qed.

Section SaveState.
Variables (path : string) (chunks : list string).

(** C6 (as amended).  [save_state] writes the document in place: every
    operation of it works on the persisted path itself, none renames a file.
    When the path has no directory part, [os.makedirs] raises and nothing is
    opened or written.  Otherwise, once the file is opened the old document
    is gone; an interruption after that leaves a prefix of the new document
    (the empty file right after the open), and only a run that completes
    leaves the new document.  The write-then-replace pattern, by contrast,
    leaves the old or the new document at every interruption. *)
Theorem save_state_writes_in_place (fs : gmap string string) :
  Forall (FS.in_place path) (save_state path chunks)
  ∧ (dirname path = EmptyString →
       FS.run fs (save_state path chunks) = fs
       ∧ ∀ k, FS.interrupted fs (save_state path chunks) k = fs)
  ∧ (dirname path ≠ EmptyString →
       (∀ k, (k < 2)%nat →
          FS.interrupted fs (save_state path chunks) k !! path = fs !! path)
       ∧ FS.interrupted fs (save_state path chunks) 2 !! path = Some EmptyString
       ∧ (∀ k, (2 ≤ k)%nat →
            ∃ n, FS.interrupted fs (save_state path chunks) k !! path
                 = Some (FS.concat (take n chunks)))
       ∧ FS.run fs (save_state path chunks) !! path = Some (FS.concat chunks))
  ∧ (∀ tmp k, tmp ≠ path →
       FS.interrupted fs (spec_atomic_save path tmp chunks) k !! path = fs !! path
       ∨ FS.interrupted fs (spec_atomic_save path tmp chunks) k !! path
         = Some (FS.concat chunks)).
Proof.
  split_and!.
  - unfold save_state. apply Forall_app. split; [by repeat constructor|].
    apply Forall_app. split; [|by repeat constructor].
    apply Forall_fmap, Forall_true. done.
  - intros Hdir. unfold FS.interrupted, save_state. rewrite Hdir. split.
    + done.
    + intros k. apply run_makedirs_empty.
  - intros Hdir.
    assert (Hmk : bool_decide (dirname path = EmptyString) = false)
      by by apply bool_decide_eq_false.
    split_and!.
    + intros k Hk. unfold FS.interrupted, save_state.
      destruct k as [|[|k]]; [done| |lia]. simpl. by rewrite Hmk.
    + unfold FS.interrupted, save_state. simpl. rewrite Hmk. simpl.
      by rewrite lookup_insert_eq.
    + intros k Hk. unfold FS.interrupted, save_state.
      destruct k as [|[|k]]; [lia|lia|].
      destruct (run_writes_prefix path chunks (<[path := EmptyString]> fs) EmptyString k)
        as [n Hn]; [by rewrite lookup_insert_eq|].
      exists n. simpl. rewrite Hmk. exact Hn.
    + unfold save_state. simpl. rewrite Hmk.
      exact (run_writes_all path chunks (<[path := EmptyString]> fs) EmptyString
               (lookup_insert_eq _ _ _)).
  - intros tmp k Hne. unfold FS.interrupted, spec_atomic_save.
    destruct (decide (dirname path = EmptyString)) as [Hdir|Hdir].
    { left. rewrite Hdir. cbn [app]. by rewrite run_makedirs_empty. }
    assert (Hmk : bool_decide (dirname path = EmptyString) = false)
      by by apply bool_decide_eq_false.
    set (body := [FS.Makedirs (dirname path); FS.OpenWrite tmp]
                 ++ (FS.Write tmp <$> chunks) ++ [FS.Close tmp]).
    replace ([FS.Makedirs (dirname path); FS.OpenWrite tmp] ++ (FS.Write tmp <$> chunks)
             ++ [FS.Close tmp; FS.Replace tmp path])
      with (body ++ [FS.Replace tmp path]).
    2:{ unfold body. rewrite <- !app_assoc. done. }
    assert (Hbody : Forall (FS.leaves path) body).
    { unfold body. apply Forall_app. split; [by repeat constructor|].
      apply Forall_app. split; [|by repeat constructor].
      apply Forall_fmap, Forall_true. done. }
    assert (Hquiet : Forall (λ o, FS.raises o = false) body).
    { unfold body. apply Forall_app. split; [by repeat constructor|].
      apply Forall_app. split; [|by repeat constructor].
      apply Forall_fmap, Forall_true. done. }
    destruct (decide (k ≤ length body)%nat) as [Hk|Hk].
    + left. rewrite take_app_le by done. apply run_leaves. by apply Forall_take.
    + right. rewrite take_ge.
      2:{ rewrite length_app. change (length [FS.Replace tmp path]) with 1%nat. lia. }
      rewrite run_app by done.
      assert (Htmp : FS.run fs body !! tmp = Some (FS.concat chunks)).
      { unfold body. simpl. rewrite Hmk.
        exact (run_writes_all tmp chunks (<[tmp := EmptyString]> fs) EmptyString
                 (lookup_insert_eq _ _ _)). }
      change (FS.run (FS.run fs body) [FS.Replace tmp path])
        with (FS.apply (FS.run fs body) (FS.Replace tmp path)).
      by apply apply_replace.
Qed.

End SaveState.

(** ** The claims at concrete runs *)






(** C6, the claim as stated fails: an interruption right after [save_state]
    opened the file leaves it empty, and one after the first piece leaves a
    truncated document; the document persisted before is gone. *)
Lemma interrupted_save_state_loses_old_document :
  FS.interrupted {["bot/state.json" := "[1000.0]"]}
    (save_state "bot/state.json" ["["; "965.0"; "]"])
    2 !! "bot/state.json"
  = Some EmptyString
  ∧ FS.interrupted {["bot/state.json" := "[1000.0]"]}
      (save_state "bot/state.json" ["["; "965.0"; "]"])
      3 !! "bot/state.json"
    = Some "["%string.
Proof. split; vm_compute; reflexivity. Qed.

(** C6 at paths: [bot/state.json] has the directory part [bot]; a bare
    [state.json] has none, and [save_state] leaves the file as it was. *)
Example save_state_without_directory :
  dirname "bot/state.json" = "bot"%string
  ∧ dirname "state.json" = EmptyString
  ∧ dirname "/state.json" = "/"%string
  ∧ FS.run {["state.json" := "[1000.0]"]} (save_state "state.json" ["["; "965.0"; "]"])
    = {["state.json" := "[1000.0]"]}
  ∧ FS.run {["bot/state.json" := "[1000.0]"]}
      (save_state "bot/state.json" ["["; "965.0"; "]"]) !! "bot/state.json"
    = Some "[965.0]"%string.
Proof. repeat split; vm_compute; reflexivity. Qed.

(** C9, the claim as stated fails.  The timestamp appended on admission is
    the clock at the call, here 4.5 seconds after [now] because a backoff
    sleep came first.  And a refused iteration does change what the loop
    holds in memory: the ledger has been pruned before the cap is tested. *)
Lemma admitted_call_is_not_stamped_with_now :
  call_timestamps
    (run_cycle default_config (None, None)
       (example_env 1700000000 1700000004.5 (Some []) (LiveRaised "unused"))
       backing_off_loop).1.1
  = [1700000004.5%float]
  ∧ (1700000004.5 =? 1700000000)%float = false
  ∧ rate_capped (capped_config 2) (evict 1700000000 (call_timestamps stale_loop)) = true
  ∧ placed_meta stale_loop !! "0xold" = Some (make_row 1600000000 VNone)
  ∧ placed_meta
      (run_cycle (capped_config 2) (None, None)
         (example_env 1700000000 1700000000 (Some []) (LiveRaised "unused"))
         stale_loop).1.1 !! "0xold"
    = None.
Proof. repeat split; vm_compute; reflexivity. Qed.

(** C9, the amended claim at a refused iteration: two calls in the last ten
    seconds under a cap of 2; the iteration sleeps and does nothing else. *)
Lemma rate_admission_witness :
  (run_cycle (capped_config 2) (None, None)
     (example_env 1700000000 1700000000
        (Some [example_candidate "0xabc" 0.50 "A"]) (LiveRaised "unused"))
     stale_loop).1.2
  = [poll_sleep (capped_config 2)
       (example_env 1700000000 1700000000
          (Some [example_candidate "0xabc" 0.50 "A"]) (LiveRaised "unused"))]
  ∧ state
      (run_cycle (capped_config 2) (None, None)
         (example_env 1700000000 1700000000
            (Some [example_candidate "0xabc" 0.50 "A"]) (LiveRaised "unused"))
         stale_loop).1.1
    = state stale_loop.
Proof.
  destruct (rate_admission (capped_config 2) (None, None)
              (example_env 1700000000 1700000000
                 (Some [example_candidate "0xabc" 0.50 "A"]) (LiveRaised "unused"))
              stale_loop 1700000000 eq_refl eq_refl) as (_ & _ & Hrefused & _).
  rewrite Hrefused by (vm_compute; reflexivity). split; reflexivity.
Defined.

(** * Further properties of the code *)

(** ** Comparisons of floats *)

Lemma SFcompare_Lt_Gt (f1 f2 : spec_float) :
  SFcompare f1 f2 = Some Lt → SFcompare f2 f1 = Some Gt.
Proof.
  destruct f1 as [s1|s1| |s1 m1 e1], f2 as [s2|s2| |s2 m2 e2]; simpl;
    try destruct s1; try destruct s2; try done.
  all: rewrite (Z.compare_antisym e1 e2);
    destruct (e1 ?= e2) eqn:He; simpl; try done;
    change PosDef.Pos.compare_cont with Pos.compare_cont;
    pose proof (Pos.compare_cont_antisym m1 m2 Eq) as Ha; simpl in Ha;
    rewrite <- Ha; by destruct (Pos.compare_cont Eq m1 m2).
Qed.

Lemma float_ltb_asym (x y : float) : (x <? y)%float = true → (y <? x)%float = false.
Proof.
  rewrite !ltb_spec. unfold SFltb.
  destruct (SFcompare (Prim2SF x) (Prim2SF y)) as [[]|] eqn:Hc; try done.
  intros _. by rewrite (SFcompare_Lt_Gt _ _ Hc).
Qed.

Lemma float_ltb_irrefl (x : float) : (x <? x)%float = false.
Proof.
  destruct (x <? x)%float eqn:Hlt; [|done].
  pose proof (float_ltb_asym _ _ Hlt). congruence.
Qed.

(** [max(1.0, x)] is never below 1. *)
Lemma py_max_one (x : float) : (1 <=? PyNum.py_max 1 x)%float = true.
Proof.
  unfold PyNum.py_max. destruct (1 <? x)%float eqn:Hx.
  - by apply float_ltb_leb.
  - reflexivity.
Qed.

(** [min(a, b)] is never above [a]. *)
Lemma py_min_le_left (a b : float) : (a <? PyNum.py_min a b)%float = false.
Proof.
  unfold PyNum.py_min. destruct (b <? a)%float eqn:Hb.
  - by apply float_ltb_asym.
  - apply float_ltb_irrefl.
Qed.

(** A float above zero is a positive finite number or the positive infinity. *)
Lemma float_positive (x : float) :
  (0 <? x)%float = true →
  Prim2SF x = S754_infinity false ∨ ∃ m e, Prim2SF x = S754_finite false m e.
Proof.
  rewrite ltb_spec. change (Prim2SF 0) with (S754_zero false). unfold SFltb.
  destruct (Prim2SF x) as [[]|[]| |[] m e]; simpl; try done.
  - by left.
  - right. by eexists _, _.
Qed.

(** A float that is not at or below zero is positive, infinite or a NaN. *)
Lemma float_not_leb_zero (x : float) :
  (x <=? 0)%float = false →
  Prim2SF x = S754_nan ∨ Prim2SF x = S754_infinity false
  ∨ ∃ m e, Prim2SF x = S754_finite false m e.
Proof.
  rewrite leb_spec. change (Prim2SF 0) with (S754_zero false). unfold SFleb.
  destruct (Prim2SF x) as [[]|[]| |[] m e]; simpl; try done.
  - right. by left.
  - by left.
  - right. right. by eexists _, _.
Qed.

Lemma binary_round_aux_not_negative (m e : Z) (l : location) :
  SFltb (binary_round_aux prec emax false m e l) (S754_zero false) = false.
Proof.
  unfold binary_round_aux.
  destruct (shr_fexp prec emax m e l) as [mrs' e'].
  destruct (shr_fexp prec emax _ e' loc_Exact) as [mrs'' e''].
  destruct (shr_m mrs''); try done. by destruct (e'' <=? emax - prec).
Qed.

(** ** Scheduling *)

(** With jitter on, [apply_jitter] never returns less than one second,
    whatever the base, the ratio and the random draw are (a NaN included). *)
Lemma apply_jitter_floor (base_seconds ratio r : float) :
  (ratio <=? 0)%float = false →
  (1 <=? apply_jitter base_seconds ratio r)%float = true.
Proof. intros Hr. unfold apply_jitter. rewrite Hr. apply py_max_one. Qed.

(** With a positive backoff base, the backoff after a failed iteration never
    exceeds [poll_backoff_max], whatever it was before. *)
Lemma next_backoff_le_max (config : BotConfig) (backoff : float) :
  (0 <? Config.poll_backoff_base config)%float = true →
  (Config.poll_backoff_max config <? next_backoff config backoff)%float = false.
Proof. intros Hb. unfold next_backoff. rewrite Hb. apply py_min_le_left. Qed.

(** ** Staking *)

(** X1.  [kelly_fraction] never returns a negative number, for any pair of
    floats: it returns 0, a quotient of two positive numbers, or a NaN. *)
Theorem kelly_fraction_not_negative (edge_prob price : float) :
  (kelly_fraction edge_prob price <? 0)%float = false.
Proof.
  unfold kelly_fraction.
  destruct ((price <=? 0) || (1 <=? price))%float; [reflexivity|].
  set (b := (1 / price - 1)%float).
  set (numerator := (b * edge_prob - (1 - edge_prob))%float).
  destruct (numerator <=? 0)%float eqn:Hn; [reflexivity|].
  destruct (b <=? 0)%float eqn:Hb; [reflexivity|]. simpl.
  rewrite ltb_spec, div_spec. change (Prim2SF 0) with (S754_zero false).
  apply float_not_leb_zero in Hn, Hb.
  destruct Hn as [->|[->|(mn & en & ->)]]; [done| |];
    destruct Hb as [->|[->|(mb & eb & ->)]]; try done.
  unfold SF64div, SFdiv.
  destruct (SFdiv_core_binary prec emax (Z.pos mn) en (Z.pos mb) eb) as [[mz ez] lz].
  apply binary_round_aux_not_negative.
Qed.

(** X2.  A stake [place_bet] places on paper or sends to the venue is never
    above [max_stake] and never below [min_stake]. *)
Theorem placed_stake_within_bounds (candidate : Candidate) (config : BotConfig)
    (st : gmap string pyval) (env : PlaceEnv) (stake : float) :
  bet_outcome (place_bet candidate config st env) = PaperPlaced stake
  ∨ bet_outcome (place_bet candidate config st env) = LivePlaced stake →
  (Config.max_stake config <? stake)%float = false
  ∧ (stake <? Config.min_stake config)%float = false.
Proof.
  unfold place_bet.
  destruct (entry candidate) as [e|]; [|by intros [|]].
  destruct (grade candidate) as [g|]; [|by intros [|]].
  destruct (sharpSidePrice e) as [price|]; [|by intros [|]].
  destruct (_ <=? price)%float; [by intros [|]|].
  destruct (bankroll_of config st) as [bankroll|]; [|by intros [|]].
  destruct (final_stake _ _) as [stake'|] eqn:Hfs; [|by intros [|]].
  apply final_stake_clamp in Hfs as (_ & Hmax & Hmin).
  destruct (Config.dry_run config).
  { simpl. intros [[= <-]|?]; done. }
  destruct (pe_live env) as [tok resp|err].
  { simpl. intros [?|[= <-]]; done. }
  destruct (extract_cloudflare_ray_id err) as [[|c ray]|];
    try destruct (Config.stop_on_403 config); by intros [|].
Qed.

Lemma placed_stake_within_bounds_witness :
  (Config.max_stake default_config <? 1000 * kelly_fraction 0.57 0.50 * 0.25)%float = false
  ∧ (1000 * kelly_fraction 0.57 0.50 * 0.25 <? Config.min_stake default_config)%float
    = false.
Proof.
  apply (placed_stake_within_bounds (example_candidate "0xabc" 0.50 "A")
           default_config (state fresh_loop) (example_place_env (LiveRaised "unused"))).
  left. vm_compute. reflexivity.
Defined.

(** ** Run window *)

(** X3.  What [parse_time_window] accepts is a time of day: the text has
    exactly one colon, both sides are integers for [int], and the hour lies
    in 0..23 and the minute in 0..59. *)
Theorem parse_time_window_in_range (value : string) (hour minute : Z) :
  parse_time_window value = Some (hour, minute) →
  0 ≤ hour ≤ 23 ∧ 0 ≤ minute ≤ 59
  ∧ ∃ h m, split_colon value = [h; m]
           ∧ PyStr.int_of_string h = Some hour
           ∧ PyStr.int_of_string m = Some minute.
Proof.
  unfold parse_time_window. case_decide; [done|].
  destruct (split_colon value) as [|h [|m [|? ?]]]; try done.
  destruct (PyStr.int_of_string h) as [hh|] eqn:Hh; [|done].
  destruct (PyStr.int_of_string m) as [mm|] eqn:Hm; [|done].
  destruct (hh <? 0) eqn:H1; [done|]. destruct (23 <? hh) eqn:H2; [done|].
  destruct (mm <? 0) eqn:H3; [done|]. destruct (59 <? mm) eqn:H4; [done|].
  simpl. intros [= <- <-].
  apply Z.ltb_ge in H1, H2, H3, H4. split; [lia|]. split; [lia|]. by exists h, m.
Qed.

Lemma parse_time_window_in_range_witness :
  0 ≤ 22 ≤ 23 ∧ 0 ≤ 5 ≤ 59
  ∧ ∃ h m, split_colon "22:05" = [h; m]
           ∧ PyStr.int_of_string h = Some 22
           ∧ PyStr.int_of_string m = Some 5.
Proof. apply (parse_time_window_in_range "22:05" 22 5). reflexivity. Defined.

(** X4.  Both ends of a run window lie inside it.  A window whose ends differ
    and the window with the ends swapped cover the whole day between them,
    and the only times that lie in both are the two ends. *)
Theorem is_within_window_ends_and_reverse (now_h now_m : Z) (start end_ : Z * Z) :
  is_within_window start.1 start.2 start end_ = true
  ∧ is_within_window end_.1 end_.2 start end_ = true
  ∧ (start.1 * 60 + start.2 ≠ end_.1 * 60 + end_.2 →
     is_within_window now_h now_m start end_ || is_within_window now_h now_m end_ start
     = true)
  ∧ (is_within_window now_h now_m start end_ = true →
     is_within_window now_h now_m end_ start = true →
     now_h * 60 + now_m = start.1 * 60 + start.2
     ∨ now_h * 60 + now_m = end_.1 * 60 + end_.2).
Proof.
  unfold is_within_window.
  destruct start as [sh sm], end_ as [eh em]. simpl.
  repeat split.
  - destruct (sh * 60 + sm <=? eh * 60 + em) eqn:Hse;
      rewrite ?andb_true_iff, ?orb_true_iff, ?Z.leb_le; apply Z.leb_le in Hse || idtac; lia.
  - destruct (sh * 60 + sm <=? eh * 60 + em) eqn:Hse;
      rewrite ?andb_true_iff, ?orb_true_iff, ?Z.leb_le; apply Z.leb_le in Hse || idtac; lia.
  - destruct (sh * 60 + sm <=? eh * 60 + em) eqn:Hse,
      (eh * 60 + em <=? sh * 60 + sm) eqn:Hes;
      rewrite ?orb_true_iff, ?andb_true_iff, ?orb_true_iff, ?Z.leb_le;
      rewrite ?Z.leb_le, ?Z.leb_gt in Hse, Hes; lia.
  - destruct (sh * 60 + sm <=? eh * 60 + em) eqn:Hse,
      (eh * 60 + em <=? sh * 60 + sm) eqn:Hes;
      rewrite ?orb_true_iff, ?andb_true_iff, ?orb_true_iff, ?Z.leb_le;
      rewrite ?Z.leb_le, ?Z.leb_gt in Hse, Hes; lia.
Qed.

Lemma is_within_window_ends_and_reverse_witness :
  7 * 60 + 0 = 22 * 60 + 0 ∨ 7 * 60 + 0 = 7 * 60 + 0.
Proof.
  destruct (is_within_window_ends_and_reverse 7 0 (22, 0) (7, 0)) as (_ & _ & _ & Hboth).
  apply Hboth; reflexivity.
Defined.

(** ** Placement ledger, further *)

(** A float above [10^12] is above zero. *)
Lemma float_above_positive (x : float) :
  (1000000000000 <? x)%float = true → (0 <? x)%float = true.
Proof.
  rewrite !ltb_spec. change (Prim2SF 0) with (S754_zero false).
  assert (∃ m e, Prim2SF 1000000000000 = S754_finite false m e) as (m0 & e0 & ->)
    by (eexists _, _; vm_compute; reflexivity).
  unfold SFltb.
  destruct (Prim2SF x) as [[]|[]| |[] m e]; simpl; done.
Qed.

Section LedgerFurther.
Context `{DateTimeLib}.

(** X5.  An event time given as a JSON number or boolean never yields a
    negative timestamp, and one given as a run of digits yields a positive
    one; a number that is not above zero (zero, a negative number, a NaN)
    yields no timestamp. *)
Theorem parse_event_time_seconds_sign (raw_value : pyval) :
  (∀ ts, parse_event_time_seconds raw_value = Some ts →
     (match raw_value with VStr _ => False | _ => True end → 0 ≤ ts)
     ∧ (∀ s, raw_value = VStr s → PyStr.all_digits (PyStr.strip s) = true → 0 < ts))
  ∧ (∀ value, PyNum.number raw_value = Some value → (0 <? value)%float = false →
       parse_event_time_seconds raw_value = None).
Proof.
  split.
  - intros ts Hp. split.
    + intros Hnum. unfold parse_event_time_seconds in Hp.
      destruct raw_value as [|b|z|f|s|l|d]; try done.
      all: destruct (PyNum.number _) as [value|]; [|done]; simpl in Hp.
      all: destruct (0 <? _)%float eqn:Hpos; [|done].
      all: apply float_positive in Hpos as [Hinf|(m & e & Hfin)];
        unfold PyNum.int_of_float in Hp;
        [by rewrite Hinf in Hp|rewrite Hfin in Hp].
      all: simplify_eq; by apply Z.shiftl_nonneg.
    + intros s -> Hd. unfold parse_event_time_seconds in Hp.
      case_decide; [done|]. rewrite Hd in Hp. simpl in Hp.
      destruct (1000000000000 <? PyStr.decimal (PyStr.strip s)) eqn:Hms.
      * apply Z.ltb_lt in Hms. destruct (0 <? _) eqn:Hz; [|done].
        simplify_eq. by apply Z.ltb_lt.
      * destruct (0 <? _) eqn:Hz; [|done]. simplify_eq. by apply Z.ltb_lt.
  - intros value Hnum Hpos. unfold parse_event_time_seconds.
    assert (Hms : (1000000000000 <? value)%float = false).
    { destruct (1000000000000 <? value)%float eqn:Hms; [|done].
      apply float_above_positive in Hms. congruence. }
    destruct raw_value as [|b|z|f|s|l|d]; try done.
    all: rewrite Hnum; cbv zeta; by rewrite Hms, Hpos.
Qed.

(** A row kept at a later time is kept at an earlier one. *)
Lemma keeps_earlier (now1 now2 ttl grace : Z) (r : row) :
  now1 ≤ now2 → keeps now2 ttl grace r = true → keeps now1 ttl grace r = true.
Proof.
  intros Hle. unfold keeps.
  destruct (parse_event_time_seconds (dict_get r "eventTime")) as [ev|].
  - rewrite !Z.leb_le. lia.
  - rewrite !Z.leb_le.
    destruct (py_int (dict_get r "placedAt")) as [p|] eqn:Hp.
    + rewrite !(placed_at_of_int _ _ _ Hp). lia.
    + rewrite !(placed_at_of_default _ _ Hp). lia.
Qed.

(** X6.  Pruning composes over time: pruning at a time and again at a later
    time gives what pruning once at the later time gives, so pruning twice at
    one time changes nothing; and the later the time, the smaller the pruned
    ledger. *)
Theorem prune_placed_meta_later (meta : ledger) (now1 now2 ttl grace : Z) :
  now1 ≤ now2 →
  prune_placed_meta (prune_placed_meta meta now1 ttl grace) now2 ttl grace
  = prune_placed_meta meta now2 ttl grace
  ∧ prune_placed_meta meta now2 ttl grace ⊆ prune_placed_meta meta now1 ttl grace.
Proof.
  intros Hle. split.
  - apply map_eq. intros cid. apply option_eq. intros r.
    rewrite !prune_lookup. split.
    + by intros [[? _] ?].
    + intros [? Hk]. split; [split; [done|]|done]. by eapply keeps_earlier.
  - apply map_subseteq_spec. intros cid r. rewrite !prune_lookup.
    intros [? Hk]. split; [done|]. by eapply keeps_earlier.
Qed.

End LedgerFurther.

(** X5 at concrete event times: seconds with a fraction, and the numbers 0,
    -5 and [False]. *)
Lemma parse_event_time_seconds_sign_witness :
  0 ≤ 1700000000
  ∧ parse_event_time_seconds (VInt 0) = None
  ∧ parse_event_time_seconds (VFloat (-5)) = None
  ∧ parse_event_time_seconds (VBool false) = None.
Proof.
  split_and!.
  - destruct (parse_event_time_seconds_sign (VFloat 1700000000.9)) as [Hsign _].
    apply (Hsign 1700000000); [vm_compute; reflexivity|done].
  - destruct (parse_event_time_seconds_sign (VInt 0)) as [_ Hnone].
    apply (Hnone 0%float); vm_compute; reflexivity.
  - destruct (parse_event_time_seconds_sign (VFloat (-5))) as [_ Hnone].
    apply (Hnone (-5)%float); vm_compute; reflexivity.
  - destruct (parse_event_time_seconds_sign (VBool false)) as [_ Hnone].
    apply (Hnone 0%float); vm_compute; reflexivity.
Defined.

Lemma prune_placed_meta_later_witness :
  prune_placed_meta
    (prune_placed_meta {["0xabc" := make_row 1700000000 VNone]}
       1700000100 21600 1800)
    1700030000 21600 1800
  = prune_placed_meta {["0xabc" := make_row 1700000000 VNone]} 1700030000 21600 1800.
Proof.
  apply (prune_placed_meta_later {["0xabc" := make_row 1700000000 VNone]}
           1700000100 1700030000 21600 1800).
  lia.
Defined.

(** ** Order dispatcher, further *)

(** X12.  In a dry run a call of [place_bet] sends no order to the venue and
    does not end the process; every trade it logs is a paper trade without an
    error text; and what the venue would answer plays no part in it. *)
Theorem dry_run_sends_no_order (candidate : Candidate) (config : BotConfig)
    (st : gmap string pyval) (env : PlaceEnv) :
  Config.dry_run config = true →
  Forall (λ ev, is_live_order ev = false ∧ is_exit ev = false
                ∧ ∀ t, ev = EvTradeLog t →
                       trade_mode t = Paper ∧ trade_error t = None)
    (bet_events (place_bet candidate config st env))
  ∧ bet_outcome (place_bet candidate config st env) ≠ Halted
  ∧ (∀ error_text ray_id,
       bet_outcome (place_bet candidate config st env) ≠ LiveFailed error_text ray_id)
  ∧ ∀ live,
      place_bet candidate config st (Build_PlaceEnv (pe_time env) live (pe_post_ok env))
      = place_bet candidate config st env.
Proof.
  intros Hdry. unfold place_bet. rewrite Hdry.
  destruct (entry candidate) as [e|]; [|by repeat constructor].
  destruct (grade candidate) as [g|]; [|by repeat constructor].
  destruct (sharpSidePrice e) as [price|]; [|by repeat constructor].
  destruct (_ <=? price)%float; [by repeat constructor|].
  destruct (bankroll_of config st) as [bankroll|]; [|by repeat constructor].
  destruct (final_stake _ _) as [stake|]; [|by repeat constructor].
  split_and!; try done. simpl.
  repeat first [apply Forall_nil|apply Forall_cons; split].
  all: try by constructor.
  all: split_and!; try done; by intros t [= <-].
Qed.

Lemma dry_run_sends_no_order_witness :
  place_bet (example_candidate "0xabc" 0.50 "A") default_config (state fresh_loop)
    (Build_PlaceEnv 1700000000 (LiveOk (VStr "111") (VStr "matched")) true)
  = place_bet (example_candidate "0xabc" 0.50 "A") default_config (state fresh_loop)
      (example_place_env (LiveRaised "unused"))
  ∧ existsb is_live_order
      (bet_events
         (place_bet (example_candidate "0xabc" 0.50 "A") default_config
            (state fresh_loop) (example_place_env (LiveRaised "unused"))))
    = false.
Proof.
  destruct (dry_run_sends_no_order (example_candidate "0xabc" 0.50 "A") default_config
              (state fresh_loop) (example_place_env (LiveRaised "unused")) eq_refl)
    as (_ & _ & _ & Hlive).
  split; [apply (Hlive (LiveOk (VStr "111") (VStr "matched")))|vm_compute; reflexivity].
Defined.

(** ** Poll loop, further *)

Lemma ledger_ok_prune `{DateTimeLib} (meta : ledger) now ttl grace :
  ledger_ok meta → ledger_ok (prune_placed_meta meta now ttl grace).
Proof.
  intros [Hempty Hrows]. split.
  - by apply prune_lookup_None.
  - intros cid r Hr. apply prune_lookup in Hr as [Hr _]. by eapply Hrows.
Qed.

Lemma ledger_ok_normalize (st : gmap string pyval) now :
  ledger_ok (normalize_placed_meta st now).
Proof.
  unfold normalize_placed_meta.
  assert (Hnil : ledger_ok ∅).
  { split; [done|]. intros cid r. by rewrite lookup_empty. }
  assert (Hlegacy : ∀ legacy, ledger_ok (foldl (legacy_step now) ∅ legacy)).
  { intros legacy. split.
    - rewrite legacy_fold_lookup. case_decide as Hd; [by destruct Hd|done].
    - intros cid r. rewrite legacy_fold_lookup.
      case_decide; [|by rewrite lookup_empty]. intros [= <-]. by eexists _, _. }
  destruct (dict_get st "placedMeta") as [| | | | | |meta_raw];
    try (destruct (default (VList []) (st !! "placed")); by auto).
  split.
  - rewrite normalize_dict_lookup. by case_decide.
  - intros cid r. rewrite normalize_dict_lookup. case_decide; [done|].
    destruct (meta_raw !! cid) as [value|]; [|done]. simpl.
    intros [= <-]. by eexists _, _.
Qed.

(** The ledger written into a document comes back from it. *)
Lemma normalize_saved_document (ps : PassState) (now : Z) :
  ledger_ok (ps_placed_meta ps) →
  normalize_placed_meta (saved_document ps) now = ps_placed_meta ps.
Proof.
  intros [Hempty Hrows]. unfold normalize_placed_meta, saved_document, dict_get.
  rewrite lookup_insert_eq. simpl.
  apply map_eq. intros cid. rewrite normalize_dict_lookup.
  case_decide as Hc; [by subst|].
  rewrite lookup_fmap.
  destruct (ps_placed_meta ps !! cid) as [r|] eqn:Hr; [|done]. simpl.
  destruct (Hrows _ _ Hr) as (placed_at & event_time & ->).
  by f_equal.
Qed.

Lemma ends_with_cons {A} (x a : A) (l : list A) :
  (∃ pre, l = pre ++ [x]) → ∃ pre, a :: l = pre ++ [x].
Proof. intros [pre ->]. by exists (a :: pre). Qed.

Section LoopProperties.
Context `{DateTimeLib}.
Variable config : BotConfig.
Variable window : option (Z * Z) * option (Z * Z).

(** X7.  Every ledger the loop holds, from start-up on any state file and
    after any number of iterations, has no empty condition id, and each of
    its rows is exactly a [placedAt] integer and an [eventTime]. *)
Theorem ledger_rows_well_formed (envs : list CycleEnv)
    (loaded : gmap string pyval) (now_init : Z) :
  placed_meta (run_cycles config window envs (init_loop config loaded now_init)).1.1
    !! EmptyString = None
  ∧ ∀ cid (r : row),
      placed_meta (run_cycles config window envs (init_loop config loaded now_init)).1.1
        !! cid = Some r →
      ∃ (placed_at : Z) (event_time : pyval),
        r = <["placedAt" := VInt placed_at]> (<["eventTime" := event_time]> ∅).
Proof.
  change (ledger_ok
            (placed_meta
               (run_cycles config window envs (init_loop config loaded now_init)).1.1)).
  apply (run_cycles_preserves config window
           (λ ls, ledger_ok (placed_meta ls)) (λ _, True) (λ _, True)); [done| |].
  - intros env ls Hok. split; [|split; [by apply Forall_true|done]].
    destruct (run_cycle_ledger config window env ls) as [->|(now_ts & _ & ->)];
      [done|by apply ledger_ok_prune].
  - simpl. apply ledger_ok_prune, ledger_ok_normalize.
Qed.

(** X8.  A restart resumes from what was handed to [save_state].
    Normalising a document the loop handed over gives back the ledger the
    loop held then, whatever the clock reads at the restart; so the start-up
    on that document holds that ledger pruned at the restart time, and reads
    the bankroll of the document. *)
Theorem saved_document_restores_ledger (env : CycleEnv) (ls : LoopState)
    (document : gmap string pyval) (now_restart : Z) :
  ledger_ok (placed_meta ls) →
  EvSaveState document ∈ (run_cycle config window env ls).1.2 →
  normalize_placed_meta document now_restart
  = placed_meta (run_cycle config window env ls).1.1
  ∧ placed_meta (init_loop config document now_restart)
    = prune_placed_meta (placed_meta (run_cycle config window env ls).1.1)
        now_restart (Config.placed_ttl_seconds config)
        (Config.placed_event_grace_seconds config)
  ∧ bankroll_of config (state (init_loop config document now_restart))
    = bankroll_of config document.
Proof.
  intros Hok Hel.
  apply run_cycle_saved in Hel as (now_ts & _ & _ & -> & _ & -> & _).
  match goal with
  | |- context [saved_document ?ps] =>
      assert (Hn : normalize_placed_meta (saved_document ps) now_restart
                   = ps_placed_meta ps)
        by (apply normalize_saved_document; by apply ledger_ok_prune);
      set (start := ps) in *
  end.
  simpl in Hn. split; [done|]. split.
  - unfold init_loop. simpl. by rewrite Hn.
  - unfold init_loop, bankroll_of. simpl.
    destruct (saved_document start !! "bankroll") as [v|] eqn:Hb; simpl.
    + by rewrite Hb.
    + by rewrite lookup_insert_eq.
Qed.

(** X9.  The [placed] list of a document handed to [save_state] is in
    ascending order and holds exactly the condition ids of the ledger the
    loop holds, each once. *)
Theorem saved_placed_lists_the_ledger (env : CycleEnv) (ls : LoopState)
    (document : gmap string pyval) :
  EvSaveState document ∈ (run_cycle config window env ls).1.2 →
  ∃ ids,
    document !! "placed" = Some (VList (VStr <$> ids))
    ∧ Sorted str_le ids
    ∧ NoDup ids
    ∧ ∀ cid, cid ∈ ids ↔
             is_Some (placed_meta (run_cycle config window env ls).1.1 !! cid).
Proof.
  intros Hel.
  apply run_cycle_saved in Hel as (now_ts & _ & _ & -> & _ & -> & _).
  match goal with
  | |- context [saved_document (Build_PassState _ ?meta _ _)] =>
      set (pruned := meta)
  end.
  exists (merge_sort str_le (elements (dom pruned))).
  assert (Hperm : merge_sort str_le (elements (dom pruned)) ≡ₚ elements (dom pruned))
    by apply merge_sort_Permutation.
  split_and!.
  - unfold saved_document. rewrite lookup_insert_ne by done.
    by rewrite lookup_insert_eq.
  - apply (Sorted_merge_sort str_le).
  - rewrite Hperm. apply NoDup_elements.
  - intros cid. rewrite Hperm, elem_of_elements. apply elem_of_dom.
Qed.

(** X10.  With a positive cap, the rolling window of call timestamps never
    grows beyond [max_calls_per_hour]. *)
Theorem call_window_within_cap (envs : list CycleEnv) (ls : LoopState) :
  0 < Config.max_calls_per_hour config →
  Z.of_nat (length (call_timestamps ls)) ≤ Config.max_calls_per_hour config →
  Z.of_nat (length (call_timestamps (run_cycles config window envs ls).1.1))
  ≤ Config.max_calls_per_hour config.
Proof.
  intros Hpos Hls.
  apply (run_cycles_preserves config window
           (λ ls, Z.of_nat (length (call_timestamps ls))
                  ≤ Config.max_calls_per_hour config)
           (λ _, True) (λ _, True)); [done| |done].
  clear ls Hls. intros env ls Hls.
  split; [|split; [by apply Forall_true|done]].
  assert (Hevict : (length (evict (env_now env) (call_timestamps ls))
                    ≤ length (call_timestamps ls))%nat)
    by apply List.filter_length_le.
  cycle_cases config window env ls now_ts; try done; try lia.
  all: rewrite length_app; simpl.
  all: destruct (rate_capped_spec config (evict (env_now env) (call_timestamps ls)))
    as [_ Hspec].
  all: assert (¬ (0 < Config.max_calls_per_hour config
                  ≤ Z.of_nat (length (evict (env_now env) (call_timestamps ls)))))
    by (intros Hc; apply Hspec in Hc; congruence).
  all: lia.
Qed.

(** X11.  With a positive backoff base and a backoff limit that is not
    negative, the backoff never exceeds [poll_backoff_max] once it is within
    it, as it is at start-up. *)
Theorem backoff_within_max (envs : list CycleEnv) (ls : LoopState) :
  (0 <? Config.poll_backoff_base config)%float = true →
  (Config.poll_backoff_max config <? 0)%float = false →
  (Config.poll_backoff_max config <? backoff ls)%float = false →
  (Config.poll_backoff_max config
   <? backoff (run_cycles config window envs ls).1.1)%float = false.
Proof.
  intros Hbase Hmax Hls.
  apply (run_cycles_preserves config window
           (λ ls, (Config.poll_backoff_max config <? backoff ls)%float = false)
           (λ _, True) (λ _, True)); [done| |done].
  clear ls Hls. intros env ls Hls.
  split; [|split; [by apply Forall_true|done]].
  cycle_cases config window env ls now_ts; try done;
    by apply next_backoff_le_max.
Qed.

(** X13.  With jitter on, every sleep of the loop lasts at least one second,
    and every iteration that does not exit ends with such a sleep: the loop
    never spins, whatever [poll_seconds] and the backoff are. *)
Theorem loop_sleeps_at_least_a_second (envs : list CycleEnv) (ls : LoopState) :
  (Config.poll_jitter_ratio config <=? 0)%float = false →
  Forall sleeps_a_second (run_cycles config window envs ls).1.2
  ∧ ∀ env ls0,
      (run_cycle config window env ls0).2 = CycleNext →
      ∃ pre seconds,
        (run_cycle config window env ls0).1.2 = pre ++ [EvSleep seconds]
        ∧ (1 <=? seconds)%float = true.
Proof.
  intros Hjitter.
  assert (Hpoll : ∀ env, sleeps_a_second (poll_sleep config env)).
  { intros env. by apply apply_jitter_floor. }
  split.
  - destruct (run_cycles_preserves config window (λ _, True) sleeps_a_second
                (λ _, True) I) with (envs := envs) (ls := ls) as (_ & Hq & _);
      [|done|done].
    clear ls. intros env ls _. split; [done|]. split; [|done].
    cycle_cases config window env ls now_ts.
    all: repeat first [apply Forall_nil|apply Forall_cons; split].
    all: first [done|apply Hpoll|by apply apply_jitter_floor].
  - intros env ls0 _.
    assert (Hend : ∃ pre,
      (run_cycle config window env ls0).1.2 = pre ++ [poll_sleep config env]).
    { cycle_cases config window env ls0 now_ts.
      all: repeat first [by exists []|apply ends_with_cons]. }
    destruct Hend as [pre Hpre]. eexists pre, _. split; [exact Hpre|].
    by apply apply_jitter_floor.
Qed.

(** X14.  As written, the loop handles no candidate: over any number of
    iterations from any state its effects are sleeps, fetches and calls of
    [save_state], so [place_bet] is not called, no order is sent, no trade is
    logged, no pick is posted and [sys.exit] is not reached; the ledger in
    memory gains no entry, and the bankroll in the state document stays what
    it was. *)
Theorem run_loop_handles_no_candidate (envs : list CycleEnv) (ls : LoopState) :
  Forall (λ ev, match ev with
                | EvSleep _ | EvFetch | EvSaveState _ => True
                | EvPlaceBet _ _ | EvLiveOrder _ _ | EvTradeLog _
                | EvPostPick _ _ | EvExit _ => False
                end)
    (run_cycles config window envs ls).1.2
  ∧ (run_cycles config window envs ls).2 = CycleNext
  ∧ placed_meta (run_cycles config window envs ls).1.1 ⊆ placed_meta ls
  ∧ state (run_cycles config window envs ls).1.1 !! "bankroll"
    = state ls !! "bankroll".
Proof.
  destruct (run_cycles_preserves config window
              (λ ls', placed_meta ls' ⊆ placed_meta ls
                      ∧ state ls' !! "bankroll" = state ls !! "bankroll")
              (λ ev, is_dispatch_effect ev = false)
              (λ e, e = CycleNext) eq_refl)
      with (envs := envs) (ls := ls) as ([Hm Hb] & Hq & He); [|done|].
  - intros env ls0 [Hm Hb]. split_and!.
    + destruct (run_cycle_ledger config window env ls0) as [->|(now_ts & _ & ->)];
        [done|].
      etrans; [apply prune_subseteq|exact Hm].
    + by rewrite run_cycle_bankroll.
    + apply run_cycle_effects.
    + cycle_cases config window env ls0 now_ts; done.
  - split_and!; try done.
    eapply Forall_impl; [exact Hq|]. by intros [].
Qed.

End LoopProperties.

Lemma saved_document_restores_ledger_witness :
  normalize_placed_meta
    (state (run_cycle default_config (None, None) idle_cycle placed_loop).1.1)
    1700000500
  = placed_meta (run_cycle default_config (None, None) idle_cycle placed_loop).1.1
  ∧ placed_meta (run_cycle default_config (None, None) idle_cycle placed_loop).1.1
    = placed_meta placed_loop.
Proof.
  split; [|vm_compute; reflexivity].
  destruct (saved_document_restores_ledger default_config (None, None)
              idle_cycle placed_loop
              (state (run_cycle default_config (None, None) idle_cycle placed_loop).1.1)
              1700000500) as [Hsame _]; [| |exact Hsame].
  - split; [done|]. intros cid r Hr. cbn [placed_loop placed_meta] in Hr.
    apply lookup_singleton_Some in Hr as [_ <-]. by eexists _, _.
  - apply (list_elem_of_lookup_2 _ 1%nat). vm_compute. reflexivity.
Defined.

Lemma saved_placed_lists_the_ledger_witness :
  ∃ ids,
    state (run_cycle default_config (None, None) idle_cycle placed_loop).1.1 !! "placed"
    = Some (VList (VStr <$> ids))
    ∧ Sorted str_le ids
    ∧ NoDup ids
    ∧ ∀ cid, cid ∈ ids ↔
             is_Some (placed_meta
                        (run_cycle default_config (None, None) idle_cycle
                           placed_loop).1.1 !! cid).
Proof.
  apply (saved_placed_lists_the_ledger default_config (None, None)
           idle_cycle placed_loop).
  apply (list_elem_of_lookup_2 _ 1%nat). vm_compute. reflexivity.
Defined.

Lemma call_window_within_cap_witness :
  Z.of_nat (length (call_timestamps
                      (run_cycles (capped_config 2) (None, None)
                         [idle_cycle; paper_cycle; idle_cycle] stale_loop).1.1))
  ≤ 2.
Proof.
  apply (call_window_within_cap (capped_config 2) (None, None)
           [idle_cycle; paper_cycle; idle_cycle] stale_loop); vm_compute; congruence.
Defined.

Lemma backoff_within_max_witness :
  (Config.poll_backoff_max default_config
   <? backoff (run_cycles default_config (None, None)
                 [failing_cycle; paper_cycle; unsaved_cycle] backing_off_loop).1.1)%float
  = false.
Proof.
  apply (backoff_within_max default_config (None, None)
           [failing_cycle; paper_cycle; unsaved_cycle] backing_off_loop); reflexivity.
Defined.

Lemma loop_sleeps_at_least_a_second_witness :
  Forall sleeps_a_second
    (run_cycles default_config (None, None) [idle_cycle; failing_cycle]
       backing_off_loop).1.2.
Proof.
  destruct (loop_sleeps_at_least_a_second default_config (None, None)
              [idle_cycle; failing_cycle] backing_off_loop) as [Hall _];
    [reflexivity|exact Hall].
Defined.

(** X14 at a concrete run: from a fresh state, a feed that offers a grade A
    market at one half in three iterations leads to three fetches and
    nothing else but sleeps; the backoff, set back to 0 by each backoff
    sleep, is at its base of 2 after each of them. *)
Example run_loop_handles_no_candidate_example :
  (run_cycles default_config (None, None) [paper_cycle; paper_cycle; paper_cycle]
     fresh_loop).1.2
  = [EvFetch; EvSleep 20; EvSleep 2; EvFetch; EvSleep 20; EvSleep 2; EvFetch; EvSleep 20]
  ∧ backoff
      (run_cycles default_config (None, None) [paper_cycle; paper_cycle; paper_cycle]
         fresh_loop).1.1
    = 2%float
  ∧ state
      (run_cycles default_config (None, None) [paper_cycle; paper_cycle; paper_cycle]
         fresh_loop).1.1
    = state fresh_loop.
Proof. repeat split; vm_compute; reflexivity. Qed.

(** ** Environment file *)

Lemma load_dotenv_step_raised (lines : list string) :
  foldl load_dotenv_step None lines = None.
Proof. by induction lines. Qed.

(** X15.  [load_dotenv] never changes a variable the environment holds
    already, and a variable it adds gets the value of the first line of the
    file that assigns it. *)
Theorem load_dotenv_keeps_environment (environ environ' : gmap string string)
    (lines : list string) :
  load_dotenv environ (Some lines) = Some environ' →
  environ ⊆ environ'
  ∧ ∀ key value,
      environ' !! key = Some value → environ !! key = None →
      ∃ i raw_line,
        lines !! i = Some raw_line
        ∧ parse_env_line raw_line = Some (key, value)
        ∧ ∀ j raw value',
            (j < i)%nat → lines !! j = Some raw →
            parse_env_line raw ≠ Some (key, value').
Proof.
  unfold load_dotenv. revert environ.
  induction lines as [|line rest IH]; intros environ Hload.
  { simpl in Hload. simplify_eq. split; [done|]. intros key value ??. congruence. }
  simpl in Hload.
  assert (Hshift : ∀ key value,
    (∀ value', parse_env_line line ≠ Some (key, value')) →
    (∃ i raw_line,
       rest !! i = Some raw_line
       ∧ parse_env_line raw_line = Some (key, value)
       ∧ ∀ j raw value',
           (j < i)%nat → rest !! j = Some raw →
           parse_env_line raw ≠ Some (key, value')) →
    ∃ i raw_line,
      (line :: rest) !! i = Some raw_line
      ∧ parse_env_line raw_line = Some (key, value)
      ∧ ∀ j raw value',
          (j < i)%nat → (line :: rest) !! j = Some raw →
          parse_env_line raw ≠ Some (key, value')).
  { intros key value Hline (i & raw_line & Hi & Hp & Hfirst).
    exists (S i), raw_line. split; [done|]. split; [done|].
    intros [|j] raw value' Hj Hraw.
    - simpl in Hraw. simplify_eq. apply Hline.
    - simpl in Hraw. apply (Hfirst j); [lia|done]. }
  destruct (parse_env_line line) as [[k v]|] eqn:Hparse.
  - destruct (decide (is_Some (environ !! k))) as [Hin|Hnew].
    + destruct (IH _ Hload) as [Hsub Hnewkeys]. split; [done|].
      intros key value Hk Hnone.
      apply Hshift; [|by apply Hnewkeys].
      intros value' [= -> ->]. rewrite Hnone in Hin. by destruct Hin.
    + destruct (PyText.has_char nul k || PyText.has_char nul v).
      { by rewrite load_dotenv_step_raised in Hload. }
      assert (Hk : environ !! k = None).
      { destruct (environ !! k) eqn:E; [|done]. exfalso. apply Hnew. by eexists. }
      destruct (IH _ Hload) as [Hsub Hnewkeys]. split.
      { etrans; [|exact Hsub]. by apply insert_subseteq. }
      intros key value Hkey Hnone.
      destruct (decide (key = k)) as [->|Hne].
      * exists 0%nat, line. split; [done|].
        assert (value = v) as ->.
        { eapply (lookup_weaken _ _ k v) in Hsub; [|by rewrite lookup_insert_eq].
          congruence. }
        split; [done|]. intros j raw value' Hj. lia.
      * apply Hshift; [|apply Hnewkeys; [done|]].
        -- intros value' [= -> ->]. done.
        -- by rewrite lookup_insert_ne.
  - destruct (IH _ Hload) as [Hsub Hnewkeys]. split; [done|].
    intros key value Hk Hnone.
    apply Hshift; [done|by apply Hnewkeys].
Qed.

Lemma load_dotenv_keeps_environment_witness :
  ({["BOT_DRY_RUN" := "false"]} : gmap string string)
  ⊆ {["BOT_DRY_RUN" := "false"; "BOT_MAX_BETS" := "3"]}.
Proof.
  destruct (load_dotenv_keeps_environment
              {["BOT_DRY_RUN" := "false"]}
              {["BOT_DRY_RUN" := "false"; "BOT_MAX_BETS" := "3"]}
              ["# settings"; "BOT_DRY_RUN=true"; " BOT_MAX_BETS = '3' ";
               "BOT_MAX_BETS=9"]) as [Hsub _]; [|exact Hsub].
  vm_compute. reflexivity.
Defined.

(** ** Token resolution *)

Section TokenProperties.
Variable py_str : pyval → string.

(** With the token map of the condition id in the cache, [resolve_token_id]
    sends no request and leaves the cache alone. *)
Lemma resolve_token_id_cached (net : TokenNet) (cache : token_cache)
    (entry : SidedEntry) condition_id tokens :
  se_conditionId entry = Some condition_id → condition_id ≠ EmptyString →
  cache !! condition_id = Some tokens →
  resolve_token_id py_str net cache entry = (choose_token entry tokens, cache, []).
Proof.
  intros Hcid Hne Hhit. unfold resolve_token_id. rewrite Hcid.
  destruct condition_id as [|a c]; [done|].
  unfold fetch_clob_token_map. case_decide; [done|]. rewrite Hhit.
  destruct tokens as [|t tokens]; [|done].
  unfold fetch_token_map. case_decide; [done|]. by rewrite Hhit.
Qed.

(** A call of [resolve_token_id] that returns leaves the tokens it chose
    from in the cache, under the condition id. *)
Lemma resolve_token_id_result (net : TokenNet) (cache cache' : token_cache)
    (entry : SidedEntry) condition_id r requests :
  se_conditionId entry = Some condition_id → condition_id ≠ EmptyString →
  resolve_token_id py_str net cache entry = (Some r, cache', requests) →
  ∃ tokens, cache' !! condition_id = Some tokens
            ∧ choose_token entry tokens = Some r.
Proof.
  intros Hcid Hne. unfold resolve_token_id. rewrite Hcid.
  destruct condition_id as [|a c]; [done|].
  unfold fetch_clob_token_map. case_decide; [done|].
  destruct (cache !! String a c) as [v|] eqn:Hc.
  - destruct v as [|t v].
    + unfold fetch_token_map. case_decide; [done|]. rewrite Hc.
      intros [= <- <- <-]. by exists [].
    + intros [= Hr <- <-]. by exists (t :: v).
  - destruct (map_tokens (clob_token py_str) _) as [[|t mapped]|]; [| |done].
    + unfold fetch_token_map. case_decide; [done|]. rewrite Hc.
      destruct (match default (VList []) (net_gamma net (String a c)) with
                | VList l => l
                | VDict d => match d !! "data" with Some (VList l) => l | _ => [] end
                | _ => []
                end) as [|first markets].
      * intros [= <- <- <-]. exists []. by rewrite lookup_insert_eq.
      * destruct (py_or first (VDict ∅)); try done.
        destruct (map_tokens (gamma_token py_str) _) as [mapped|]; [|done].
        intros [= Hr <- <-]. exists mapped. by rewrite lookup_insert_eq.
    + intros [= Hr <- <-]. exists (t :: mapped). by rewrite lookup_insert_eq.
Qed.

Lemma find_elem_of {A} (f : A → bool) (l : list A) x :
  List.find f l = Some x → x ∈ l.
Proof. intros Hf. apply List.find_some in Hf as [Hin _]. by apply list_elem_of_In. Qed.

(** X16.  What [resolve_token_id] returns for an entry is kept: after a call
    that returned, every later call for that entry returns the same id
    without sending a request, whatever the services would answer then. *)
Theorem resolve_token_id_sticks (net net' : TokenNet) (cache cache' : token_cache)
    (entry : SidedEntry) (r : string) (requests : list request) :
  resolve_token_id py_str net cache entry = (Some r, cache', requests) →
  resolve_token_id py_str net' cache' entry = (Some r, cache', []).
Proof.
  intros Hres.
  destruct (se_conditionId entry) as [[|a c]|] eqn:Hcid.
  - unfold resolve_token_id in *. rewrite Hcid in *. by simplify_eq.
  - destruct (resolve_token_id_result _ _ _ _ _ _ _ Hcid ltac:(done) Hres)
      as (tokens & Hhit & Hchoice).
    rewrite (resolve_token_id_cached net' cache' entry _ tokens Hcid ltac:(done) Hhit).
    by rewrite Hchoice.
  - unfold resolve_token_id in *. rewrite Hcid in *. by simplify_eq.
Qed.

(** X17.  A failed look-up is remembered.  When neither service answers for
    a condition id that is not in the cache, [resolve_token_id] returns the
    empty id after one request to each service and caches the empty token
    map; every later call returns the empty id without a request, even when
    the services answer again. *)
Theorem failed_lookup_is_remembered (net net' : TokenNet) (cache : token_cache)
    (entry : SidedEntry) (condition_id : string) :
  se_conditionId entry = Some condition_id → condition_id ≠ EmptyString →
  cache !! condition_id = None →
  net_clob net condition_id = None → net_gamma net condition_id = None →
  resolve_token_id py_str net cache entry
  = (Some EmptyString, <[condition_id := []]> cache,
     [ReqClob condition_id; ReqGamma condition_id])
  ∧ resolve_token_id py_str net' (<[condition_id := []]> cache) entry
    = (Some EmptyString, <[condition_id := []]> cache, []).
Proof.
  intros Hcid Hne Hmiss Hclob Hgamma. split.
  - unfold resolve_token_id. rewrite Hcid.
    destruct condition_id as [|a c]; [done|].
    unfold fetch_clob_token_map. case_decide; [done|]. rewrite Hmiss, Hclob.
    simpl. unfold dict_get. rewrite lookup_empty. simpl.
    unfold fetch_token_map. case_decide; [done|]. by rewrite Hmiss, Hgamma.
  - rewrite (resolve_token_id_cached net' _ entry condition_id [] Hcid Hne);
      [done|by rewrite lookup_insert_eq].
Qed.

(** X18.  [resolve_token_id] never makes up a token id: an id it returns is
    empty or the id of one of the tokens the cache holds for the condition
    id of the entry. *)
Theorem resolve_token_id_from_tokens (net : TokenNet) (cache cache' : token_cache)
    (entry : SidedEntry) (r : string) (requests : list request) :
  resolve_token_id py_str net cache entry = (Some r, cache', requests) →
  r = EmptyString
  ∨ ∃ condition_id tokens token,
      se_conditionId entry = Some condition_id
      ∧ cache' !! condition_id = Some tokens
      ∧ token ∈ tokens
      ∧ tok_token_id token = r.
Proof.
  intros Hres.
  destruct (se_conditionId entry) as [[|a c]|] eqn:Hcid.
  - unfold resolve_token_id in *. rewrite Hcid in *. left. by simplify_eq.
  - destruct (resolve_token_id_result _ _ _ _ _ _ _ Hcid ltac:(done) Hres)
      as (tokens & Hhit & Hchoice).
    assert (Hfrom : r = EmptyString ∨ ∃ token, token ∈ tokens ∧ tok_token_id token = r).
    { revert Hchoice. unfold choose_token.
      destruct tokens as [|t0 tokens0]; [intros [= <-]; by left|].
      set (tokens := t0 :: tokens0).
      destruct (side_label (se_sideA entry)) as [side_a|]; [|done].
      destruct (side_label (se_sideB entry)) as [side_b|]; [|done].
      unfold pick_token.
      set (by_position := match tokens with [first; second] => _ | _ => _ end).
      assert (Hpos : by_position = EmptyString
                     ∨ ∃ token, token ∈ tokens ∧ tok_token_id token = by_position).
      { subst by_position tokens. destruct tokens0 as [|t1 [|t2 rest]]; try by left.
        destruct (is_text (se_sharpSide entry) "A").
        - right. exists t0. split; [|done]. set_solver.
        - destruct (is_text (se_sharpSide entry) "B"); [|by left].
          right. exists t1. split; [|done]. set_solver. }
      destruct (truthy _); [|by intros [= <-]].
      destruct (if is_text (se_sharpSide entry) "A" then side_a
                else if is_text (se_sharpSide entry) "B" then side_b
                else VStr EmptyString) as [| | | |label| |]; try done.
      destruct (List.find _ tokens) as [token|] eqn:Hexact.
      { intros [= <-]. right. exists token. split; [|done]. by eapply find_elem_of. }
      clear Hexact.
      destruct (List.find _ tokens) as [token|] eqn:Hpart.
      { intros [= <-]. right. exists token. split; [|done]. by eapply find_elem_of. }
      by intros [= <-]. }
    destruct Hfrom as [->|(token & Hin & Hid)]; [by left|].
    right. by exists (String a c), tokens, token.
  - unfold resolve_token_id in *. rewrite Hcid in *. left. by simplify_eq.
Qed.

End TokenProperties.

Lemma resolve_token_id_sticks_witness :
  resolve_token_id text_of silent_net
    (resolve_token_id text_of example_net ∅ example_sided_entry).1.2
    example_sided_entry
  = (Some "222"%string,
     (resolve_token_id text_of example_net ∅ example_sided_entry).1.2, []).
Proof.
  apply (resolve_token_id_sticks text_of example_net silent_net ∅ _
           example_sided_entry "222" [ReqClob "0xabc"]).
  vm_compute. reflexivity.
Defined.

Lemma failed_lookup_is_remembered_witness :
  resolve_token_id text_of example_net (<["0xabc"%string := []]> ∅) example_sided_entry
  = (Some EmptyString, <["0xabc"%string := []]> ∅, []).
Proof.
  destruct (failed_lookup_is_remembered text_of silent_net example_net ∅
              example_sided_entry "0xabc") as [_ Hlater];
    [reflexivity|done|reflexivity|reflexivity|reflexivity|exact Hlater].
Defined.

Lemma resolve_token_id_from_tokens_witness :
  "222"%string = EmptyString
  ∨ ∃ condition_id tokens token,
      se_conditionId example_sided_entry = Some condition_id
      ∧ (resolve_token_id text_of example_net ∅ example_sided_entry).1.2
          !! condition_id = Some tokens
      ∧ token ∈ tokens
      ∧ tok_token_id token = "222"%string.
Proof.
  apply (resolve_token_id_from_tokens text_of example_net ∅ _
           example_sided_entry "222" [ReqClob "0xabc"]).
  vm_compute. reflexivity.
Defined.

(** ** Outcome labels *)

Lemma string_app_cons (c : ascii) (a b : string) :
  (String c a ++ b)%string = String c (a ++ b)%string.
Proof. done. Qed.

Lemma split_cons (c : ascii) (s' : string) :
  PyText.split (String c s') =
  if PyStr.is_space c then PyText.split s'
  else
    match s' with
    | EmptyString => [String c EmptyString]
    | String c' _ =>
        if PyStr.is_space c' then String c EmptyString :: PyText.split s'
        else
          match PyText.split s' with
          | w :: ws => String c w :: ws
          | [] => [String c EmptyString]
          end
    end.
Proof. done. Qed.

(** A word: a run of characters without whitespace that is not empty. *)
Local Abbreviation no_space := (PyStr.all_chars (fun c => negb (PyStr.is_space c))).

(** The pieces [split] returns are words, and their characters are
    characters of the text. *)
Lemma split_words (p : ascii → bool) (s : string) :
  PyStr.all_chars p s = true →
  Forall (λ w, w ≠ EmptyString ∧ no_space w = true ∧ PyStr.all_chars p w = true)
    (PyText.split s).
Proof.
  induction s as [|c s' IH]; [by constructor|].
  intros Hp. change (p c && PyStr.all_chars p s' = true) in Hp.
  apply andb_true_iff in Hp as [Hc Hs']. specialize (IH Hs').
  rewrite split_cons.
  destruct (PyStr.is_space c) eqn:Hsp; [done|].
  assert (Hone : String c EmptyString ≠ EmptyString
                 ∧ no_space (String c EmptyString) = true
                 ∧ PyStr.all_chars p (String c EmptyString) = true).
  { split; [done|]. simpl. by rewrite Hsp, Hc. }
  destruct s' as [|c' s'']; [by constructor|].
  destruct (PyStr.is_space c') eqn:Hsp'; [by constructor|].
  destruct (PyText.split (String c' s'')) as [|w ws]; [by constructor|].
  apply Forall_cons in IH as [(Hw & Hns & Hpw) Hws].
  constructor; [|done]. split; [done|]. simpl. by rewrite Hsp, Hc, Hns, Hpw.
Qed.

Lemma split_word (w : string) :
  w ≠ EmptyString → no_space w = true → PyText.split w = [w].
Proof.
  induction w as [|c w' IH]; [done|]. intros _ Hns.
  change (negb (PyStr.is_space c) && no_space w' = true) in Hns.
  apply andb_true_iff in Hns as [Hc Hw']. apply negb_true_iff in Hc.
  rewrite split_cons, Hc.
  destruct w' as [|c' w'']; [done|].
  assert (Hc' : PyStr.is_space c' = false).
  { change (negb (PyStr.is_space c') && no_space w'' = true) in Hw'.
    apply andb_true_iff in Hw' as [Hc' _]. by apply negb_true_iff in Hc'. }
  rewrite Hc'. by rewrite IH.
Qed.

Lemma split_word_space (w rest : string) :
  w ≠ EmptyString → no_space w = true →
  PyText.split (w ++ String " " rest)%string = w :: PyText.split rest.
Proof.
  induction w as [|c w' IH]; [done|]. intros _ Hns.
  change (negb (PyStr.is_space c) && no_space w' = true) in Hns.
  apply andb_true_iff in Hns as [Hc Hw']. apply negb_true_iff in Hc.
  rewrite string_app_cons, split_cons, Hc.
  destruct w' as [|c' w''].
  - change (EmptyString ++ String " " rest)%string with (String " " rest).
    change (PyStr.is_space " ") with true. cbn iota. by rewrite split_cons.
  - assert (Hc' : PyStr.is_space c' = false).
    { change (negb (PyStr.is_space c') && no_space w'' = true) in Hw'.
      apply andb_true_iff in Hw' as [Hc' _]. by apply negb_true_iff in Hc'. }
    rewrite string_app_cons, Hc'. rewrite <- string_app_cons.
    by rewrite IH.
Qed.

Lemma join_cons_cons (sep w w2 : string) (ws : list string) :
  PyText.join sep (w :: w2 :: ws) = (w ++ sep ++ PyText.join sep (w2 :: ws))%string.
Proof. done. Qed.

Lemma split_join (ws : list string) :
  Forall (λ w, w ≠ EmptyString ∧ no_space w = true) ws →
  PyText.split (PyText.join " " ws) = ws.
Proof.
  induction ws as [|w [|w2 ws] IH]; intros Hws; [done| |].
  - apply Forall_cons in Hws as [[Hw Hns] _]. by apply split_word.
  - apply Forall_cons in Hws as [[Hw Hns] Hrest].
    rewrite join_cons_cons.
    change (" " ++ PyText.join " " (w2 :: ws))%string
      with (String " " (PyText.join " " (w2 :: ws))).
    rewrite split_word_space by done. by rewrite IH.
Qed.

Lemma lower_char_fixed (c : ascii) :
  PyText.lower_char (PyText.lower_char c) = PyText.lower_char c.
Proof. by destruct c as [[] [] [] [] [] [] [] []]. Qed.

Local Abbreviation lowered := (PyStr.all_chars (fun c => Ascii.eqb (PyText.lower_char c) c)).

Lemma lower_lowered (s : string) : lowered (PyText.lower s) = true.
Proof.
  induction s as [|c s IH]; [done|]. simpl.
  by rewrite lower_char_fixed, Ascii.eqb_refl, IH.
Qed.

Lemma lowered_lower (s : string) : lowered s = true → PyText.lower s = s.
Proof.
  induction s as [|c s IH]; [done|]. simpl. intros Hl.
  apply andb_true_iff in Hl as [Hc Hs]. apply Ascii.eqb_eq in Hc.
  by rewrite Hc, IH.
Qed.

Lemma all_chars_app (p : ascii → bool) (a b : string) :
  PyStr.all_chars p (a ++ b)%string = PyStr.all_chars p a && PyStr.all_chars p b.
Proof.
  induction a as [|c a IH]; [done|].
  rewrite string_app_cons. simpl. by rewrite IH, andb_assoc.
Qed.

Lemma all_chars_join (p : ascii → bool) (ws : list string) :
  p " "%char = true →
  Forall (λ w, PyStr.all_chars p w = true) ws →
  PyStr.all_chars p (PyText.join " " ws) = true.
Proof.
  intros Hsp. induction ws as [|w [|w2 ws] IH]; intros Hws; [done| |].
  - by apply Forall_cons in Hws as [? _].
  - apply Forall_cons in Hws as [Hw Hrest].
    rewrite join_cons_cons, !all_chars_app, Hw, (IH Hrest). simpl. by rewrite Hsp.
Qed.

Lemma lstrip_word (w rest : string) :
  w ≠ EmptyString → no_space w = true → PyStr.lstrip (w ++ rest)%string = (w ++ rest)%string.
Proof.
  destruct w as [|c w]; [done|]. intros _ Hns.
  change (negb (PyStr.is_space c) && no_space w = true) in Hns.
  apply andb_true_iff in Hns as [Hc _]. apply negb_true_iff in Hc.
  rewrite string_app_cons. simpl. by rewrite Hc.
Qed.

Lemma rstrip_cons (c : ascii) (s : string) :
  PyStr.rstrip s = s → s ≠ EmptyString → PyStr.rstrip (String c s) = String c s.
Proof. intros Hs Hne. simpl. rewrite Hs. by destruct s. Qed.

Lemma rstrip_word (w : string) :
  w ≠ EmptyString → no_space w = true → PyStr.rstrip w = w.
Proof.
  induction w as [|c w IH]; [done|]. intros _ Hns.
  change (negb (PyStr.is_space c) && no_space w = true) in Hns.
  apply andb_true_iff in Hns as [Hc Hw]. apply negb_true_iff in Hc.
  destruct w as [|c' w'].
  - simpl. by rewrite Hc.
  - apply rstrip_cons; [|done]. by apply IH.
Qed.

Lemma rstrip_app (a b : string) :
  PyStr.rstrip b = b → b ≠ EmptyString → PyStr.rstrip (a ++ b)%string = (a ++ b)%string.
Proof.
  intros Hb Hne. induction a as [|c a IH]; [done|].
  rewrite string_app_cons. apply rstrip_cons; [done|].
  destruct a; [done|]. by rewrite string_app_cons.
Qed.

Lemma join_nonempty (ws : list string) :
  Forall (λ w, w ≠ EmptyString ∧ no_space w = true) ws → ws ≠ [] →
  PyText.join " " ws ≠ EmptyString.
Proof.
  destruct ws as [|w [|w2 ws]]; [done| |]; intros Hws _;
    apply Forall_cons in Hws as [[Hw _] _]; [done|].
  rewrite join_cons_cons. by destruct w.
Qed.

Lemma lstrip_join (ws : list string) :
  Forall (λ w, w ≠ EmptyString ∧ no_space w = true) ws →
  PyStr.lstrip (PyText.join " " ws) = PyText.join " " ws.
Proof.
  destruct ws as [|w [|w2 ws]]; [done| |]; intros Hws;
    apply Forall_cons in Hws as [[Hw Hns] _].
  - simpl. rewrite <- (string_app_nil_r w). by apply lstrip_word.
  - rewrite join_cons_cons. by apply lstrip_word.
Qed.

Lemma rstrip_join (ws : list string) :
  Forall (λ w, w ≠ EmptyString ∧ no_space w = true) ws →
  PyStr.rstrip (PyText.join " " ws) = PyText.join " " ws.
Proof.
  induction ws as [|w [|w2 ws] IH]; intros Hws; [done| |].
  - apply Forall_cons in Hws as [[Hw Hns] _]. by apply rstrip_word.
  - apply Forall_cons in Hws as [_ Hrest].
    rewrite join_cons_cons, <- string_app_assoc.
    apply rstrip_app; [by apply IH|by apply join_nonempty].
Qed.

(** X19.  [normalize_outcome] returns a normal form: normalising twice gives
    what normalising once gives, and the result has no whitespace at its
    ends and no upper-case letter. *)
Theorem normalize_outcome_normal_form (value : string) :
  normalize_outcome (normalize_outcome value) = normalize_outcome value
  ∧ PyStr.strip (normalize_outcome value) = normalize_outcome value
  ∧ PyText.lower (normalize_outcome value) = normalize_outcome value.
Proof.
  unfold normalize_outcome.
  set (ws := PyText.split (PyText.lower (PyStr.strip value))).
  assert (Hws : Forall (λ w, w ≠ EmptyString ∧ no_space w = true ∧ lowered w = true) ws).
  { apply split_words, lower_lowered. }
  assert (Hwords : Forall (λ w, w ≠ EmptyString ∧ no_space w = true) ws).
  { eapply Forall_impl; [exact Hws|]. by intros w (? & ? & ?). }
  assert (Hstrip : PyStr.strip (PyText.join " " ws) = PyText.join " " ws).
  { unfold PyStr.strip. by rewrite lstrip_join, rstrip_join. }
  assert (Hlower : PyText.lower (PyText.join " " ws) = PyText.join " " ws).
  { apply lowered_lower, all_chars_join; [done|].
    eapply Forall_impl; [exact Hws|]. by intros w (? & ? & ?). }
  split; [|done]. by rewrite Hstrip, Hlower, split_join.
Qed.

(** ** Exit *)

(** X20.  A call of [place_bet] ends the process, or records an exit, only in
    live mode with [stop_on_403] on, after a live order that raised with an
    error text in which a ray id is found.  The order was tried, the trade is
    logged as a paper trade with the error text and that ray id, the exit
    code is 1, and the state document is as it was. *)
Theorem exit_only_in_live_mode_with_stop (candidate : Candidate) (config : BotConfig)
    (st : gmap string pyval) (env : PlaceEnv) :
  bet_outcome (place_bet candidate config st env) = Halted
  ∨ Exists (λ ev, is_exit ev = true) (bet_events (place_bet candidate config st env)) →
  Config.dry_run config = false
  ∧ Config.stop_on_403 config = true
  ∧ ∃ error_text c ray order_cid stake t,
      pe_live env = LiveRaised error_text
      ∧ extract_cloudflare_ray_id error_text = Some (String c ray)
      ∧ place_bet candidate config st env
        = Build_BetResult Halted
            [EvLiveOrder order_cid stake; EvTradeLog t; EvExit 1] st
      ∧ trade_mode t = Paper
      ∧ trade_error t = Some error_text
      ∧ trade_cloudflareRayId t = Some (String c ray).
Proof.
  assert (Hno : ∀ evs : list event,
    Forall (λ ev, is_exit ev = false) evs → Exists (λ ev, is_exit ev = true) evs → False).
  { intros evs Hall Hex. apply Exists_exists in Hex as (ev & Hin & Hev).
    rewrite Forall_forall in Hall. specialize (Hall _ Hin). congruence. }
  unfold place_bet.
  destruct (entry candidate) as [e|];
    [|intros [?|Hex]; [done|by apply Hno in Hex]].
  destruct (grade candidate) as [g|];
    [|intros [?|Hex]; [done|by apply Hno in Hex]].
  destruct (sharpSidePrice e) as [price|];
    [|intros [?|Hex]; [done|by apply Hno in Hex]].
  destruct (_ <=? price)%float;
    [intros [?|Hex]; [done|by apply Hno in Hex]|].
  destruct (bankroll_of config st) as [bankroll|];
    [|intros [?|Hex]; [done|by apply Hno in Hex]].
  destruct (final_stake _ _) as [stake|];
    [|intros [?|Hex]; [done|by apply Hno in Hex]].
  destruct (Config.dry_run config);
    [intros [?|Hex]; [done|apply Hno in Hex; [done|by repeat constructor]]|].
  destruct (pe_live env) as [tok resp|err];
    [intros [?|Hex]; [done|apply Hno in Hex; [done|by repeat constructor]]|].
  destruct (extract_cloudflare_ray_id err) as [[|c ray]|] eqn:Hray;
    try destruct (Config.stop_on_403 config).
  all: try (intros [?|Hex]; [done|apply Hno in Hex; [done|by repeat constructor]]).
  intros _. split; [done|]. split; [done|].
  eexists err, c, ray, _, _, _. split_and!; done.
Qed.

Lemma exit_only_in_live_mode_with_stop_witness :
  Config.dry_run (live_config true) = false
  ∧ Config.stop_on_403 (live_config true) = true
  ∧ ∃ error_text c ray order_cid stake t,
      pe_live (example_place_env
                 (LiveRaised "HTTP 403 Cloudflare Ray ID:\8a1b2c3d4e5f6a7b"))
      = LiveRaised error_text
      ∧ extract_cloudflare_ray_id error_text = Some (String c ray)
      ∧ place_bet (example_candidate "0xabc" 0.50 "A") (live_config true)
          (state fresh_loop)
          (example_place_env (LiveRaised "HTTP 403 Cloudflare Ray ID:\8a1b2c3d4e5f6a7b"))
        = Build_BetResult Halted
            [EvLiveOrder order_cid stake; EvTradeLog t; EvExit 1] (state fresh_loop)
      ∧ trade_mode t = Paper
      ∧ trade_error t = Some error_text
      ∧ trade_cloudflareRayId t = Some (String c ray).
Proof.
  apply (exit_only_in_live_mode_with_stop (example_candidate "0xabc" 0.50 "A")
           (live_config true) (state fresh_loop)
           (example_place_env (LiveRaised "HTTP 403 Cloudflare Ray ID:\8a1b2c3d4e5f6a7b"))).
  left. vm_compute. reflexivity.
Defined.

(** X20 at error texts: with [stop_on_403] on, a live order that raised with
    a ray id in its text halts; without a ray id in the text, and with
    [stop_on_403] off, the call returns. *)
Example exit_needs_ray_id_and_stop :
  bet_outcome
    (place_bet (example_candidate "0xabc" 0.50 "A") (live_config true) (state fresh_loop)
       (example_place_env (LiveRaised "HTTP 403 Cloudflare Ray ID:\8a1b2c3d4e5f6a7b")))
  = Halted
  ∧ bet_outcome
      (place_bet (example_candidate "0xabc" 0.50 "A") (live_config true)
         (state fresh_loop) (example_place_env (LiveRaised "HTTP 403 Forbidden")))
    = LiveFailed "HTTP 403 Forbidden" None
  ∧ bet_outcome
      (place_bet (example_candidate "0xabc" 0.50 "A") (live_config false)
         (state fresh_loop)
         (example_place_env (LiveRaised "HTTP 403 Cloudflare Ray ID:\8a1b2c3d4e5f6a7b")))
    = LiveFailed "HTTP 403 Cloudflare Ray ID:\8a1b2c3d4e5f6a7b" (Some "8a1b2c3d4e5f6a7b"%string).
Proof. repeat split; vm_compute; reflexivity. Qed.

(** ** Start-up on a legacy state *)

Section LegacyState.
Context `{DateTimeLib}.
Variable config : BotConfig.

(** X21.  Start-up on a legacy state, which has a [placed] list and no
    [placedMeta] dict, forgets no placement: with a ttl that is not
    negative, the ledger the loop starts with holds exactly the non-empty
    string items of the list, each placed at the time of the start-up. *)
Theorem legacy_state_is_migrated (loaded : gmap string pyval) (legacy : list pyval)
    (now_init : Z) (cid : string) (r : row) :
  (∀ d, dict_get loaded "placedMeta" ≠ VDict d) →
  loaded !! "placed" = Some (VList legacy) →
  0 ≤ Config.placed_ttl_seconds config →
  placed_meta (init_loop config loaded now_init) !! cid = Some r ↔
  cid ≠ EmptyString ∧ VStr cid ∈ legacy
  ∧ r = <["placedAt" := VInt now_init]> (<["eventTime" := VNone]> ∅).
Proof.
  intros Hnd Hl Httl. unfold init_loop. simpl.
  change (<["placedAt" := VInt now_init]> (<["eventTime" := VNone]> ∅))
    with (make_row now_init VNone).
  rewrite prune_lookup.
  assert (Hnorm : normalize_placed_meta loaded now_init !! cid = Some r ↔
                  cid ≠ EmptyString ∧ VStr cid ∈ legacy ∧ r = make_row now_init VNone).
  { unfold normalize_placed_meta.
    destruct (dict_get loaded "placedMeta") eqn:E;
      try (by exfalso; eapply Hnd); rewrite Hl; simpl;
      rewrite legacy_fold_lookup, <- elem_of_legacy_ids, lookup_empty;
      case_decide; naive_solver. }
  rewrite Hnorm. split; [by intros [? _]|].
  intros (Hne & Hin & ->). split; [done|].
  unfold keeps. change (dict_get (make_row now_init VNone) "eventTime") with VNone.
  change (parse_event_time_seconds VNone) with (@None Z).
  rewrite (placed_at_of_int _ _ now_init) by done.
  apply Z.leb_le. lia.
Qed.

End LegacyState.

Lemma legacy_state_is_migrated_witness :
  placed_meta (init_loop default_config
                 {["placed" := VList [VStr "0xold"; VStr "0xabc"]]} 1700000000)
    !! "0xabc"%string
  = Some (<["placedAt" := VInt 1700000000]> (<["eventTime" := VNone]> ∅)).
Proof.
  apply (legacy_state_is_migrated default_config
           {["placed" := VList [VStr "0xold"; VStr "0xabc"]]}
           [VStr "0xold"; VStr "0xabc"] 1700000000 "0xabc").
  - intros d. vm_compute. congruence.
  - reflexivity.
  - vm_compute. congruence.
  - split; [done|]. split; [|done]. set_solver.
Defined.
